(** * AWS Ollama platform: request handlers of the instance orchestrator

    A shallow embedding of the three Lambda handlers of the repository
    - [lambda-functions/instances/lambda_function.py]  (module [LambdaFunction]),
    - [src/lambda/instances.py]                        (module [Instances]),
    - [src/lambda/models.py]                           (module [Models]),
    over an explicit world (DynamoDB tables, the calls issued to ECS, ELB
    and CloudWatch Logs, the log lines written) and an environment that
    fixes what the external services and the Python runtime answer. *)

From Stdlib Require Import ZArith List String Ascii Bool Lia.
From Stdlib Require Import OrderedTypeEx Sorting.Sorted Sorting.Permutation.
From stdpp Require Import gmap strings list fin_maps pretty.

Set Warnings "-register-all".

Local Open Scope string_scope.
Local Open Scope Z_scope.

(** ** Python values

    JSON documents, DynamoDB items, token claims and response bodies are
    dynamically typed; a dictionary keeps its insertion order. *)

Inductive pyval : Type :=
| PNone
| PBool (b : bool)
| PInt (z : Z)
| PStr (s : string)
| PList (l : list pyval)
| PDict (d : list (string * pyval)).

Abbreviation dict := (list (string * pyval)).

(** [d.get(k)] on the association list of a dictionary. *)
Fixpoint dget (k : string) (d : dict) : option pyval :=
  match d with
  | [] => None
  | (k', v) :: d' => if String.eqb k k' then Some v else dget k d'
  end.

(** [d[k] = v]: replace in place, or append a new key. *)
Fixpoint dset (k : string) (v : pyval) (d : dict) : dict :=
  match d with
  | [] => [(k, v)]
  | (k', v') :: d' =>
      if String.eqb k k' then (k', v) :: d' else (k', v') :: dset k v d'
  end.

(** [k in d] *)
Definition dmem (k : string) (d : dict) : bool :=
  match dget k d with Some _ => true | None => false end.

(** [d.get(k, default)] *)
Definition dget_default (k : string) (default : pyval) (d : dict) : pyval :=
  match dget k d with Some v => v | None => default end.

(** Python truth value of an object. *)
Definition truthy (v : pyval) : bool :=
  match v with
  | PNone => false
  | PBool b => b
  | PInt z => negb (z =? 0)
  | PStr s => negb (String.eqb s EmptyString)
  | PList l => match l with [] => false | _ => true end
  | PDict d => match d with [] => false | _ => true end
  end.


(** Python [==]: booleans are the integers 0 and 1, lists compare
    element by element, dictionaries key by key. *)
Fixpoint py_eq (a b : pyval) {struct a} : bool :=
  match a, b with
  | PNone, PNone => true
  | PBool x, PBool y => Bool.eqb x y
  | PBool x, PInt y => Z.b2z x =? y
  | PInt x, PBool y => x =? Z.b2z y
  | PInt x, PInt y => x =? y
  | PStr x, PStr y => String.eqb x y
  | PList x, PList y =>
      (fix go (x y : list pyval) {struct x} : bool :=
         match x, y with
         | [], [] => true
         | u :: x', v :: y' => py_eq u v && go x' y'
         | _, _ => false
         end) x y
  | PDict x, PDict y =>
      (length x =? length y)%nat &&
      (fix go (x : dict) {struct x} : bool :=
         match x with
         | [] => true
         | (k, u) :: x' =>
             match dget k y with
             | Some v => py_eq u v && go x'
             | None => false
             end
         end) x
  | _, _ => false
  end.

(** [s == v] for a string literal [s]. *)
Definition is_str (s : string) (v : pyval) : bool := py_eq v (PStr s).

(** ** Strings *)

(** [s.startswith(p)] *)
Definition startswith (s p : string) : bool := String.prefix p s.

(** [s.endswith(p)] *)
Definition endswith (s p : string) : bool :=
  let n := String.length s in
  let m := String.length p in
  (m <=? n)%nat && String.eqb (String.substring (n - m) m s) p.

(** [s.count(c)] for a one-character needle. *)
Fixpoint count_char (c : ascii) (s : string) : nat :=
  match s with
  | EmptyString => 0%nat
  | String c' s' =>
      ((if Ascii.eqb c c' then 1 else 0) + count_char c s')%nat
  end.

(** [s.split(c)] for a one-character separator: never empty. *)
Fixpoint split_on (c : ascii) (s : string) : list string :=
  match s with
  | EmptyString => [EmptyString]
  | String c' s' =>
      if Ascii.eqb c c' then EmptyString :: split_on c s'
      else match split_on c s' with
           | [] => [String c' EmptyString]
           | w :: ws => String c' w :: ws
           end
  end.

(** [s[:n]] *)
Definition str_prefix (n : nat) (s : string) : string := String.substring 0 n s.

(** [l[-1]] and [l[-2]] (the latter fails on a one-element list). *)
Definition last_item (l : list string) : option string := last l.

Definition second_last_item (l : list string) : option string :=
  match rev l with
  | _ :: x :: _ => Some x
  | _ => None
  end.

(** ** Exceptions and results *)

Inductive exn_class : Type :=
| KeyError | TypeError | AttributeError | ValueError | IndexError
| JSONDecodeError
| ClientError                 (* botocore: any service-side failure *)
| ResourceNotFoundException   (* CloudWatch Logs *)
| PlainException.             (* raise Exception("...") *)

(** An exception object: its class and [str(e)]. *)
Record exn : Type := Exn { exn_cls : exn_class; exn_str : string }.

Inductive result (A : Type) : Type :=
| Ok (a : A)
| Raise (e : exn).
Arguments Ok {A} a.
Arguments Raise {A} e.

Global Instance exn_class_eq_dec : EqDecision exn_class.
Proof. solve_decision. Defined.

(** ** What the external services exchange with the handlers *)

(** One entry of [describe_services]' [services] list; an absent key is
    [None] (the code reads every key with [.get]). *)
Record ecs_service : Type := {
  svc_status : option string;
  svc_desiredCount : option Z;
  svc_runningCount : option Z;
  svc_pendingCount : option Z;
  svc_serviceArn : option string;
  svc_taskDefinition : option string;
  svc_platformVersion : option string;
  svc_launchType : option string;
  svc_createdAt : option string   (* already in ISO format *)
}.

(** One entry of [describe_tasks]' [tasks] list. *)
Record ecs_task : Type := { task_lastStatus : option string }.

(** One entry of [get_log_events]' [events] list. *)
Record log_event : Type := { ev_timestamp : Z; ev_message : string }.

(** Parameters of [logs_client.describe_log_streams] (instances.py). *)
Record describe_log_streams_params : Type := {
  dls_logGroupName : string;
  dls_logStreamNamePrefix : string;
  dls_orderBy : string;
  dls_descending : bool;
  dls_limit : Z
}.

(** Parameters of [logs_client.get_log_events] (instances.py). *)
Record get_log_events_params : Type := {
  gle_logGroupName : string;
  gle_logStreamName : string;
  gle_limit : Z;
  gle_startFromHead : bool
}.

Record placement_constraint : Type := {
  pc_type : string;
  pc_expression : string
}.

Record awsvpc_configuration : Type := {
  vpc_subnets : list string;
  vpc_securityGroups : list (option string);
  vpc_assignPublicIp : string
}.

(** Parameters of [ecs_client.run_task] (lambda_function.py). *)
Record run_task_params : Type := {
  rt_cluster : string;
  rt_taskDefinition : string;
  rt_launchType : string;
  rt_container_name : string;
  rt_container_environment : list (string * pyval);
  rt_container_image : option string;
  rt_tags : list (string * pyval);
  rt_networkConfiguration : option awsvpc_configuration;
  rt_placementConstraints : option (list placement_constraint)
}.

(** Parameters of [ecs_client.register_task_definition] (models.py); the
    static port mapping, health check and log driver of the container are
    left out, [td_cpu] and [td_memory] are the values whose [str()] is
    sent, [td_family] the pieces of the f-string that names the family. *)
Record task_def : Type := {
  td_family : list pyval;
  td_networkMode : string;
  td_requiresCompatibilities : list string;
  td_cpu : pyval;
  td_memory : pyval;
  td_executionRoleArn : option string;
  td_taskRoleArn : option string;
  td_image : pyval;
  td_environment : list (string * pyval);
  td_awslogs_group : string;
  td_awslogs_region : string;
  td_awslogs_stream_prefix : string;
  td_gpu : bool;                    (* resourceRequirements = GPU x 1 *)
  td_tags : list (string * pyval);
  td_placementConstraints : option (list placement_constraint)
}.

(** Parameters of [ecs_client.create_service] (models.py). *)
Record create_service_params : Type := {
  cs_cluster : string;
  cs_serviceName : string;
  cs_taskDefinition : string;
  cs_desiredCount : Z;
  cs_launchType : string;
  cs_networkConfiguration : option awsvpc_configuration;
  cs_targetGroupArn : string;
  cs_containerName : string;
  cs_containerPort : Z;
  cs_tags : list (string * pyval)
}.

(** Every call issued to ECS, ELB and CloudWatch Logs, and the pause of
    [stop_model], in the order issued. *)
Inductive aws_call : Type :=
| EcsRunTask (p : run_task_params)
| EcsStopTask (cluster : string) (task : pyval)
| EcsDescribeTasks (cluster : string) (task : pyval)
| EcsRegisterTaskDefinition (td : task_def)
| EcsCreateService (p : create_service_params)
| EcsUpdateService (cluster : string) (service : pyval) (desiredCount : Z)
| EcsDeleteService (cluster : string) (service : pyval)
| EcsDescribeServices (cluster : string) (service : pyval)
| ElbCreateTargetGroup (name : string)
| ElbDeleteTargetGroup (arn : pyval)
| LogsDescribeLogStreams (p : describe_log_streams_params)
| LogsGetLogEvents (p : get_log_events_params)
| TimeSleep (seconds : Z).

(** Requests to a DynamoDB table, as the environment sees them. *)
Inductive dynamo_op : Type :=
| GetItem (key : pyval)
| PutItem (item : dict)
| UpdateItem (key : pyval)
| DeleteItem (key : pyval)
| Scan
| Query (index : string) (value : pyval).

Inductive log_level : Type := INFO | WARNING | ERROR.

(** ** The world and the environment *)

(** A table maps the value of its key attribute to the item. *)
Record World : Type := {
  tables : gmap string (gmap string dict);
  calls : list aws_call;
  logged : list (log_level * string)
}.

(** What the Python runtime and the services answer during one
    invocation: process environment, library functions that are not
    part of the repository, faults of the store, and the responses of
    ECS, ELB and CloudWatch Logs. *)
Record Env : Type := {
  (* os.environ *)
  environ : gmap string string;
  (* json.loads: a parsed document, or JSONDecodeError / TypeError *)
  json_loads : pyval -> result pyval;
  (* int(s) on a string: None is ValueError *)
  py_int : string -> option Z;
  (* str(uuid.uuid4()) *)
  uuid4 : string;
  (* datetime.now(timezone.utc): .isoformat() and int(.timestamp()) *)
  now_iso : string;
  now_timestamp : Z;
  (* datetime.fromtimestamp(ms / 1000, timezone.utc).isoformat(): a
     timestamp out of the range of the platform raises *)
  isoformat_ms : Z -> result string;
  (* a DynamoDB request that fails, whatever the table holds *)
  dynamo_fault : string -> dynamo_op -> option exn;
  (* ECS: run_task answers the task ARNs, register_task_definition and
     create_service the ARN created, the describe calls what they list *)
  ecs_run_task : run_task_params -> result (list string);
  ecs_stop_task : string -> pyval -> option exn;
  ecs_describe_tasks : string -> pyval -> result (list ecs_task);
  ecs_register_task_definition : task_def -> result string;
  ecs_create_service : create_service_params -> result string;
  ecs_update_service : string -> pyval -> Z -> option exn;
  ecs_delete_service : string -> pyval -> option exn;
  ecs_describe_services : string -> pyval -> result (list ecs_service);
  (* ELB: the ARNs of the target groups created *)
  elb_create_target_group : string -> result (list string);
  elb_delete_target_group : pyval -> option exn;
  (* CloudWatch Logs: the names of the streams, the events of a stream *)
  logs_describe_log_streams :
    describe_log_streams_params -> result (list string);
  logs_get_log_events : get_log_events_params -> result (list log_event)
}.

(** ** The monad of a handler: state and exceptions

    An exception keeps the effects that happened before it. *)

Definition M (A : Type) : Type := World -> result A * World.

Definition ret {A} (a : A) : M A := fun w => (Ok a, w).

Definition raise {A} (e : exn) : M A := fun w => (Raise e, w).

Definition bind {A B} (m : M A) (k : A -> M B) : M B :=
  fun w =>
    match m w with
    | (Ok a, w') => k a w'
    | (Raise e, w') => (Raise e, w')
    end.

(** [try: m  except Exception as e: h e] *)
Definition try_except {A} (m : M A) (h : exn -> M A) : M A :=
  fun w =>
    match m w with
    | (Ok a, w') => (Ok a, w')
    | (Raise e, w') => h e w'
    end.

(** [try: m  except <cls>: h]; other classes propagate. *)
Definition try_except_class {A} (cls : exn_class) (m : M A) (h : M A) : M A :=
  fun w =>
    match m w with
    | (Ok a, w') => (Ok a, w')
    | (Raise e, w') =>
        if decide (exn_cls e = cls) then h w' else (Raise e, w')
    end.

Declare Scope py_scope.
Delimit Scope py_scope with py.
Notation "'let*' x ':=' m 'in' k" := (bind m (fun x => k))
  (at level 10, x name, m at level 100, k at level 200) : py_scope.
Notation "'do' m 'in' k" := (bind m (fun _ => k))
  (at level 10, m at level 100, k at level 200) : py_scope.
Local Open Scope py_scope.

Definition lift_result {A} (r : result A) : M A := fun w => (r, w).

Definition lift_option {A} (e : exn) (o : option A) : M A :=
  match o with Some a => ret a | None => raise e end.

Definition lift_fault (o : option exn) : M unit :=
  match o with Some e => raise e | None => ret tt end.

(** Record a call issued to a service. *)
Definition issue (c : aws_call) : M unit :=
  fun w => (Ok tt, {| tables := tables w; calls := calls w ++ [c];
                      logged := logged w |}).

(** [logger.info / warning / error]; the interpolated parts of the
    message are not kept. *)
Definition logger (lvl : log_level) (msg : string) : M unit :=
  fun w => (Ok tt, {| tables := tables w; calls := calls w;
                      logged := logged w ++ [(lvl, msg)] |}).

Definition key_error (k : string) : exn := Exn KeyError k.
Definition attribute_error (a : string) : exn := Exn AttributeError a.
Definition type_error (m : string) : exn := Exn TypeError m.
Definition validation_error : exn := Exn ClientError "ValidationException".
Definition table_not_found : exn := Exn ClientError "ResourceNotFoundException".

(** [d[k]] *)
Definition subscript (d : dict) (k : string) : M pyval :=
  lift_option (key_error k) (dget k d).

(** [v.get(k, default)] on an arbitrary object: only dictionaries have
    [get]. *)
Definition py_get (v : pyval) (k : string) (default : pyval) : M pyval :=
  match v with
  | PDict d => ret (dget_default k default d)
  | _ => raise (attribute_error "get")
  end.

(** ** Runtime primitives: process environment, DynamoDB, service calls *)

(** DynamoDB compares typed attribute values: a number is never equal
    to a boolean. *)
Definition ddb_eq (a b : pyval) : bool :=
  match a, b with
  | PBool _, PInt _ | PInt _, PBool _ => false
  | _, _ => py_eq a b
  end.

(** [Attr(k).eq(v)] on an item. *)
Definition attr_eq (k : string) (v : pyval) (item : dict) : bool :=
  match dget k item with
  | Some v' => ddb_eq v' v
  | None => false
  end.

Definition set_table (tn : string) (t : gmap string dict) (w : World) : World :=
  {| tables := <[tn := t]> (tables w); calls := calls w; logged := logged w |}.

(** [SET a = v, ...] on an item. *)
Definition apply_sets (sets : list (string * pyval)) (item : dict) : dict :=
  fold_left (fun it kv => dset (fst kv) (snd kv) it) sets item.

Section Runtime.
Variable E : Env.

(** [os.environ[k]] *)
Definition os_environ (k : string) : M string :=
  lift_option (key_error k) (environ E !! k).

(** [os.environ.get(k)] and [os.environ.get(k, d)] *)
Definition os_environ_get (k : string) : option string := environ E !! k.

Definition os_environ_get_default (k d : string) : string :=
  default d (environ E !! k).

(** A read of table [tn]: the environment may fail it, the table must
    exist, a key must be a string. *)
Definition read_table {A} (tn : string) (op : dynamo_op) (key : option pyval)
    (f : gmap string dict -> option string -> A) : M A :=
  fun w =>
    match dynamo_fault E tn op with
    | Some e => (Raise e, w)
    | None =>
        match tables w !! tn with
        | None => (Raise table_not_found, w)
        | Some t =>
            match key with
            | None => (Ok (f t None), w)
            | Some (PStr k) => (Ok (f t (Some k)), w)
            | Some _ => (Raise validation_error, w)
            end
        end
    end.

(** A write to the item of key [key] in table [tn]. *)
Definition write_table (tn : string) (op : dynamo_op) (key : pyval)
    (f : gmap string dict -> string -> gmap string dict) : M unit :=
  fun w =>
    match dynamo_fault E tn op with
    | Some e => (Raise e, w)
    | None =>
        match tables w !! tn with
        | None => (Raise table_not_found, w)
        | Some t =>
            match key with
            | PStr k => (Ok tt, set_table tn (f t k) w)
            | _ => (Raise validation_error, w)
            end
        end
    end.

(** [table.get_item(Key={attr: key})]: [Some item] when the response
    has an ['Item']. *)
Definition get_item (tn : string) (key : pyval) : M (option dict) :=
  read_table tn (GetItem key) (Some key) (fun t k => k ≫= (t !!.)).

(** [table.put_item(Item=item)]; [keyattr] is the key attribute of the
    table. *)
Definition put_item (tn keyattr : string) (item : dict) : M unit :=
  write_table tn (PutItem item) (dget_default keyattr PNone item)
    (fun t k => <[k := item]> t).

(** [table.update_item(Key={keyattr: key}, UpdateExpression='SET ...')]:
    creates the item when the key is new. *)
Definition update_item (tn keyattr : string) (key : pyval)
    (sets : list (string * pyval)) : M unit :=
  write_table tn (UpdateItem key) key
    (fun t k =>
       <[k := apply_sets sets (default [(keyattr, PStr k)] (t !! k))]> t).

(** [table.delete_item(Key={attr: key})] *)
Definition delete_item (tn : string) (key : pyval) : M unit :=
  write_table tn (DeleteItem key) key (fun t k => delete k t).

(** [table.scan()] and [table.scan(FilterExpression=...)]: the
    ['Items'] of the response. *)
Definition scan (tn : string) (flt : dict -> bool) : M (list dict) :=
  read_table tn Scan None
    (fun t _ => filter (fun it => flt it = true) (snd <$> map_to_list t)).

(** [table.query(IndexName=index, KeyConditionExpression=Key(attr).eq(v),
    FilterExpression=...)]: the key value must be a string. *)
Definition query (tn index attr : string) (v : pyval) (flt : dict -> bool)
    : M (list dict) :=
  read_table tn (Query index v) (Some v)
    (fun t _ =>
       filter (fun it => attr_eq attr v it && flt it = true)
              (snd <$> map_to_list t)).

(** The service calls: the call is issued, the environment answers. *)
Definition call_result {A} (c : aws_call) (r : result A) : M A :=
  do issue c in lift_result r.

Definition call_fault (c : aws_call) (o : option exn) : M unit :=
  do issue c in lift_fault o.

Definition run_task (p : run_task_params) : M (list string) :=
  call_result (EcsRunTask p) (ecs_run_task E p).

Definition stop_task (cluster : string) (task : pyval) : M unit :=
  call_fault (EcsStopTask cluster task) (ecs_stop_task E cluster task).

Definition describe_tasks (cluster : string) (task : pyval) : M (list ecs_task) :=
  call_result (EcsDescribeTasks cluster task) (ecs_describe_tasks E cluster task).

Definition register_task_definition (td : task_def) : M string :=
  call_result (EcsRegisterTaskDefinition td) (ecs_register_task_definition E td).

Definition create_service (p : create_service_params) : M string :=
  call_result (EcsCreateService p) (ecs_create_service E p).

Definition update_service (cluster : string) (service : pyval) (n : Z) : M unit :=
  call_fault (EcsUpdateService cluster service n)
             (ecs_update_service E cluster service n).

Definition delete_service (cluster : string) (service : pyval) : M unit :=
  call_fault (EcsDeleteService cluster service)
             (ecs_delete_service E cluster service).

Definition describe_services (cluster : string) (service : pyval)
    : M (list ecs_service) :=
  call_result (EcsDescribeServices cluster service)
              (ecs_describe_services E cluster service).

Definition create_target_group_call (name : string) : M (list string) :=
  call_result (ElbCreateTargetGroup name) (elb_create_target_group E name).

Definition delete_target_group (arn : pyval) : M unit :=
  call_fault (ElbDeleteTargetGroup arn) (elb_delete_target_group E arn).

Definition describe_log_streams (p : describe_log_streams_params)
    : M (list string) :=
  call_result (LogsDescribeLogStreams p) (logs_describe_log_streams E p).

Definition get_log_events (p : get_log_events_params) : M (list log_event) :=
  call_result (LogsGetLogEvents p) (logs_get_log_events E p).

Definition time_sleep (s : Z) : M unit := issue (TimeSleep s).
End Runtime.

(** ** Responses *)

Record response : Type := {
  statusCode : Z;
  headers : list (string * string);
  body : option pyval       (* the document given to [json.dumps] *)
}.

(** Membership in the list of the caller's groups:
    ['Administrators' in user_info['groups']]. *)
Definition in_groups (g : string) (groups : list string) : bool :=
  existsb (String.eqb g) groups.

(** [user_info], the dictionary built by [get_user_info_from_context];
    only lambda_function.py fills [username]. *)
Record user_info : Type := {
  user_id : pyval;
  email : pyval;
  username : pyval;
  groups : list string
}.

Definition is_admin (u : user_info) : bool := in_groups "Administrators" (groups u).

(** ** Helpers shared by the three handlers *)

(** [v.startswith(p)], [v.endswith(p)], [v.split(c)], [v.count(c)] on an
    arbitrary object: only strings have these methods. *)
Definition as_str (meth : string) (v : pyval) : M string :=
  match v with
  | PStr s => ret s
  | _ => raise (attribute_error meth)
  end.

(** [v in l] for a list [l] of string literals: the member found is [v]
    itself, a string. *)
Definition selector_in (v : pyval) (l : list string) : option string :=
  match v with
  | PStr s => if existsb (String.eqb s) l then Some s else None
  | _ => None
  end.

(** [d.get(k)] for a dictionary literal [d] with string keys and an
    arbitrary key object [k]: an unhashable key raises. *)
Definition literal_get {A} (d : list (string * A)) (k : pyval) : M (option A) :=
  match k with
  | PStr s => ret (snd <$> find (fun kv => String.eqb s (fst kv)) d)
  | PList _ | PDict _ => raise (type_error "unhashable type")
  | _ => ret None
  end.

(** [s.lower()] on ASCII. *)
Definition lower_ascii (c : ascii) : ascii :=
  let n := nat_of_ascii c in
  if ((65 <=? n) && (n <=? 90))%nat then ascii_of_nat (n + 32) else c.

Fixpoint lower (s : string) : string :=
  match s with
  | EmptyString => EmptyString
  | String c s' => String (lower_ascii c) (lower s')
  end.

(** The caller's groups, from the [cognito:groups] claim [g]:
    [g.split(',') if g else []]. *)
Definition groups_of_claim (g : pyval) : M (list string) :=
  if truthy g then
    let* s := as_str "split" g in ret (split_on "," s)
  else ret [].

(** [event.get('requestContext', {}).get('authorizer', {}).get('claims', {})] *)
Definition claims_of_event (event : dict) : M pyval :=
  let* authorizer := py_get (dget_default "requestContext" (PDict []) event)
                            "authorizer" (PDict []) in
  py_get authorizer "claims" (PDict []).

(** The access check of every get, stop and delete:
    [instance['user_id'] != user_info['user_id'] and
     'Administrators' not in user_info['groups']]. *)
Definition access_denied (instance : dict) (u : user_info) : M bool :=
  let* owner := subscript instance "user_id" in
  ret (negb (py_eq owner (user_id u)) && negb (is_admin u)).

(** Monadic map, left to right (a [for] loop that appends). *)
Fixpoint for_each {A B} (f : A -> M B) (l : list A) : M (list B) :=
  match l with
  | [] => ret []
  | x :: l' => let* y := f x in let* ys := for_each f l' in ret (y :: ys)
  end.

(** Python [<]: strings by code point, numbers by value, lists
    lexicographically; every other pair of objects is unordered and the
    comparison raises [TypeError] ([None] here). *)
Fixpoint py_lt (a b : pyval) {struct a} : option bool :=
  match a, b with
  | PStr x, PStr y => Some (String.ltb x y)
  | PInt x, PInt y => Some (x <? y)
  | PInt x, PBool y => Some (x <? Z.b2z y)
  | PBool x, PInt y => Some (Z.b2z x <? y)
  | PBool x, PBool y => Some (Z.b2z x <? Z.b2z y)
  | PList x, PList y =>
      (fix go (x y : list pyval) {struct x} : option bool :=
         match x, y with
         | [], [] => Some false
         | [], _ :: _ => Some true
         | _ :: _, [] => Some false
         | u :: x', v :: y' => if py_eq u v then go x' y' else py_lt u v
         end) x y
  | _, _ => None
  end.

(** [l.sort(key=key, reverse=reverse)]: a stable sort by the keys,
    ascending or (with [reverse]) descending; it raises when two keys
    are unordered. [x] stood before every element of [l]: it stays
    before those whose key is equal. *)
Fixpoint insert_sorted {A} (key : A -> pyval) (reverse : bool) (x : A)
    (l : list A) : result (list A) :=
  match l with
  | [] => Ok [x]
  | y :: l' =>
      match (if reverse then py_lt (key x) (key y)
             else py_lt (key y) (key x)) with
      | None => Raise (type_error "'<' not supported")
      | Some true =>
          match insert_sorted key reverse x l' with
          | Ok r => Ok (y :: r)
          | Raise e => Raise e
          end
      | Some false => Ok (x :: y :: l')
      end
  end.

Fixpoint py_sort {A} (key : A -> pyval) (reverse : bool) (l : list A)
    : result (list A) :=
  match l with
  | [] => Ok []
  | x :: l' =>
      match py_sort key reverse l' with
      | Ok s => insert_sorted key reverse x s
      | Raise e => Raise e
      end
  end.

(** [v * n] for an integer literal [n > 0]: numbers multiply, strings
    and lists repeat. *)
Definition py_mul (v : pyval) (n : nat) : M pyval :=
  match v with
  | PInt z => ret (PInt (z * Z.of_nat n))
  | PBool b => ret (PInt (Z.b2z b * Z.of_nat n))
  | PStr s => ret (PStr (Nat.iter n (fun acc => s +:+ acc) EmptyString))
  | PList l => ret (PList (Nat.iter n (fun acc => app l acc) []))
  | PNone | PDict _ => raise (type_error "unsupported operand type(s) for *")
  end.

(** * lambda-functions/instances/lambda_function.py *)

Module LambdaFunction.
Section Handlers.
Variable E : Env.

Definition cors_headers : list (string * string) :=
  [("Content-Type", "application/json");
   ("Access-Control-Allow-Origin", "*");
   ("Access-Control-Allow-Headers", "Content-Type,Authorization");
   ("Access-Control-Allow-Methods", "GET,POST,DELETE,OPTIONS")].

Definition json_response (code : Z) (doc : pyval) : response :=
  {| statusCode := code; headers := cors_headers; body := Some doc |}.

Definition error_doc (err : string) : pyval := PDict [("error", PStr err)].

Definition error_message_doc (err : string) (e : exn) : pyval :=
  PDict [("error", PStr err); ("message", PStr (exn_str e))].

Definition get_user_info_from_context (event : dict) : M user_info :=
  let* claims := claims_of_event event in
  let* sub := py_get claims "sub" PNone in
  let* em := py_get claims "email" PNone in
  let* un := py_get claims "cognito:username" PNone in
  let* g := py_get claims "cognito:groups" PNone in
  let* gs := (if truthy g then
                let* g' := py_get claims "cognito:groups" (PStr EmptyString) in
                let* s := as_str "split" g' in ret (split_on "," s)
              else ret []) in
  ret {| user_id := sub; email := em; username := un; groups := gs |}.

Definition cost_mapping : list (string * string) :=
  [("ml.m5.large", "$0.12/hour");
   ("ml.m5.xlarge", "$0.24/hour");
   ("ml.m5.2xlarge", "$0.48/hour");
   ("ml.g4dn.xlarge", "$0.71/hour");
   ("ml.g4dn.2xlarge", "$1.42/hour");
   ("ml.p3.2xlarge", "$3.06/hour")].

Definition get_estimated_cost (instance_type : pyval) : M string :=
  let* r := literal_get cost_mapping instance_type in
  ret (default "$0.00/hour" r).

(** The dictionary returned by [get_task_configuration]; the key
    [placement_constraints] is absent from the default profile. *)
Record task_config : Type := {
  container_image : option string;
  launch_type : string;
  task_definition : string;
  placement_constraints : option (list placement_constraint)
}.

Definition gpu_instance_types : list string :=
  ["ml.g4dn.xlarge"; "ml.g4dn.2xlarge"; "ml.p3.2xlarge"].

Definition large_cpu_types : list string :=
  ["ml.m5.2xlarge"; "ml.m5.4xlarge"; "ml.c5.4xlarge"].

Definition pin_instance_type (instance_type : string) : list placement_constraint :=
  [{| pc_type := "memberOf";
      pc_expression := "attribute:ecs.instance-type == " +:+ instance_type |}].

Definition get_task_configuration (model_id instance_type : pyval)
    : M task_config :=
  let model_images :=
    [("llama2:7b", os_environ_get E "LLAMA2_7B_IMAGE_URI");
     ("llama2:13b", os_environ_get E "LLAMA2_13B_IMAGE_URI");
     ("codellama:7b", os_environ_get E "CODELLAMA_7B_IMAGE_URI");
     ("codellama:13b", os_environ_get E "CODELLAMA_13B_IMAGE_URI");
     ("mistral:7b", os_environ_get E "MISTRAL_7B_IMAGE_URI")] in
  let* image := literal_get model_images model_id in
  let* cpu_arn := os_environ E "CPU_TASK_DEFINITION_ARN" in
  let config :=
    {| container_image := mjoin image;
       launch_type := "FARGATE";
       task_definition := cpu_arn;
       placement_constraints := None |} in
  match selector_in instance_type gpu_instance_types with
  | Some t =>
      let* gpu_arn := os_environ E "GPU_TASK_DEFINITION_ARN" in
      ret {| container_image := container_image config;
             launch_type := "EC2";
             task_definition := gpu_arn;
             placement_constraints := Some (pin_instance_type t) |}
  | None =>
      match selector_in instance_type large_cpu_types with
      | Some t =>
          ret {| container_image := container_image config;
                 launch_type := "EC2";
                 task_definition := task_definition config;
                 placement_constraints := Some (pin_instance_type t) |}
      | None => ret config
      end
  end.

Definition start_ecs_task (instance_id : string) (model_id : pyval)
    (model_info : dict) (instance_type : pyval) (u : user_info) : M string :=
  let* task_config := get_task_configuration model_id instance_type in
  let environment :=
    [("OLLAMA_HOST", PStr "0.0.0.0");
     ("OLLAMA_ORIGINS", PStr "*");
     ("MODEL_NAME", dget_default "ollama_model_name" model_id model_info);
     ("INSTANCE_ID", PStr instance_id);
     ("USER_ID", user_id u);
     ("PRELOAD_MODEL", PStr "true")] in
  let image :=
    match container_image task_config with
    | Some i => if truthy (PStr i) then Some i else None
    | None => None
    end in
  let* cluster := os_environ E "ECS_CLUSTER_NAME" in
  let* environment_tag := os_environ E "ENVIRONMENT" in
  let tags :=
    [("Environment", PStr environment_tag);
     ("Project", PStr "aws-ollama-platform");
     ("InstanceId", PStr instance_id);
     ("UserId", user_id u);
     ("ModelId", model_id)] in
  let* network :=
    (if String.eqb (launch_type task_config) "FARGATE" then
       let* subnets := os_environ E "PRIVATE_SUBNET_IDS" in
       let* sg := os_environ E "ECS_SECURITY_GROUP_ID" in
       ret (Some {| vpc_subnets := split_on "," subnets;
                    vpc_securityGroups := [Some sg];
                    vpc_assignPublicIp := "DISABLED" |})
     else ret None) in
  let placement :=
    if String.eqb (launch_type task_config) "EC2" then
      match placement_constraints task_config with
      | Some (c :: cs) => Some (c :: cs)
      | _ => None
      end
    else None in
  let* tasks :=
    run_task E {| rt_cluster := cluster;
                rt_taskDefinition := task_definition task_config;
                rt_launchType := launch_type task_config;
                rt_container_name := "ollama";
                rt_container_environment := environment;
                rt_container_image := image;
                rt_tags := tags;
                rt_networkConfiguration := network;
                rt_placementConstraints := placement |} in
  match tasks with
  | [] => raise (Exn PlainException "Failed to start ECS task")
  | task_arn :: _ =>
      do logger INFO "Started ECS task" in
      ret task_arn
  end.

Definition create_instance (event : dict) (u : user_info) : M response :=
  try_except
    (let* raw := subscript event "body" in
     let* body := lift_result (json_loads E raw) in
     let* model_id := py_get body "modelId" PNone in
     let* instance_type := py_get body "instanceType" (PStr "ml.m5.large") in
     if negb (truthy model_id) then
       ret (json_response 400 (error_doc "modelId is required"))
     else
       let* models_table := os_environ E "MODELS_TABLE_NAME" in
       let* model_response := get_item E models_table model_id in
       match model_response with
       | None => ret (json_response 404 (error_doc "Model not found"))
       | Some model_info =>
           let instance_id := uuid4 E in
           let* task_arn :=
             start_ecs_task instance_id model_id model_info instance_type u in
           let* instances_table := os_environ E "INSTANCES_TABLE_NAME" in
           let* model_name := subscript model_info "name" in
           let* cost := get_estimated_cost instance_type in
           let endpoint :=
             "https://" +:+ instance_id +:+ "." +:+
             os_environ_get_default E "DOMAIN_NAME" "localhost" +:+ "/api" in
           let instance_data :=
             [("id", PStr instance_id);
              ("user_id", user_id u);
              ("model_id", model_id);
              ("model_name", model_name);
              ("status", PStr "starting");
              ("instance_type", instance_type);
              ("task_arn", PStr task_arn);
              ("created_at", PStr (now_iso E));
              ("updated_at", PStr (now_iso E));
              ("estimated_cost", PStr cost);
              ("endpoint", PStr endpoint)] in
           do put_item E instances_table "id" instance_data in
           do logger INFO "Created instance" in
           let* cost' := get_estimated_cost instance_type in
           ret (json_response 201
                  (PDict [("id", PStr instance_id);
                          ("modelId", model_id);
                          ("modelName", model_name);
                          ("status", PStr "starting");
                          ("instanceType", instance_type);
                          ("estimatedCost", PStr cost');
                          ("endpoint", PStr endpoint);
                          ("startedAt", PStr (now_iso E))]))
       end)
    (fun e =>
       do logger ERROR "Error creating instance" in
       ret (json_response 500 (error_message_doc "Failed to create instance" e))).

Definition delete_instance (instance_id : string) (u : user_info) : M response :=
  try_except
    (let* instances_table := os_environ E "INSTANCES_TABLE_NAME" in
     let* response := get_item E instances_table (PStr instance_id) in
     match response with
     | None => ret (json_response 404 (error_doc "Instance not found"))
     | Some instance =>
         let* denied := access_denied instance u in
         if denied then ret (json_response 403 (error_doc "Access denied"))
         else
           do (if truthy (dget_default "task_arn" PNone instance) then
                 try_except
                   (let* cluster := os_environ E "ECS_CLUSTER_NAME" in
                    let* task_arn := subscript instance "task_arn" in
                    do stop_task E cluster task_arn in
                    logger INFO "Stopped ECS task")
                   (fun _ => logger WARNING "Failed to stop ECS task")
               else ret tt) in
           do delete_item E instances_table (PStr instance_id) in
           do logger INFO "Deleted instance" in
           ret {| statusCode := 204; headers := cors_headers; body := None |}
     end)
    (fun e =>
       do logger ERROR "Error deleting instance" in
       ret (json_response 500 (error_message_doc "Failed to delete instance" e))).

(** The view of one item in the list response. *)
Definition list_view (item : dict) : M pyval :=
  let* i := subscript item "id" in
  let* mid := subscript item "model_id" in
  let* mname := subscript item "model_name" in
  let* st := subscript item "status" in
  let* ity := subscript item "instance_type" in
  let* cost := subscript item "estimated_cost" in
  let* ep := subscript item "endpoint" in
  let* created := subscript item "created_at" in
  ret (PDict [("id", i); ("modelId", mid); ("modelName", mname);
              ("status", st); ("instanceType", ity);
              ("estimatedCost", cost); ("endpoint", ep);
              ("startedAt", created)]).

Definition list_instances (u : user_info) : M response :=
  try_except
    (let* instances_table := os_environ E "INSTANCES_TABLE_NAME" in
     let* items :=
       (if is_admin u then scan E instances_table (fun _ => true)
        else scan E instances_table (attr_eq "user_id" (user_id u))) in
     let* instances := for_each list_view items in
     ret (json_response 200 (PList instances)))
    (fun e =>
       do logger ERROR "Error listing instances" in
       ret (json_response 500 (error_message_doc "Failed to list instances" e))).

Definition get_ecs_task_status (task_arn : pyval) : M string :=
  try_except
    (let* cluster := os_environ E "ECS_CLUSTER_NAME" in
     let* tasks := describe_tasks E cluster task_arn in
     match tasks with
     | [] => ret "stopped"
     | task :: _ =>
         let last_status := lower (default EmptyString (task_lastStatus task)) in
         let status_mapping :=
           [("pending", "starting"); ("running", "running");
            ("stopping", "stopping"); ("stopped", "stopped")] in
         ret (default "unknown"
                (snd <$> find (fun kv => String.eqb last_status (fst kv))
                              status_mapping))
     end)
    (fun _ =>
       do logger WARNING "Failed to get ECS task status" in
       ret "unknown").

Definition get_instance (instance_id : string) (u : user_info) : M response :=
  try_except
    (let* instances_table := os_environ E "INSTANCES_TABLE_NAME" in
     let* response := get_item E instances_table (PStr instance_id) in
     match response with
     | None => ret (json_response 404 (error_doc "Instance not found"))
     | Some instance =>
         let* denied := access_denied instance u in
         if denied then ret (json_response 403 (error_doc "Access denied"))
         else
           let* instance :=
             (if truthy (dget_default "task_arn" PNone instance) then
                let* task_arn := subscript instance "task_arn" in
                let* current_status := get_ecs_task_status task_arn in
                let* stored := subscript instance "status" in
                if negb (py_eq (PStr current_status) stored) then
                  do update_item E instances_table "id" (PStr instance_id)
                       [("status", PStr current_status);
                        ("updated_at", PStr (now_iso E))] in
                  ret (dset "status" (PStr current_status) instance)
                else ret instance
              else ret instance) in
           let* i := subscript instance "id" in
           let* mid := subscript instance "model_id" in
           let* mname := subscript instance "model_name" in
           let* st := subscript instance "status" in
           let* ity := subscript instance "instance_type" in
           let* cost := subscript instance "estimated_cost" in
           let* ep := subscript instance "endpoint" in
           let* created := subscript instance "created_at" in
           let* created' := subscript instance "created_at" in
           ret (json_response 200
                  (PDict [("id", i); ("modelId", mid); ("modelName", mname);
                          ("status", st); ("instanceType", ity);
                          ("estimatedCost", cost); ("endpoint", ep);
                          ("startedAt", created);
                          ("updatedAt",
                           dget_default "updated_at" created' instance)]))
     end)
    (fun e =>
       do logger ERROR "Error getting instance" in
       ret (json_response 500 (error_message_doc "Failed to get instance" e))).

(** The [try] block of [lambda_handler]: the routing. *)
Definition dispatch (event : dict) : M response :=
  let* http_method := subscript event "httpMethod" in
  let* path := subscript event "path" in
  let* u := get_user_info_from_context event in
  do logger INFO "Processing request" in
  if is_str "/instances" path && is_str "GET" http_method then
    list_instances u
  else if is_str "/instances" path && is_str "POST" http_method then
    create_instance event u
  else
    let* p := as_str "startswith" path in
    if startswith p "/instances/" && is_str "DELETE" http_method then
      delete_instance (List.last (split_on "/" p) EmptyString) u
    else if startswith p "/instances/" && is_str "GET" http_method then
      get_instance (List.last (split_on "/" p) EmptyString) u
    else ret (json_response 404 (error_doc "Not found")).

Definition lambda_handler (event : dict) : M response :=
  try_except
    (dispatch event)
    (fun e =>
       do logger ERROR "Error" in
       ret (json_response 500 (error_message_doc "Internal server error" e))).
End Handlers.
End LambdaFunction.

(** * src/lambda/instances.py *)

Module Instances.
Section Handlers.
Variable E : Env.

Definition response_headers : list (string * string) :=
  [("Access-Control-Allow-Origin", "*");
   ("Access-Control-Allow-Headers", "Content-Type,Authorization");
   ("Access-Control-Allow-Methods", "GET,POST,PUT,DELETE,OPTIONS");
   ("Content-Type", "application/json")].

Definition create_success_response (data : pyval) (status_code : Z) : response :=
  {| statusCode := status_code; headers := response_headers;
     body := Some data |}.

Definition create_error_response (status_code : Z) (message : string)
    : response :=
  {| statusCode := status_code; headers := response_headers;
     body := Some (PDict [("error", PStr message)]) |}.

Definition get_user_info_from_context (event : dict) : M user_info :=
  let* claims := claims_of_event event in
  let* g := py_get claims "cognito:groups" (PStr EmptyString) in
  let* sub := py_get claims "sub" PNone in
  let* em := py_get claims "email" PNone in
  let* gs := groups_of_claim g in
  ret {| user_id := sub; email := em; username := PNone; groups := gs |}.

(** [instance.get('status', 'unknown')] *)
Definition stored_status (instance : dict) : pyval :=
  dget_default "status" (PStr "unknown") instance.

(** [os.environ.get('ECS_CLUSTER_NAME',
                    f"{os.environ['ENVIRONMENT']}-ollama-cluster")]:
    the default is evaluated before the lookup. *)
Definition cluster_name : M string :=
  let* environment := os_environ E "ENVIRONMENT" in
  ret (os_environ_get_default E "ECS_CLUSTER_NAME"
         (environment +:+ "-ollama-cluster")).

Definition get_ecs_service_status (instance : dict) : M pyval :=
  try_except
    (if negb (dmem "service_name" instance)
        || negb (dmem "ecs_service_arn" instance) then
       ret (stored_status instance)
     else
       let* cluster := cluster_name in
       let* service_name := subscript instance "service_name" in
       let* services := describe_services E cluster service_name in
       match services with
       | [] => ret (PStr "stopped")
       | service :: _ =>
           let service_status := default "UNKNOWN" (svc_status service) in
           if String.eqb service_status "ACTIVE" then
             let desired_count := default 0 (svc_desiredCount service) in
             let running_count := default 0 (svc_runningCount service) in
             if desired_count =? 0 then ret (PStr "stopped")
             else if running_count =? desired_count then ret (PStr "running")
             else if 0 <? running_count then ret (PStr "starting")
             else ret (PStr "pending")
           else if String.eqb service_status "DRAINING" then
             ret (PStr "stopping")
           else ret (PStr "unknown")
       end)
    (fun _ =>
       do logger WARNING "Could not get ECS service status" in
       ret (stored_status instance)).

Definition opt_str (o : option string) : pyval :=
  match o with Some s => PStr s | None => PNone end.

Definition get_ecs_service_details (instance : dict) : M pyval :=
  try_except
    (if negb (dmem "service_name" instance) then ret (PDict [])
     else
       let* cluster := cluster_name in
       let* service_name := subscript instance "service_name" in
       let* services := describe_services E cluster service_name in
       match services with
       | [] => ret (PDict [("error", PStr "Service not found")])
       | service :: _ =>
           ret (PDict
                  [("service_arn", opt_str (svc_serviceArn service));
                   ("task_definition", opt_str (svc_taskDefinition service));
                   ("desired_count", PInt (default 0 (svc_desiredCount service)));
                   ("running_count", PInt (default 0 (svc_runningCount service)));
                   ("pending_count", PInt (default 0 (svc_pendingCount service)));
                   ("platform_version", opt_str (svc_platformVersion service));
                   ("launch_type", opt_str (svc_launchType service));
                   ("created_at", opt_str (svc_createdAt service))])
       end)
    (fun e =>
       do logger WARNING "Could not get ECS service details" in
       ret (PDict [("error", PStr (exn_str e))])).

Definition get_instance_usage_stats (instance_id : string) : M pyval :=
  try_except
    (ret (PDict
            [("uptime_hours", PInt 0);
             ("api_requests", PInt 0);
             ("cpu_usage_avg", PInt 0);
             ("memory_usage_avg", PInt 0);
             ("last_request", PNone);
             ("note",
              PStr "Usage statistics will be available after CloudWatch integration")]))
    (fun _ =>
       do logger WARNING "Could not get usage stats" in
       ret (PDict [])).

(** The body of the loop of [list_instances]. *)
Definition enrich (instance : dict) : M dict :=
  try_except
    (let* st := get_ecs_service_status instance in
     ret (dset "real_time_status" st instance))
    (fun _ =>
       let* _ := subscript instance "instance_id" in
       do logger WARNING "Could not get real-time status" in
       ret (dset "real_time_status" (stored_status instance) instance)).

Definition list_instances (u : user_info) : M response :=
  try_except
    (let* instances_table := os_environ E "INSTANCES_TABLE_NAME" in
     let* items :=
       (if is_admin u then scan E instances_table (fun _ => true)
        else query E instances_table "UserIdIndex" "user_id" (user_id u)
                   (fun _ => true)) in
     let* sorted :=
       lift_result (py_sort (dget_default "created_at" (PStr EmptyString)) true items) in
     let* instances := for_each enrich sorted in
     ret (create_success_response
            (PDict [("instances", PList (PDict <$> instances));
                    ("count", PInt (Z.of_nat (length instances)));
                    ("user_filter",
                     PStr (if is_admin u then "all" else "own"))])
            200))
    (fun _ =>
       do logger ERROR "Failed to list instances" in
       ret (create_error_response 500 "Failed to retrieve instances")).

Definition get_instance (instance_id : string) (u : user_info) : M response :=
  try_except
    (let* instances_table := os_environ E "INSTANCES_TABLE_NAME" in
     let* response := get_item E instances_table (PStr instance_id) in
     match response with
     | None => ret (create_error_response 404 "Instance not found")
     | Some instance =>
         let* denied := access_denied instance u in
         if denied then ret (create_error_response 403 "Access denied")
         else
           let* instance :=
             try_except
               (let* st := get_ecs_service_status instance in
                let instance := dset "real_time_status" st instance in
                let* details := get_ecs_service_details instance in
                ret (dset "service_details" details instance))
               (fun _ =>
                  do logger WARNING "Could not get real-time info" in
                  ret (dset "real_time_status" (stored_status instance)
                            instance)) in
           let* stats := get_instance_usage_stats instance_id in
           ret (create_success_response
                  (PDict (dset "usage_stats" stats instance)) 200)
     end)
    (fun _ =>
       do logger ERROR "Failed to get instance" in
       ret (create_error_response 500 "Failed to retrieve instance")).

(** One entry of the [logs] list. *)
Record log_entry : Type := {
  le_timestamp : string;
  le_message : string;
  le_stream : string
}.

Definition log_entry_doc (l : log_entry) : pyval :=
  PDict [("timestamp", PStr (le_timestamp l));
         ("message", PStr (le_message l));
         ("stream", PStr (le_stream l))].

(** The loop over the events of one stream. Each event is appended to
    [logs] as soon as it is converted, so the entries appended before a
    conversion that raises stay in the list: the result is the entries
    appended and the exception that ended the loop, if any. *)
Fixpoint append_events (stream : string) (events : list log_event)
    : list log_entry * option exn :=
  match events with
  | [] => ([], None)
  | ev :: rest =>
      match isoformat_ms E (ev_timestamp ev) with
      | Raise e => ([], Some e)
      | Ok timestamp =>
          let '(more, failure) := append_events stream rest in
          ({| le_timestamp := timestamp;
              le_message := ev_message ev;
              le_stream := stream |} :: more, failure)
      end
  end.

(** The loop over the streams: a stream whose events cannot be read, or
    cannot all be converted, is left with a warning. *)
Fixpoint collect_logs (group : string) (streams : list string)
    : M (list log_entry) :=
  match streams with
  | [] => ret []
  | stream :: rest =>
      let* outcome :=
        try_except
          (let* events :=
             get_log_events E
               {| gle_logGroupName := group;
                  gle_logStreamName := stream;
                  gle_limit := 100;
                  gle_startFromHead := false |} in
           ret (append_events stream events))
          (fun e => ret ([], Some e)) in
      do (match snd outcome with
          | Some _ => logger WARNING "Could not get events from stream"
          | None => ret tt
          end) in
      let* more := collect_logs group rest in
      ret (fst outcome ++ more)%list
  end.

Definition get_instance_logs (instance_id : string) (u : user_info)
    : M response :=
  try_except
    (let* instances_table := os_environ E "INSTANCES_TABLE_NAME" in
     let* response := get_item E instances_table (PStr instance_id) in
     match response with
     | None => ret (create_error_response 404 "Instance not found")
     | Some instance =>
         let* denied := access_denied instance u in
         if denied then ret (create_error_response 403 "Access denied")
         else
           let* environment := os_environ E "ENVIRONMENT" in
           let log_group_name := "/ecs/" +:+ environment +:+ "-ollama" in
           let log_stream_prefix := "ollama-" +:+ str_prefix 8 instance_id in
           try_except_class ResourceNotFoundException
             (let* streams :=
                describe_log_streams E
                  {| dls_logGroupName := log_group_name;
                     dls_logStreamNamePrefix := log_stream_prefix;
                     dls_orderBy := "LastEventTime";
                     dls_descending := true;
                     dls_limit := 5 |} in
              let* logs := collect_logs log_group_name streams in
              let* sorted :=
                lift_result
                  (py_sort (fun l => PStr (le_timestamp l)) true logs) in
              ret (create_success_response
                     (PDict [("logs",
                              PList (log_entry_doc <$> take 100 sorted));
                             ("instance_id", PStr instance_id);
                             ("log_group", PStr log_group_name);
                             ("stream_prefix", PStr log_stream_prefix)])
                     200))
             (ret (create_success_response
                     (PDict [("logs", PList []);
                             ("instance_id", PStr instance_id);
                             ("message", PStr "No logs available yet")])
                     200))
     end)
    (fun _ =>
       do logger ERROR "Failed to get logs" in
       ret (create_error_response 500 "Failed to retrieve logs")).

Definition get_instance_status (instance_id : string) (u : user_info)
    : M response :=
  try_except
    (let* instances_table := os_environ E "INSTANCES_TABLE_NAME" in
     let* response := get_item E instances_table (PStr instance_id) in
     match response with
     | None => ret (create_error_response 404 "Instance not found")
     | Some instance =>
         let* denied := access_denied instance u in
         if denied then ret (create_error_response 403 "Access denied")
         else
           let stored := stored_status instance in
           let* real := get_ecs_service_status instance in
           let* details := get_ecs_service_details instance in
           let status_info :=
             [("instance_id", PStr instance_id);
              ("stored_status", stored);
              ("real_time_status", real);
              ("service_details", details);
              ("last_updated", PStr (now_iso E))] in
           do (if negb (py_eq real stored) then
                 try_except
                   (do update_item E instances_table "instance_id"
                         (PStr instance_id)
                         [("status", real);
                          ("last_status_update", PStr (now_iso E))] in
                    logger INFO "Updated status")
                   (fun _ => logger WARNING "Could not update stored status")
               else ret tt) in
           ret (create_success_response (PDict status_info) 200)
     end)
    (fun _ =>
       do logger ERROR "Failed to get status" in
       ret (create_error_response 500 "Failed to retrieve instance status")).

(** The [try] block of [lambda_handler]: the routing. *)
Definition dispatch (event : dict) : M response :=
  let* http_method := subscript event "httpMethod" in
  let* path := subscript event "path" in
  let* u := get_user_info_from_context event in
  do logger INFO "Processing request" in
  if is_str "/instances" path && is_str "GET" http_method then
    list_instances u
  else
    let* p := as_str "startswith" path in
    if startswith p "/instances/"
       && negb (2 <? count_char "/" p)%nat
       && is_str "GET" http_method then
      get_instance (List.last (split_on "/" p) EmptyString) u
    else if endswith p "/logs" && is_str "GET" http_method then
      let* instance_id :=
        lift_option (Exn IndexError "list index out of range")
                    (second_last_item (split_on "/" p)) in
      get_instance_logs instance_id u
    else if endswith p "/status" && is_str "GET" http_method then
      let* instance_id :=
        lift_option (Exn IndexError "list index out of range")
                    (second_last_item (split_on "/" p)) in
      get_instance_status instance_id u
    else ret (create_error_response 404 "Not found").

Definition lambda_handler (event : dict) : M response :=
  try_except
    (dispatch event)
    (fun _ =>
       do logger ERROR "Unexpected error" in
       ret (create_error_response 500 "Internal server error")).
End Handlers.
End Instances.

(** * src/lambda/models.py *)

Module Models.
Section Handlers.
Variable E : Env.

Definition response_headers : list (string * string) :=
  [("Access-Control-Allow-Origin", "*");
   ("Access-Control-Allow-Headers", "Content-Type,Authorization");
   ("Access-Control-Allow-Methods", "GET,POST,PUT,DELETE,OPTIONS");
   ("Content-Type", "application/json")].

Definition create_success_response (data : pyval) (status_code : Z) : response :=
  {| statusCode := status_code; headers := response_headers;
     body := Some data |}.

Definition create_error_response (status_code : Z) (message : string)
    : response :=
  {| statusCode := status_code; headers := response_headers;
     body := Some (PDict [("error", PStr message)]) |}.

Definition get_user_info_from_context (event : dict) : M user_info :=
  let* claims := claims_of_event event in
  let* g := py_get claims "cognito:groups" (PStr EmptyString) in
  let* sub := py_get claims "sub" PNone in
  let* em := py_get claims "email" PNone in
  let* gs := groups_of_claim g in
  ret {| user_id := sub; email := em; username := PNone; groups := gs |}.

Definition list_models : M response :=
  try_except
    (let* models_table := os_environ E "MODELS_TABLE_NAME" in
     let* items := scan E models_table (attr_eq "is_active" (PBool true)) in
     let* models :=
       lift_result (py_sort (dget_default "model_name" (PStr EmptyString)) false items) in
     ret (create_success_response
            (PDict [("models", PList (PDict <$> models));
                    ("count", PInt (Z.of_nat (length models)))])
            200))
    (fun _ =>
       do logger ERROR "Failed to list models" in
       ret (create_error_response 500 "Failed to retrieve models")).

(** [#status IN (:running, :starting)] *)
Definition is_active_status (item : dict) : bool :=
  attr_eq "status" (PStr "running") item
  || attr_eq "status" (PStr "starting") item.

Definition check_user_instance_limits (uid : pyval) : M bool :=
  try_except
    (let* instances_table := os_environ E "INSTANCES_TABLE_NAME" in
     let* items :=
       query E instances_table "UserIdIndex" "user_id" uid is_active_status in
     let active_instances := Z.of_nat (length items) in
     let* max_instances :=
       lift_option (Exn ValueError "invalid literal for int()")
         (py_int E (os_environ_get_default E "MAX_INSTANCES_PER_USER" "5")) in
     ret (active_instances <? max_instances))
    (fun _ =>
       do logger ERROR "Failed to check instance limits" in
       ret false).

Definition launch_type_of (instance_type : pyval) : string :=
  if is_str "fargate" instance_type then "FARGATE" else "EC2".

Definition create_task_definition (model : dict) (instance_type : pyval)
    (instance_id : string) : M string :=
  try_except
    (let* environment := os_environ E "ENVIRONMENT" in
     let* model_id := subscript model "model_id" in
     let* vcpu := py_get (dget_default "cpu_requirements" (PDict []) model)
                         "vcpu" (PInt 1) in
     let* cpu := py_mul vcpu 1024 in
     let* memory := py_get (dget_default "cpu_requirements" (PDict []) model)
                           "memory_mb" (PInt 2048) in
     let* region := os_environ E "AWS_REGION" in
     let gpu := is_str "gpu" instance_type
                && truthy (dget_default "gpu_requirements" PNone model) in
     register_task_definition E
       {| td_family :=
            [PStr environment; PStr "-ollama-"; model_id; PStr "-";
             PStr (str_prefix 8 instance_id)];
          td_networkMode := "awsvpc";
          td_requiresCompatibilities :=
            if gpu then ["EC2"] else [launch_type_of instance_type];
          td_cpu := cpu;
          td_memory := memory;
          td_executionRoleArn := os_environ_get E "ECS_EXECUTION_ROLE_ARN";
          td_taskRoleArn := os_environ_get E "ECS_TASK_ROLE_ARN";
          td_image := dget_default "image_uri" (PStr "ollama/ollama:latest") model;
          td_environment :=
            [("OLLAMA_HOST", PStr "0.0.0.0");
             ("OLLAMA_ORIGINS", PStr "*");
             ("OLLAMA_MODEL", model_id)];
          td_awslogs_group := "/ecs/" +:+ environment +:+ "-ollama";
          td_awslogs_region := region;
          td_awslogs_stream_prefix := "ollama-" +:+ str_prefix 8 instance_id;
          td_gpu := gpu;
          td_tags :=
            [("Environment", PStr environment);
             ("Project", PStr "aws-ollama-platform");
             ("Model", model_id)];
          td_placementConstraints :=
            if gpu then
              Some [{| pc_type := "memberOf";
                       pc_expression :=
                         "attribute:ecs.instance-type =~ g4dn.*" |}]
            else None |})
    (fun e =>
       do logger ERROR "Failed to create task definition" in
       raise e).

Definition create_target_group (service_name : string) : M string :=
  try_except
    (let* _ := os_environ E "ENVIRONMENT" in
     let* groups := create_target_group_call E (str_prefix 32 service_name) in
     match groups with
     | [] => raise (Exn IndexError "list index out of range")
     | arn :: _ => ret arn
     end)
    (fun e =>
       do logger ERROR "Failed to create target group" in
       raise e).

Definition start_model (event : dict) (u : user_info) : M response :=
  try_except
    (let* raw := subscript event "body" in
     let* body := lift_result (json_loads E raw) in
     let* model_id := py_get body "model_id" PNone in
     let* instance_type := py_get body "instance_type" (PStr "fargate") in
     let* custom_name := py_get body "name" (PStr EmptyString) in
     if negb (truthy model_id) then
       ret (create_error_response 400 "model_id is required")
     else
       let* models_table := os_environ E "MODELS_TABLE_NAME" in
       let* model_response := get_item E models_table model_id in
       match model_response with
       | None => ret (create_error_response 404 "Model not found")
       | Some model =>
           let instance_id := uuid4 E in
           let* allowed := check_user_instance_limits (user_id u) in
           if negb allowed then
             ret (create_error_response 429 "Instance limit exceeded")
           else
             let service_name := "ollama-" +:+ str_prefix 8 instance_id in
             let* task_definition_arn :=
               create_task_definition model instance_type instance_id in
             let* target_group_arn := create_target_group service_name in
             let* cluster := os_environ E "ECS_CLUSTER_NAME" in
             let network :=
               if is_str "fargate" instance_type then
                 Some {| vpc_subnets :=
                           split_on ","
                             (os_environ_get_default E "PRIVATE_SUBNET_IDS" EmptyString);
                         vpc_securityGroups :=
                           [os_environ_get E "ECS_SECURITY_GROUP_ID"];
                         vpc_assignPublicIp := "DISABLED" |}
               else None in
             let* environment := os_environ E "ENVIRONMENT" in
             let* service_arn :=
               create_service E
                 {| cs_cluster := cluster;
                    cs_serviceName := service_name;
                    cs_taskDefinition := task_definition_arn;
                    cs_desiredCount := 1;
                    cs_launchType := launch_type_of instance_type;
                    cs_networkConfiguration := network;
                    cs_targetGroupArn := target_group_arn;
                    cs_containerName := "ollama";
                    cs_containerPort := 11434;
                    cs_tags :=
                      [("Environment", PStr environment);
                       ("Project", PStr "aws-ollama-platform");
                       ("Owner", user_id u);
                       ("Model", model_id)] |} in
             let* instances_table := os_environ E "INSTANCES_TABLE_NAME" in
             let endpoint_url :=
               "https://ollama-" +:+ str_prefix 8 instance_id +:+ "." +:+
               os_environ_get_default E "DOMAIN_NAME" "example.com" in
             do put_item E instances_table "instance_id"
                  [("instance_id", PStr instance_id);
                   ("model_id", model_id);
                   ("user_id", user_id u);
                   ("service_name", PStr service_name);
                   ("ecs_service_arn", PStr service_arn);
                   ("target_group_arn", PStr target_group_arn);
                   ("task_definition_arn", PStr task_definition_arn);
                   ("status", PStr "starting");
                   ("instance_type", instance_type);
                   ("endpoint_url", PStr endpoint_url);
                   ("custom_name", custom_name);
                   ("created_at", PStr (now_iso E));
                   ("ttl", PInt (now_timestamp E + 24 * 3600))] in
             do logger INFO "Started model" in
             ret (create_success_response
                    (PDict [("instance_id", PStr instance_id);
                            ("service_name", PStr service_name);
                            ("status", PStr "starting");
                            ("endpoint_url", PStr endpoint_url);
                            ("estimated_ready_time", PStr "2-5 minutes")])
                    201)
       end)
    (fun _ =>
       do logger ERROR "Failed to start model" in
       ret (create_error_response 500 "Failed to start model")).

Definition stop_model (instance_id : string) (u : user_info) : M response :=
  try_except
    (let* instances_table := os_environ E "INSTANCES_TABLE_NAME" in
     let* response := get_item E instances_table (PStr instance_id) in
     match response with
     | None => ret (create_error_response 404 "Instance not found")
     | Some instance =>
         let* denied := access_denied instance u in
         if denied then ret (create_error_response 403 "Access denied")
         else
           do try_except
                (let* cluster := os_environ E "ECS_CLUSTER_NAME" in
                 let* service := subscript instance "service_name" in
                 do update_service E cluster service 0 in
                 do time_sleep 5 in
                 let* cluster' := os_environ E "ECS_CLUSTER_NAME" in
                 let* service' := subscript instance "service_name" in
                 delete_service E cluster' service')
                (fun _ => logger WARNING "Failed to stop ECS service") in
           do try_except
                (delete_target_group E
                   (dget_default "target_group_arn" PNone instance))
                (fun _ => logger WARNING "Failed to delete target group") in
           do update_item E instances_table "instance_id" (PStr instance_id)
                [("status", PStr "stopped");
                 ("stopped_at", PStr (now_iso E))] in
           do logger INFO "Stopped instance" in
           ret (create_success_response
                  (PDict [("instance_id", PStr instance_id);
                          ("status", PStr "stopped")])
                  200)
     end)
    (fun _ =>
       do logger ERROR "Failed to stop model" in
       ret (create_error_response 500 "Failed to stop model")).

(** The [try] block of [lambda_handler]: the routing. *)
Definition dispatch (event : dict) : M response :=
  let* http_method := subscript event "httpMethod" in
  let* path := subscript event "path" in
  let* u := get_user_info_from_context event in
  do logger INFO "Processing request" in
  if is_str "/models" path && is_str "GET" http_method then
    list_models
  else if is_str "/models/start" path && is_str "POST" http_method then
    start_model event u
  else
    let* p := as_str "startswith" path in
    if startswith p "/models/" && endswith p "/stop"
       && is_str "DELETE" http_method then
      let* instance_id :=
        lift_option (Exn IndexError "list index out of range")
                    (second_last_item (split_on "/" p)) in
      stop_model instance_id u
    else ret (create_error_response 404 "Not found").

Definition lambda_handler (event : dict) : M response :=
  try_except
    (dispatch event)
    (fun _ =>
       do logger ERROR "Unexpected error" in
       ret (create_error_response 500 "Internal server error")).
End Handlers.
End Models.


(** * Specification-side definitions and sample data *)

(** The image of a model: the entry of [model_images], when the model is
    listed and its variable is set. *)
Definition image_of (E : Env) (model_id : string) : option string :=
  mjoin (snd <$> find (fun kv => String.eqb model_id (fst kv))
           [("llama2:7b", os_environ_get E "LLAMA2_7B_IMAGE_URI");
            ("llama2:13b", os_environ_get E "LLAMA2_13B_IMAGE_URI");
            ("codellama:7b", os_environ_get E "CODELLAMA_7B_IMAGE_URI");
            ("codellama:13b", os_environ_get E "CODELLAMA_13B_IMAGE_URI");
            ("mistral:7b", os_environ_get E "MISTRAL_7B_IMAGE_URI")]).

(** The status the reconciler resolves for an active service, in the
    words of the specification: zero desired is "stopped"; running equal
    to desired (> 0) is "running"; some running but fewer than desired is
    "starting"; zero running with nonzero desired is "pending". Outside
    these cases the specification says nothing. *)
Definition spec_active_status (desired running : Z) : option string :=
  if desired =? 0 then Some "stopped"
  else if (0 <? desired) && (running =? desired) then Some "running"
  else if (0 <? running) && (running <? desired) then Some "starting"
  else if (0 <? desired) && (running =? 0) then Some "pending"
  else None.

(** A deployment used to run the handlers on concrete requests. *)
Definition sample_environ : gmap string string :=
  list_to_map
    [("INSTANCES_TABLE_NAME", "instances");
     ("MODELS_TABLE_NAME", "models");
     ("ENVIRONMENT", "dev");
     ("ECS_CLUSTER_NAME", "dev-cluster");
     ("CPU_TASK_DEFINITION_ARN", "arn:task/cpu");
     ("GPU_TASK_DEFINITION_ARN", "arn:task/gpu");
     ("PRIVATE_SUBNET_IDS", "subnet-1,subnet-2");
     ("ECS_SECURITY_GROUP_ID", "sg-1");
     ("AWS_REGION", "us-east-1");
     ("MAX_INSTANCES_PER_USER", "1")].

(** The text of the JSON object with the one string member [k: v]. *)
Definition json_member (k v : string) : string :=
  let q := String (ascii_of_nat 34) EmptyString in
  "{" +:+ q +:+ k +:+ q +:+ ": " +:+ q +:+ v +:+ q +:+ "}".

(** The request bodies the samples use; any other text is not JSON. *)
Definition sample_json_loads (v : pyval) : result pyval :=
  match v with
  | PStr s =>
      match find (fun kv => String.eqb s (json_member (fst kv) (snd kv)))
                 [("modelId", "llama2:7b"); ("modelId", "nope");
                  ("model_id", "llama2:7b"); ("model_id", "nope")] with
      | Some (k, m) => Ok (PDict [(k, PStr m)])
      | None => Raise (Exn JSONDecodeError "Expecting value")
      end
  | _ => Raise (type_error "the JSON object must be str, bytes or bytearray")
  end.

Definition sample_py_int (s : string) : option Z :=
  if String.eqb s "1" then Some 1
  else if String.eqb s "5" then Some 5
  else None.

Definition sample_env
    (fault : string -> dynamo_op -> option exn)
    (services : result (list ecs_service))
    (streams : result (list string))
    (events : string -> result (list log_event)) : Env :=
  {| environ := sample_environ;
     json_loads := sample_json_loads;
     py_int := sample_py_int;
     uuid4 := "0f8fad5b-d9cb-469f-a165-70867728950e";
     now_iso := "2024-05-01T12:00:00+00:00";
     now_timestamp := 1714564800;
     isoformat_ms := fun ms => Ok (pretty ms);
     dynamo_fault := fault;
     ecs_run_task := fun _ => Ok ["arn:task/1"];
     ecs_stop_task := fun _ _ => None;
     ecs_describe_tasks := fun _ _ => Ok [{| task_lastStatus := Some "RUNNING" |}];
     ecs_register_task_definition := fun _ => Ok "arn:taskdef/1";
     ecs_create_service := fun _ => Ok "arn:service/1";
     ecs_update_service := fun _ _ _ => Some (Exn ClientError "ServiceNotFoundException");
     ecs_delete_service := fun _ _ => None;
     ecs_describe_services := fun _ _ => services;
     elb_create_target_group := fun _ => Ok ["arn:targetgroup/1"];
     elb_delete_target_group := fun _ => Some (Exn ClientError "TargetGroupNotFound");
     logs_describe_log_streams := fun _ => streams;
     logs_get_log_events := fun p => events (gle_logStreamName p) |}.

Definition no_fault : string -> dynamo_op -> option exn := fun _ _ => None.

Definition active_service (desired running : Z) : ecs_service :=
  {| svc_status := Some "ACTIVE";
     svc_desiredCount := Some desired;
     svc_runningCount := Some running;
     svc_pendingCount := None;
     svc_serviceArn := Some "arn:service/1";
     svc_taskDefinition := None;
     svc_platformVersion := None;
     svc_launchType := Some "FARGATE";
     svc_createdAt := None |}.

(** The plain deployment: no fault, one active service, no log stream. *)
Definition plain_env : Env :=
  sample_env no_fault (Ok [active_service 2 1]) (Ok []) (fun _ => Ok []).

(** An instance of the service surface, owned by ["alice"]. *)
Definition alice_service_instance (status : string) : dict :=
  [("instance_id", PStr "i-1");
   ("model_id", PStr "llama2:7b");
   ("user_id", PStr "alice");
   ("service_name", PStr "ollama-i-1");
   ("ecs_service_arn", PStr "arn:service/1");
   ("target_group_arn", PStr "arn:targetgroup/1");
   ("status", PStr status);
   ("created_at", PStr "2024-05-01T10:00:00+00:00")].

(** An instance of the task surface, owned by ["alice"]. *)
Definition alice_task_instance : dict :=
  [("id", PStr "i-1");
   ("user_id", PStr "alice");
   ("model_id", PStr "llama2:7b");
   ("model_name", PStr "Llama 2 7B");
   ("status", PStr "running");
   ("instance_type", PStr "ml.m5.large");
   ("task_arn", PStr "arn:task/1");
   ("created_at", PStr "2024-05-01T10:00:00+00:00");
   ("updated_at", PStr "2024-05-01T10:00:00+00:00");
   ("estimated_cost", PStr "$0.12/hour");
   ("endpoint", PStr "https://i-1.localhost/api")].

Definition llama_model : dict :=
  [("id", PStr "llama2:7b"); ("model_id", PStr "llama2:7b");
   ("name", PStr "Llama 2 7B")].

Definition sample_world (instance : dict) : World :=
  {| tables :=
       {[ "instances" := {[ "i-1" := instance ]};
          "models" := {[ "llama2:7b" := llama_model ]} ]};
     calls := [];
     logged := [] |}.

Definition alice : user_info :=
  {| user_id := PStr "alice"; email := PStr "alice@example.com";
     username := PNone; groups := [] |}.

Definition bob : user_info :=
  {| user_id := PStr "bob"; email := PStr "bob@example.com";
     username := PNone; groups := [] |}.

Definition root : user_info :=
  {| user_id := PStr "root"; email := PStr "root@example.com";
     username := PNone; groups := ["Administrators"] |}.

Definition create_event (key model : string) : dict :=
  [("httpMethod", PStr "POST");
   ("path", PStr "/instances");
   ("body", PStr (json_member key model))].

(** The caller's count of owned Instances whose status is "running" or
    "starting", over the items of the Instances table. *)
Definition active_instances (uid : pyval) (t : gmap string dict) : nat :=
  length (filter (fun it => attr_eq "user_id" uid it
                            && Models.is_active_status it = true)
                 (snd <$> map_to_list t)).

(** The world after one more log line. *)
Definition with_log (lvl : log_level) (msg : string) (w : World) : World :=
  {| tables := tables w; calls := calls w;
     logged := (logged w ++ [(lvl, msg)])%list |}.

Definition query_fault : string -> dynamo_op -> option exn :=
  fun _ op =>
    match op with
    | Query _ _ => Some (Exn ClientError "ProvisionedThroughputExceededException")
    | _ => None
    end.

Definition faulty_env : Env :=
  sample_env query_fault (Ok [active_service 2 1]) (Ok []) (fun _ => Ok []).

Definition start_event (model : string) : dict :=
  [("httpMethod", PStr "POST");
   ("path", PStr "/models/start");
   ("body", PStr (json_member "model_id" model))].

(** The record [create_instance] writes for the sample request. *)
Definition created_task_instance : dict :=
  [("id", PStr "0f8fad5b-d9cb-469f-a165-70867728950e");
   ("user_id", PStr "alice");
   ("model_id", PStr "llama2:7b");
   ("model_name", PStr "Llama 2 7B");
   ("status", PStr "starting");
   ("instance_type", PStr "ml.m5.large");
   ("task_arn", PStr "arn:task/1");
   ("created_at", PStr "2024-05-01T12:00:00+00:00");
   ("updated_at", PStr "2024-05-01T12:00:00+00:00");
   ("estimated_cost", PStr "$0.12/hour");
   ("endpoint",
    PStr "https://0f8fad5b-d9cb-469f-a165-70867728950e.localhost/api")].

(** The record after a stop. *)
Definition stopped_record (E : Env) (instance : dict) : dict :=
  dset "stopped_at" (PStr (now_iso E)) (dset "status" (PStr "stopped") instance).

(** The operations on one instance that check the caller. *)
Inductive guarded_operation : Type :=
| TaskGet        (* lambda_function.py, GET /instances/{id} *)
| TaskDelete     (* lambda_function.py, DELETE /instances/{id} *)
| ServiceGet     (* instances.py, GET /instances/{id} *)
| ServiceLogs    (* instances.py, GET /instances/{id}/logs *)
| ServiceStatus  (* instances.py, GET /instances/{id}/status *)
| ServiceStop.   (* models.py, DELETE /models/{id}/stop *)

Definition run_guarded (E : Env) (op : guarded_operation)
    (instance_id : string) (u : user_info) : M response :=
  match op with
  | TaskGet => LambdaFunction.get_instance E instance_id u
  | TaskDelete => LambdaFunction.delete_instance E instance_id u
  | ServiceGet => Instances.get_instance E instance_id u
  | ServiceLogs => Instances.get_instance_logs E instance_id u
  | ServiceStatus => Instances.get_instance_status E instance_id u
  | ServiceStop => Models.stop_model E instance_id u
  end.

(** The Forbidden response of each operation. *)
Definition forbidden (op : guarded_operation) : response :=
  match op with
  | TaskGet | TaskDelete =>
      LambdaFunction.json_response 403 (LambdaFunction.error_doc "Access denied")
  | ServiceGet | ServiceLogs | ServiceStatus =>
      Instances.create_error_response 403 "Access denied"
  | ServiceStop => Models.create_error_response 403 "Access denied"
  end.

(** The two list operations, the key attribute of their table, and the
    instance documents of a list response. *)
Inductive list_surface : Type :=
| TaskList       (* lambda_function.py, GET /instances *)
| ServiceList.   (* instances.py, GET /instances *)

Definition run_list (E : Env) (s : list_surface) (u : user_info) : M response :=
  match s with
  | TaskList => LambdaFunction.list_instances E u
  | ServiceList => Instances.list_instances E u
  end.

Definition key_attribute (s : list_surface) : string :=
  match s with TaskList => "id" | ServiceList => "instance_id" end.

Definition listed (s : list_surface) (r : response) : list pyval :=
  match s, body r with
  | TaskList, Some (PList l) => l
  | ServiceList, Some (PDict d) =>
      match dget "instances" d with Some (PList l) => l | _ => [] end
  | _, _ => []
  end.

(** A list response shows the instance of key [k]. *)
Definition lists_instance (s : list_surface) (k : string) (r : response) : Prop :=
  exists d : dict,
    In (PDict d) (listed s r) /\ dget (key_attribute s) d = Some (PStr k).

(** A value read from the store that [json.dumps] takes: it holds no
    number (the store gives a number back as a [Decimal], which
    [json.dumps] refuses with [TypeError]). *)
Fixpoint no_number (v : pyval) : bool :=
  match v with
  | PInt _ => false
  | PList l => forallb no_number l
  | PDict d => forallb (fun kv => no_number (snd kv)) d
  | _ => true
  end.

(** The key attribute each guarded operation addresses its table by. *)
Definition guarded_key_attribute (op : guarded_operation) : string :=
  match op with
  | TaskGet | TaskDelete => "id"
  | ServiceGet | ServiceLogs | ServiceStatus | ServiceStop => "instance_id"
  end.

(** DynamoDB stores the key of an item as one of its attributes. *)
Definition table_wf (keyattr : string) (t : gmap string dict) : Prop :=
  forall (k : string) (item : dict),
    t !! k = Some item -> dget keyattr item = Some (PStr k).

(** The status codes of a request that was served, or failed inside. *)
Definition served (r : response) : Prop :=
  statusCode r = 200 \/ statusCode r = 204 \/ statusCode r = 500.

(** A structured response: the fixed header set of its handler, a status
    code of the interface, and a JSON body (the value given to
    [json.dumps]), which only the 204 of a delete goes without. *)
Definition structured (hdrs : list (string * string)) (r : response) : Prop :=
  headers r = hdrs
  /\ In (statusCode r) [200; 201; 204; 400; 403; 404; 429; 500]
  /\ (body r = None -> statusCode r = 204).

(** The two success documents of the log endpoint. *)
Definition no_logs_doc (instance_id : string) : pyval :=
  PDict [("logs", PList []);
         ("instance_id", PStr instance_id);
         ("message", PStr "No logs available yet")].

Definition log_window_doc (instance_id group prefix : string)
    (entries : list Instances.log_entry) : pyval :=
  PDict [("logs", PList (Instances.log_entry_doc <$> entries));
         ("instance_id", PStr instance_id);
         ("log_group", PStr group);
         ("stream_prefix", PStr prefix)].

(** What [get_instance_logs] sends to [describe_log_streams]. *)
Definition log_streams_request (environment instance_id : string)
    : describe_log_streams_params :=
  {| dls_logGroupName := "/ecs/" +:+ environment +:+ "-ollama";
     dls_logStreamNamePrefix := "ollama-" +:+ str_prefix 8 instance_id;
     dls_orderBy := "LastEventTime";
     dls_descending := true;
     dls_limit := 5 |}.

(** CloudWatch Logs does not take a stream-name prefix together with the
    ordering by event time: such a request is an invalid parameter. *)
Definition strict_describe_log_streams (streams : list string)
    (p : describe_log_streams_params) : result (list string) :=
  if String.eqb (dls_orderBy p) "LastEventTime"
  then Raise (Exn ClientError "InvalidParameterException")
  else Ok streams.

(** A deployment whose log service applies that rule. *)
Definition strict_logs_env : Env :=
  {| environ := environ plain_env;
     json_loads := json_loads plain_env;
     py_int := py_int plain_env;
     uuid4 := uuid4 plain_env;
     now_iso := now_iso plain_env;
     now_timestamp := now_timestamp plain_env;
     isoformat_ms := isoformat_ms plain_env;
     dynamo_fault := dynamo_fault plain_env;
     ecs_run_task := ecs_run_task plain_env;
     ecs_stop_task := ecs_stop_task plain_env;
     ecs_describe_tasks := ecs_describe_tasks plain_env;
     ecs_register_task_definition := ecs_register_task_definition plain_env;
     ecs_create_service := ecs_create_service plain_env;
     ecs_update_service := ecs_update_service plain_env;
     ecs_delete_service := ecs_delete_service plain_env;
     ecs_describe_services := ecs_describe_services plain_env;
     elb_create_target_group := elb_create_target_group plain_env;
     elb_delete_target_group := elb_delete_target_group plain_env;
     logs_describe_log_streams := strict_describe_log_streams [];
     logs_get_log_events := logs_get_log_events plain_env |}.




(** [answers Q m]: whenever [m] returns, its value satisfies [Q]. *)
Definition answers {A} (Q : A -> Prop) (m : M A) : Prop :=
  forall (w w' : World) (a : A), m w = (Ok a, w') -> Q a.

(** [keeps R Q m]: whatever [m] does, returning or raising, the world it
    leaves is related by [R] to the world it found, and the value it
    returns satisfies [Q]. *)
Definition keeps {A} (R : World -> World -> Prop) (Q : A -> Prop) (m : M A)
    : Prop :=
  forall w : World,
    match m w with
    | (Ok a, w') => R w w' /\ Q a
    | (Raise _, w') => R w w'
    end.

(** The calls that only read from a service. *)
Definition is_read_call (c : aws_call) : bool :=
  match c with
  | EcsDescribeTasks _ _ | EcsDescribeServices _ _
  | LogsDescribeLogStreams _ | LogsGetLogEvents _ => true
  | _ => false
  end.

(** The world after one more call. *)
Definition with_call (c : aws_call) (w : World) : World :=
  {| tables := tables w; calls := (calls w ++ [c])%list; logged := logged w |}.

(** No table but the one [INSTANCES_TABLE_NAME] names differs between [w]
    and [w']. *)
Definition only_instances_table (E : Env) (w w' : World) : Prop :=
  forall tn : string,
    environ E !! "INSTANCES_TABLE_NAME" <> Some tn ->
    tables w' !! tn = tables w !! tn.

(** The operations that only read. *)
Inductive read_operation : Type :=
| ReadTaskList (u : user_info)                   (* lambda_function.py, list_instances *)
| ReadServiceList (u : user_info)                (* instances.py, list_instances *)
| ReadServiceGet (i : string) (u : user_info)    (* instances.py, get_instance *)
| ReadServiceLogs (i : string) (u : user_info)   (* instances.py, get_instance_logs *)
| ReadModels.                                    (* models.py, list_models *)

Definition run_read (E : Env) (op : read_operation) : M response :=
  match op with
  | ReadTaskList u => LambdaFunction.list_instances E u
  | ReadServiceList u => Instances.list_instances E u
  | ReadServiceGet i u => Instances.get_instance E i u
  | ReadServiceLogs i u => Instances.get_instance_logs E i u
  | ReadModels => Models.list_models E
  end.

(** [w'] differs from [w] by read calls and log lines only. *)
Definition only_reads (w w' : World) : Prop :=
  tables w' = tables w
  /\ exists new : list aws_call,
       calls w' = (calls w ++ new)%list
       /\ Forall (fun c => is_read_call c = true) new.

(** The status codes that refuse a request: BadRequest, Forbidden,
    NotFound, RateLimited. *)
Definition client_error (r : response) : Prop :=
  In (statusCode r) [400; 403; 404; 429].

(** [w'] has the tables and the issued calls of [w]. *)
Definition unchanged (w w' : World) : Prop :=
  tables w' = tables w /\ calls w' = calls w.

(** [clean R m]: when [m] answers with a refusal, the world it leaves is
    related by [R] to the world it found. *)
Definition clean (R : World -> World -> Prop) (m : M response) : Prop :=
  forall w : World,
    match m w with
    | (Ok r, w') => client_error r -> R w w'
    | (Raise _, _) => True
    end.

(** The three handlers. *)
Inductive surface : Type :=
| TaskSurface      (* lambda-functions/instances/lambda_function.py *)
| ServiceSurface   (* src/lambda/instances.py *)
| ModelsSurface.   (* src/lambda/models.py *)

Definition run_handler (E : Env) (s : surface) (event : dict) : M response :=
  match s with
  | TaskSurface => LambdaFunction.lambda_handler E event
  | ServiceSurface => Instances.lambda_handler E event
  | ModelsSurface => Models.lambda_handler E event
  end.

(** The NotFound response of each guarded operation. *)
Definition not_found (op : guarded_operation) : response :=
  match op with
  | TaskGet | TaskDelete =>
      LambdaFunction.json_response 404
        (LambdaFunction.error_doc "Instance not found")
  | ServiceGet | ServiceLogs | ServiceStatus =>
      Instances.create_error_response 404 "Instance not found"
  | ServiceStop => Models.create_error_response 404 "Instance not found"
  end.

(** The answer of a successful delete: 204, no body. *)
Definition no_content : response :=
  {| statusCode := 204; headers := LambdaFunction.cors_headers; body := None |}.

(** The sizes that run on pinned EC2 hosts. *)
Definition pinned_sizes : list string :=
  (LambdaFunction.gpu_instance_types ++ LambdaFunction.large_cpu_types)%list.

(** The statuses [get_ecs_task_status] can answer. *)
Definition task_statuses : list string :=
  ["starting"; "running"; "stopping"; "stopped"; "unknown"].

(** The statuses [get_ecs_service_status] derives from a service. *)
Definition service_statuses : list pyval :=
  [PStr "stopped"; PStr "running"; PStr "starting"; PStr "pending";
   PStr "stopping"; PStr "unknown"].

(** A store that refuses every write. *)
Definition write_fault : string -> dynamo_op -> option exn :=
  fun _ op =>
    match op with
    | PutItem _ | UpdateItem _ | DeleteItem _ =>
        Some (Exn ClientError "ProvisionedThroughputExceededException")
    | _ => None
    end.

Definition read_only_env : Env :=
  sample_env write_fault (Ok [active_service 2 1]) (Ok []) (fun _ => Ok []).

(** A deployment whose cluster starts no task. *)
Definition no_capacity_env : Env :=
  {| environ := environ plain_env;
     json_loads := json_loads plain_env;
     py_int := py_int plain_env;
     uuid4 := uuid4 plain_env;
     now_iso := now_iso plain_env;
     now_timestamp := now_timestamp plain_env;
     isoformat_ms := isoformat_ms plain_env;
     dynamo_fault := dynamo_fault plain_env;
     ecs_run_task := fun _ => Ok [];
     ecs_stop_task := ecs_stop_task plain_env;
     ecs_describe_tasks := ecs_describe_tasks plain_env;
     ecs_register_task_definition := ecs_register_task_definition plain_env;
     ecs_create_service := ecs_create_service plain_env;
     ecs_update_service := ecs_update_service plain_env;
     ecs_delete_service := ecs_delete_service plain_env;
     ecs_describe_services := ecs_describe_services plain_env;
     elb_create_target_group := elb_create_target_group plain_env;
     elb_delete_target_group := elb_delete_target_group plain_env;
     logs_describe_log_streams := logs_describe_log_streams plain_env;
     logs_get_log_events := logs_get_log_events plain_env |}.

(** The answer of a failed create. *)
Definition create_failed (e : exn) : response :=
  LambdaFunction.json_response 500
    (LambdaFunction.error_message_doc "Failed to create instance" e).

(** The document of a status request. *)
Definition status_doc (E : Env) (instance_id : string) (instance : dict)
    (real details : pyval) : pyval :=
  PDict [("instance_id", PStr instance_id);
         ("stored_status", Instances.stored_status instance);
         ("real_time_status", real);
         ("service_details", details);
         ("last_updated", PStr (now_iso E))].

(** The keys [get_instance] of lambda_function.py reads with a subscript. *)
Definition task_record_keys : list string :=
  ["id"; "model_id"; "model_name"; "status"; "instance_type";
   "estimated_cost"; "endpoint"; "created_at"].


(** The route of each guarded operation: method, path for an instance
    identifier, and the handler that serves it. *)
Definition route_method (op : guarded_operation) : string :=
  match op with
  | TaskDelete | ServiceStop => "DELETE"
  | TaskGet | ServiceGet | ServiceLogs | ServiceStatus => "GET"
  end.

Definition route_path (op : guarded_operation) (instance_id : string)
    : string :=
  match op with
  | TaskGet | TaskDelete | ServiceGet => "/instances/" +:+ instance_id
  | ServiceLogs => ("/instances/" +:+ instance_id) +:+ "/logs"
  | ServiceStatus => ("/instances/" +:+ instance_id) +:+ "/status"
  | ServiceStop => ("/models/" +:+ instance_id) +:+ "/stop"
  end.

Definition route_dispatch (E : Env) (op : guarded_operation)
    : dict -> M response :=
  match op with
  | TaskGet | TaskDelete => LambdaFunction.dispatch E
  | ServiceGet | ServiceLogs | ServiceStatus => Instances.dispatch E
  | ServiceStop => Models.dispatch E
  end.

Definition route_user (op : guarded_operation) : dict -> M user_info :=
  match op with
  | TaskGet | TaskDelete => LambdaFunction.get_user_info_from_context
  | ServiceGet | ServiceLogs | ServiceStatus =>
      Instances.get_user_info_from_context
  | ServiceStop => Models.get_user_info_from_context
  end.

(** A request of API Gateway: method, path and the claims of the caller. *)
Definition request (method path : string) (claims : dict) : dict :=
  [("httpMethod", PStr method);
   ("path", PStr path);
   ("requestContext", PDict [("authorizer", PDict [("claims", PDict claims)])])].

Definition alice_claims : dict :=
  [("sub", PStr "alice"); ("email", PStr "alice@example.com")].



(** The creation date a list sorts by, for an item whose [created_at] is a
    string or is missing. *)
Definition created_at (item : dict) : string :=
  match dget_default "created_at" (PStr EmptyString) item with
  | PStr s => s
  | _ => EmptyString
  end.

Definition dated (item : dict) : Prop :=
  dget_default "created_at" (PStr EmptyString) item = PStr (created_at item).

(** Item [a] was not created before item [b] (ISO strings compare as
    their instants do). *)
Definition not_older (a b : dict) : Prop :=
  String.ltb (created_at a) (created_at b) = false.

(** The items of the Instances table a caller may list. *)
Definition visible_to (u : user_info) (item : dict) : bool :=
  is_admin u || attr_eq "user_id" (user_id u) item.

Definition visible_items (u : user_info) (t : gmap string dict) : list dict :=
  filter (fun it => visible_to u it = true) (snd <$> map_to_list t).

(** A listed instance: the stored item and its real-time status. *)
Definition enriched (item d : dict) : Prop :=
  exists st : pyval, d = dset "real_time_status" st item.

Definition service_list_doc (u : user_info) (instances : list dict) : pyval :=
  PDict [("instances", PList (PDict <$> instances));
         ("count", PInt (Z.of_nat (length instances)));
         ("user_filter", PStr (if is_admin u then "all" else "own"))].

(** Two instances of alice, the second one newer. *)
Definition alice_newer_instance : dict :=
  [("instance_id", PStr "i-2");
   ("model_id", PStr "llama2:7b");
   ("user_id", PStr "alice");
   ("status", PStr "stopped");
   ("created_at", PStr "2024-05-01T11:00:00+00:00")].

Definition two_instances_world : World :=
  {| tables :=
       {[ "instances" :=
            {[ "i-1" := alice_service_instance "running";
               "i-2" := alice_newer_instance ]} ]};
     calls := [];
     logged := [] |}.

(** A task record that lost its endpoint. *)
Definition broken_task_instance : dict :=
  [("id", PStr "i-1");
   ("user_id", PStr "alice");
   ("model_id", PStr "llama2:7b");
   ("model_name", PStr "Llama 2 7B");
   ("status", PStr "running");
   ("instance_type", PStr "ml.m5.large");
   ("estimated_cost", PStr "$0.12/hour");
   ("created_at", PStr "2024-05-01T10:00:00+00:00")].

(** An item counts toward the quota of [uid]: it is owned by [uid] and
    its status is "running" or "starting". *)
Definition counts_for (uid : pyval) (item : dict) : bool :=
  attr_eq "user_id" uid item && Models.is_active_status item.

Definition slot (b : bool) : nat := if b then 1%nat else 0%nat.

(** The view of a task record in the list of lambda_function.py. *)
Definition task_view (item : dict) : pyval :=
  PDict [("id", dget_default "id" PNone item);
         ("modelId", dget_default "model_id" PNone item);
         ("modelName", dget_default "model_name" PNone item);
         ("status", dget_default "status" PNone item);
         ("instanceType", dget_default "instance_type" PNone item);
         ("estimatedCost", dget_default "estimated_cost" PNone item);
         ("endpoint", dget_default "endpoint" PNone item);
         ("startedAt", dget_default "created_at" PNone item)].

(** A record that has the eight fields the list shows, none of them a
    number. *)
Definition listable (item : dict) : Prop :=
  Forall (fun k => dget k item <> None) task_record_keys
  /\ no_number (PDict item) = true.

(** * Verification *)

(** ** Running the monad *)

Lemma bind_ok {A B} (m : M A) (k : A -> M B) (w w' : World) (a : A) :
  m w = (Ok a, w') -> bind m k w = k a w'.
Proof. intros H. unfold bind. now rewrite H. Qed.

Lemma bind_raise {A B} (m : M A) (k : A -> M B) (w w' : World) (e : exn) :
  m w = (Raise e, w') -> bind m k w = (Raise e, w').
Proof. intros H. unfold bind. now rewrite H. Qed.

Lemma try_except_ok {A} (m : M A) (h : exn -> M A) (w w' : World) (a : A) :
  m w = (Ok a, w') -> try_except m h w = (Ok a, w').
Proof. intros H. unfold try_except. now rewrite H. Qed.

Lemma try_except_raise {A} (m : M A) (h : exn -> M A) (w w' : World) (e : exn) :
  m w = (Raise e, w') -> try_except m h w = h e w'.
Proof. intros H. unfold try_except. now rewrite H. Qed.

Lemma os_environ_ok (E : Env) (k v : string) (w : World) :
  environ E !! k = Some v -> os_environ E k w = (Ok v, w).
Proof. intros H. unfold os_environ. now rewrite H. Qed.

Lemma os_environ_get_default_ok (E : Env) (k d v : string) :
  environ E !! k = Some v -> os_environ_get_default E k d = v.
Proof. intros H. unfold os_environ_get_default. now rewrite H. Qed.

Lemma subscript_ok (d : dict) (k : string) (v : pyval) (w : World) :
  dget k d = Some v -> subscript d k w = (Ok v, w).
Proof. intros H. unfold subscript. now rewrite H. Qed.

Lemma get_item_ok (E : Env) (tn k : string) (t : gmap string dict) (w : World) :
  dynamo_fault E tn (GetItem (PStr k)) = None ->
  tables w !! tn = Some t ->
  get_item E tn (PStr k) w = (Ok (t !! k), w).
Proof. intros Hf Ht. unfold get_item, read_table. now rewrite Hf, Ht. Qed.

(** One step of a run: the first action of a [bind] or of a [try] block
    returns, by a hypothesis on the environment or by computation. *)
Ltac run_solve :=
  first [ eapply os_environ_ok; eassumption
        | eapply subscript_ok; eassumption
        | eapply get_item_ok; eassumption
        | reflexivity ].

Ltac run_step := erewrite bind_ok by run_solve.

Ltac run := repeat run_step.

(** Membership in a list of string literals, as [selector_in] decides
    it. *)
Lemma existsb_eqb_In (s : string) (l : list string) :
  existsb (String.eqb s) l = true <-> In s l.
Proof.
  rewrite existsb_exists. split.
  - intros (x & Hx & Heq). apply String.eqb_eq in Heq. now subst.
  - intros H. exists s. split; [assumption | apply String.eqb_refl].
Qed.

Lemma selector_in_Some (s : string) (l : list string) :
  In s l -> selector_in (PStr s) l = Some s.
Proof.
  intros H. unfold selector_in.
  apply existsb_eqb_In in H. now rewrite H.
Qed.

Lemma selector_in_None (v : pyval) (l : list string) :
  (forall s, v = PStr s -> ~ In s l) -> selector_in v l = None.
Proof.
  intros H. destruct v; try reflexivity. unfold selector_in.
  destruct (existsb (String.eqb s) l) eqn:Hex; [| reflexivity].
  apply existsb_eqb_In in Hex. now destruct (H s eq_refl).
Qed.

(** ** C9: the cost estimate *)






(** ** C5: the deployment configuration *)

(** C5. For every model and instance size the deployment configuration
    is a static lookup (the world is neither read nor changed): a size of
    the GPU class selects the EC2 profile with the GPU task definition and
    a placement constraint that pins exactly that instance type; a size of
    the large-CPU class selects the EC2 profile with the same constraint
    (and the CPU task definition); every other size, whatever the value,
    selects the Fargate profile with the CPU task definition and no
    placement constraint. *)
Theorem get_task_configuration_lookup (E : Env) (model_id : string)
    (instance_type : pyval) (cpu_arn gpu_arn : string) (w : World) :
  environ E !! "CPU_TASK_DEFINITION_ARN" = Some cpu_arn ->
  environ E !! "GPU_TASK_DEFINITION_ARN" = Some gpu_arn ->
  exists config : LambdaFunction.task_config,
    LambdaFunction.get_task_configuration E (PStr model_id) instance_type w
    = (Ok config, w)
    /\ LambdaFunction.container_image config = image_of E model_id
    /\ (forall t, instance_type = PStr t ->
        In t LambdaFunction.gpu_instance_types ->
        LambdaFunction.launch_type config = "EC2"
        /\ LambdaFunction.task_definition config = gpu_arn
        /\ LambdaFunction.placement_constraints config
           = Some [{| pc_type := "memberOf";
                      pc_expression :=
                        "attribute:ecs.instance-type == " +:+ t |}])
    /\ (forall t, instance_type = PStr t ->
        In t LambdaFunction.large_cpu_types ->
        LambdaFunction.launch_type config = "EC2"
        /\ LambdaFunction.task_definition config = cpu_arn
        /\ LambdaFunction.placement_constraints config
           = Some [{| pc_type := "memberOf";
                      pc_expression :=
                        "attribute:ecs.instance-type == " +:+ t |}])
    /\ ((forall t, instance_type = PStr t ->
         ~ In t LambdaFunction.gpu_instance_types
         /\ ~ In t LambdaFunction.large_cpu_types) ->
        LambdaFunction.launch_type config = "FARGATE"
        /\ LambdaFunction.task_definition config = cpu_arn
        /\ LambdaFunction.placement_constraints config = None).
Proof.
  intros Hcpu Hgpu.
  unfold LambdaFunction.get_task_configuration.
  do 2 run_step.
  destruct (selector_in instance_type LambdaFunction.gpu_instance_types)
    as [g |] eqn:Hg.
  - (* a GPU size *)
    run_step.
    eexists. split; [reflexivity |].
    cbn [LambdaFunction.container_image LambdaFunction.launch_type
         LambdaFunction.task_definition LambdaFunction.placement_constraints].
    assert (Hty : instance_type = PStr g).
    { unfold selector_in in Hg. destruct instance_type; try discriminate.
      destruct (existsb _ _); now inversion Hg. }
    assert (Hin : In g LambdaFunction.gpu_instance_types).
    { subst instance_type. unfold selector_in in Hg.
      destruct (existsb _ _) eqn:Hex; [| discriminate].
      now apply existsb_eqb_In. }
    split; [reflexivity |]. split; [| split].
    + intros t Ht _. rewrite Hty in Ht. injection Ht as <-.
      repeat split; reflexivity.
    + intros t Ht Hlarge. rewrite Hty in Ht. injection Ht as <-.
      exfalso. revert Hin Hlarge.
      unfold LambdaFunction.gpu_instance_types, LambdaFunction.large_cpu_types.
      simpl. intuition (subst; discriminate).
    + intros Hother. destruct (Hother g Hty) as [Hn _]. now destruct Hn.
  - destruct (selector_in instance_type LambdaFunction.large_cpu_types)
      as [c |] eqn:Hc.
    + (* a large CPU size *)
      eexists. split; [reflexivity |].
    cbn [LambdaFunction.container_image LambdaFunction.launch_type
         LambdaFunction.task_definition LambdaFunction.placement_constraints].
      assert (Hty : instance_type = PStr c).
      { unfold selector_in in Hc. destruct instance_type; try discriminate.
        destruct (existsb _ _); now inversion Hc. }
      assert (Hin : In c LambdaFunction.large_cpu_types).
      { subst instance_type. unfold selector_in in Hc.
        destruct (existsb _ _) eqn:Hex; [| discriminate].
        now apply existsb_eqb_In. }
      split; [reflexivity |]. split; [| split].
      * intros t Ht Hgin. rewrite Hty in Ht. injection Ht as <-.
        rewrite Hty in Hg. now rewrite (selector_in_Some _ _ Hgin) in Hg.
      * intros t Ht _. rewrite Hty in Ht. injection Ht as <-.
        repeat split; reflexivity.
      * intros Hother. destruct (Hother c Hty) as [_ Hn]. now destruct Hn.
    + (* any other value *)
      eexists. split; [reflexivity |].
    cbn [LambdaFunction.container_image LambdaFunction.launch_type
         LambdaFunction.task_definition LambdaFunction.placement_constraints].
      split; [reflexivity |]. split; [| split].
      * intros t Ht Hgin. subst instance_type.
        now rewrite (selector_in_Some _ _ Hgin) in Hg.
      * intros t Ht Hcin. subst instance_type.
        now rewrite (selector_in_Some _ _ Hcin) in Hc.
      * intros _. repeat split; reflexivity.
Qed.

Lemma get_task_configuration_lookup_witness :
  exists config : LambdaFunction.task_config,
    LambdaFunction.get_task_configuration plain_env (PStr "llama2:7b")
      (PStr "ml.g4dn.xlarge") (sample_world alice_task_instance)
    = (Ok config, sample_world alice_task_instance)
    /\ LambdaFunction.launch_type config = "EC2"
    /\ LambdaFunction.task_definition config = "arn:task/gpu"
    /\ LambdaFunction.placement_constraints config
       = Some [{| pc_type := "memberOf";
                  pc_expression :=
                    "attribute:ecs.instance-type == ml.g4dn.xlarge" |}].
Proof.
  assert (Hcpu : environ plain_env !! "CPU_TASK_DEFINITION_ARN"
                 = Some "arn:task/cpu") by (vm_compute; reflexivity).
  assert (Hgpu : environ plain_env !! "GPU_TASK_DEFINITION_ARN"
                 = Some "arn:task/gpu") by (vm_compute; reflexivity).
  destruct (get_task_configuration_lookup plain_env "llama2:7b"
              (PStr "ml.g4dn.xlarge") "arn:task/cpu" "arn:task/gpu"
              (sample_world alice_task_instance) Hcpu Hgpu)
    as (config & Hrun & _ & Hclass & _).
  exists config. split; [exact Hrun |].
  apply (Hclass "ml.g4dn.xlarge" eq_refl).
  unfold LambdaFunction.gpu_instance_types. simpl. tauto.
Defined.

(** ** C1: the status of an active service *)

Lemma cluster_name_ok (E : Env) (environment : string) (w : World) :
  environ E !! "ENVIRONMENT" = Some environment ->
  Instances.cluster_name E w
  = (Ok (os_environ_get_default E "ECS_CLUSTER_NAME"
           (environment +:+ "-ollama-cluster")), w).
Proof.
  intros H. unfold Instances.cluster_name. run_step. reflexivity.
Qed.

Lemma dmem_of_dget (k : string) (d : dict) (v : pyval) :
  dget k d = Some v -> dmem k d = true.
Proof. intros H. unfold dmem. now rewrite H. Qed.

Lemma describe_services_ok (E : Env) (cluster : string) (service : pyval)
    (l : list ecs_service) (w : World) :
  ecs_describe_services E cluster service = Ok l ->
  describe_services E cluster service w
  = (Ok l, {| tables := tables w;
              calls := (calls w ++ [EcsDescribeServices cluster service])%list;
              logged := logged w |}).
Proof.
  intros H. unfold describe_services, call_result, bind, issue, lift_result.
  simpl. now rewrite H.
Qed.

(** C1. When the record names its service, the deployment is configured
    and ECS describes the service as ACTIVE with [desired] desired and
    [running] running replicas, the reconciled status is the one the
    specification gives for these two counts, wherever it gives one: zero
    desired is "stopped", running equal to desired (> 0) is "running",
    running strictly between 0 and desired is "starting", zero running with
    desired > 0 is "pending". Nothing else of the record, of the service or
    of the world enters the result. *)
Theorem get_ecs_service_status_active (E : Env) (instance : dict)
    (environment : string) (service_name arn : pyval)
    (service : ecs_service) (others : list ecs_service)
    (desired running : Z) (status : string) (w : World) :
  dget "service_name" instance = Some service_name ->
  dget "ecs_service_arn" instance = Some arn ->
  environ E !! "ENVIRONMENT" = Some environment ->
  ecs_describe_services E
    (os_environ_get_default E "ECS_CLUSTER_NAME"
       (environment +:+ "-ollama-cluster")) service_name
  = Ok (service :: others) ->
  svc_status service = Some "ACTIVE" ->
  default 0 (svc_desiredCount service) = desired ->
  default 0 (svc_runningCount service) = running ->
  spec_active_status desired running = Some status ->
  exists w' : World,
    Instances.get_ecs_service_status E instance w = (Ok (PStr status), w').
Proof.
  intros Hname Harn Henv Hdesc Hactive Hdesired Hrunning Hspec.
  unfold Instances.get_ecs_service_status.
  rewrite (dmem_of_dget _ _ _ Hname), (dmem_of_dget _ _ _ Harn). simpl.
  eexists. eapply try_except_ok.
  erewrite bind_ok by (eapply cluster_name_ok; eassumption).
  run_step.
  erewrite bind_ok by (eapply describe_services_ok; eassumption).
  cbv beta iota zeta. rewrite Hactive, Hdesired, Hrunning. simpl.
  unfold spec_active_status in Hspec.
  destruct (desired =? 0) eqn:Hd0.
  { injection Hspec as <-. reflexivity. }
  destruct (running =? desired) eqn:Hrd.
  { destruct (0 <? desired) eqn:Hpos.
    - simpl in Hspec. injection Hspec as <-. reflexivity.
    - simpl in Hspec. exfalso.
      destruct (0 <? running) eqn:Hr; simpl in Hspec.
      + destruct (running <? desired) eqn:Hlt; [lia | discriminate].
      + discriminate. }
  rewrite andb_false_r in Hspec.
  destruct (0 <? running) eqn:Hr.
  - simpl in Hspec. destruct (running <? desired) eqn:Hlt.
    + injection Hspec as <-. reflexivity.
    + destruct (0 <? desired) eqn:Hpos; simpl in Hspec.
      * destruct (running =? 0) eqn:Hr0; [lia | discriminate].
      * discriminate.
  - simpl in Hspec.
    destruct ((0 <? desired) && (running =? 0)); [| discriminate].
    injection Hspec as <-. reflexivity.
Qed.

(** The four cases the specification lists. *)
Lemma spec_active_status_examples :
  spec_active_status 2 2 = Some "running"
  /\ spec_active_status 2 1 = Some "starting"
  /\ spec_active_status 2 0 = Some "pending"
  /\ (forall running, spec_active_status 0 running = Some "stopped").
Proof. repeat split. Qed.

Lemma get_ecs_service_status_active_witness :
  exists w' : World,
    Instances.get_ecs_service_status plain_env
      (alice_service_instance "running")
      (sample_world (alice_service_instance "running"))
    = (Ok (PStr "starting"), w').
Proof.
  apply (get_ecs_service_status_active plain_env
           (alice_service_instance "running") "dev"
           (PStr "ollama-i-1") (PStr "arn:service/1")
           (active_service 2 1) [] 2 1 "starting");
    solve [reflexivity | vm_compute; reflexivity].
Defined.

Lemma lift_result_ok {A} (r : result A) (a : A) (w : World) :
  r = Ok a -> lift_result r w = (Ok a, w).
Proof. intros ->. reflexivity. Qed.

Lemma truthy_str (s : string) : s <> EmptyString -> truthy (PStr s) = true.
Proof.
  intros H. simpl. destruct (String.eqb s EmptyString) eqn:Heq; [| reflexivity].
  apply String.eqb_eq in Heq. contradiction.
Qed.

(** ** C4: an unknown model *)

(** C4. A create request whose body names a model identifier (a non-empty
    string) that the Model Catalog does not hold is answered 404 "Model not
    found" on both surfaces, and the world after the request is the world
    before it: no Instance record is written and no call, provisioning or
    other, is issued to the orchestration service. *)
Theorem create_unknown_model_not_found (E : Env) (event : dict)
    (u : user_info) (raw : pyval) (body : dict) (m tn : string)
    (t : gmap string dict) (w : World) :
  dget "body" event = Some raw ->
  json_loads E raw = Ok (PDict body) ->
  m <> EmptyString ->
  environ E !! "MODELS_TABLE_NAME" = Some tn ->
  dynamo_fault E tn (GetItem (PStr m)) = None ->
  tables w !! tn = Some t ->
  t !! m = None ->
  (dget "modelId" body = Some (PStr m) ->
   LambdaFunction.create_instance E event u w
   = (Ok (LambdaFunction.json_response 404
            (LambdaFunction.error_doc "Model not found")), w))
  /\ (dget "model_id" body = Some (PStr m) ->
      Models.start_model E event u w
      = (Ok (Models.create_error_response 404 "Model not found"), w)).
Proof.
  intros Hbody Hjson Hm Henv Hfault Htab Hnone. split; intros Hid.
  - unfold LambdaFunction.create_instance. eapply try_except_ok.
    run_step.
    erewrite bind_ok by (eapply lift_result_ok; eassumption).
    do 2 run_step.
    unfold dget_default at 1 2. rewrite Hid, (truthy_str m Hm).
    cbn [negb]. do 2 run_step. now rewrite Hnone.
  - unfold Models.start_model. eapply try_except_ok.
    run_step.
    erewrite bind_ok by (eapply lift_result_ok; eassumption).
    do 3 run_step.
    unfold dget_default at 1 2. rewrite Hid, (truthy_str m Hm).
    cbn [negb]. do 2 run_step. now rewrite Hnone.
Qed.

Lemma create_unknown_model_not_found_witness :
  LambdaFunction.create_instance plain_env (create_event "modelId" "nope")
    bob (sample_world alice_task_instance)
  = (Ok (LambdaFunction.json_response 404
           (LambdaFunction.error_doc "Model not found")),
     sample_world alice_task_instance)
  /\ Models.start_model plain_env (create_event "model_id" "nope")
       bob (sample_world alice_task_instance)
     = (Ok (Models.create_error_response 404 "Model not found"),
        sample_world alice_task_instance).
Proof.
  split.
  - refine (proj1 (create_unknown_model_not_found plain_env
             (create_event "modelId" "nope") bob
             (PStr (json_member "modelId" "nope"))
             [("modelId", PStr "nope")] "nope" "models"
             {[ "llama2:7b" := llama_model ]}
             (sample_world alice_task_instance)
             _ _ _ _ _ _ _) _);
      solve [reflexivity | vm_compute; reflexivity | discriminate].
  - refine (proj2 (create_unknown_model_not_found plain_env
             (create_event "model_id" "nope") bob
             (PStr (json_member "model_id" "nope"))
             [("model_id", PStr "nope")] "nope" "models"
             {[ "llama2:7b" := llama_model ]}
             (sample_world alice_task_instance)
             _ _ _ _ _ _ _) _);
      solve [reflexivity | vm_compute; reflexivity | discriminate].
Defined.

Lemma query_ok (E : Env) (tn index attr uid : string) (flt : dict -> bool)
    (t : gmap string dict) (w : World) :
  dynamo_fault E tn (Query index (PStr uid)) = None ->
  tables w !! tn = Some t ->
  query E tn index attr (PStr uid) flt w
  = (Ok (filter (fun it => attr_eq attr (PStr uid) it && flt it = true)
                (snd <$> map_to_list t)), w).
Proof. intros Hf Ht. unfold query, read_table. now rewrite Hf, Ht. Qed.

Lemma lift_option_ok {A} (e : exn) (o : option A) (a : A) (w : World) :
  o = Some a -> lift_option e o w = (Ok a, w).
Proof. intros ->. reflexivity. Qed.

(** ** C10: the limit check fails closed *)

Lemma check_user_instance_limits_closed (E : Env) (uid : pyval) (tn : string)
    (e : exn) (w : World) :
  environ E !! "INSTANCES_TABLE_NAME" = Some tn ->
  query E tn "UserIdIndex" "user_id" uid Models.is_active_status w
  = (Raise e, w) ->
  Models.check_user_instance_limits E uid w
  = (Ok false, with_log ERROR "Failed to check instance limits" w).
Proof.
  intros Henv Hq. unfold Models.check_user_instance_limits.
  erewrite try_except_raise.
  2:{ run_step. eapply bind_raise. exact Hq. }
  reflexivity.
Qed.

(** C10. A create request that reaches the limit check (its body names a
    model of the catalog) while the store query that counts the caller's
    active instances raises: the check reports the limit as exceeded, the
    request is answered 429, and neither a table nor the list of issued
    calls has changed: nothing is provisioned or persisted, only the error
    is logged. *)
Theorem start_model_limit_check_fails_closed (E : Env) (event : dict)
    (u : user_info) (raw : pyval) (body model : dict) (m tm ti : string)
    (models : gmap string dict) (e : exn) (w : World) :
  dget "body" event = Some raw ->
  json_loads E raw = Ok (PDict body) ->
  dget "model_id" body = Some (PStr m) ->
  m <> EmptyString ->
  environ E !! "MODELS_TABLE_NAME" = Some tm ->
  dynamo_fault E tm (GetItem (PStr m)) = None ->
  tables w !! tm = Some models ->
  models !! m = Some model ->
  environ E !! "INSTANCES_TABLE_NAME" = Some ti ->
  query E ti "UserIdIndex" "user_id" (user_id u) Models.is_active_status w
  = (Raise e, w) ->
  Models.check_user_instance_limits E (user_id u) w
  = (Ok false, with_log ERROR "Failed to check instance limits" w)
  /\ Models.start_model E event u w
     = (Ok (Models.create_error_response 429 "Instance limit exceeded"),
        with_log ERROR "Failed to check instance limits" w).
Proof.
  intros Hbody Hjson Hid Hm Htm Hfault Htab Hmodel Hti Hq.
  pose proof (check_user_instance_limits_closed E _ _ _ _ Hti Hq) as Hcheck.
  split; [exact Hcheck |].
  unfold Models.start_model. eapply try_except_ok.
  run_step.
  erewrite bind_ok by (eapply lift_result_ok; eassumption).
  do 3 run_step.
  unfold dget_default at 1 2. rewrite Hid, (truthy_str m Hm).
  cbn [negb]. do 2 run_step. rewrite Hmodel.
  cbv beta iota zeta.
  erewrite bind_ok by exact Hcheck.
  reflexivity.
Qed.

Lemma start_model_limit_check_fails_closed_witness :
  Models.check_user_instance_limits faulty_env (user_id bob)
    (sample_world (alice_service_instance "running"))
  = (Ok false, with_log ERROR "Failed to check instance limits"
                 (sample_world (alice_service_instance "running")))
  /\ Models.start_model faulty_env (start_event "llama2:7b") bob
       (sample_world (alice_service_instance "running"))
     = (Ok (Models.create_error_response 429 "Instance limit exceeded"),
        with_log ERROR "Failed to check instance limits"
          (sample_world (alice_service_instance "running"))).
Proof.
  refine (start_model_limit_check_fails_closed faulty_env
            (start_event "llama2:7b") bob
            (PStr (json_member "model_id" "llama2:7b"))
            [("model_id", PStr "llama2:7b")] llama_model
            "llama2:7b" "models" "instances"
            {[ "llama2:7b" := llama_model ]}
            (Exn ClientError "ProvisionedThroughputExceededException")
            (sample_world (alice_service_instance "running"))
            _ _ _ _ _ _ _ _ _ _);
    solve [reflexivity | vm_compute; reflexivity | discriminate].
Defined.

(** ** C3: the per-user quota *)

Lemma check_user_instance_limits_at_quota (E : Env) (uid tn : string)
    (t : gmap string dict) (maximum : Z) (w : World) :
  environ E !! "INSTANCES_TABLE_NAME" = Some tn ->
  dynamo_fault E tn (Query "UserIdIndex" (PStr uid)) = None ->
  tables w !! tn = Some t ->
  py_int E (os_environ_get_default E "MAX_INSTANCES_PER_USER" "5")
  = Some maximum ->
  Models.check_user_instance_limits E (PStr uid) w
  = (Ok (Z.of_nat (active_instances (PStr uid) t) <? maximum), w).
Proof.
  intros Henv Hf Ht Hmax. unfold Models.check_user_instance_limits.
  eapply try_except_ok. run_step.
  erewrite bind_ok by (eapply query_ok; eassumption).
  erewrite bind_ok by (eapply lift_option_ok; eassumption).
  reflexivity.
Qed.

(** The quota of the service surface. A start request
    ([POST /models/start]) whose body names a model of the catalog, made
    when the caller's count of owned Instances with status "starting" or
    "running" has reached the configured per-user maximum, is answered 429
    "Instance limit exceeded", and the world after the request is the
    world before it: no record is written, no call is issued. *)
Theorem start_model_quota_reached (E : Env) (event : dict) (u : user_info)
    (raw : pyval) (body model : dict) (m tm ti uid : string)
    (models instances : gmap string dict) (maximum : Z) (w : World) :
  dget "body" event = Some raw ->
  json_loads E raw = Ok (PDict body) ->
  dget "model_id" body = Some (PStr m) ->
  m <> EmptyString ->
  environ E !! "MODELS_TABLE_NAME" = Some tm ->
  dynamo_fault E tm (GetItem (PStr m)) = None ->
  tables w !! tm = Some models ->
  models !! m = Some model ->
  user_id u = PStr uid ->
  environ E !! "INSTANCES_TABLE_NAME" = Some ti ->
  dynamo_fault E ti (Query "UserIdIndex" (PStr uid)) = None ->
  tables w !! ti = Some instances ->
  py_int E (os_environ_get_default E "MAX_INSTANCES_PER_USER" "5")
  = Some maximum ->
  maximum <= Z.of_nat (active_instances (PStr uid) instances) ->
  Models.start_model E event u w
  = (Ok (Models.create_error_response 429 "Instance limit exceeded"), w).
Proof.
  intros Hbody Hjson Hid Hm Htm Hfault Htab Hmodel Huid Hti Hq Hinst Hmax Hge.
  unfold Models.start_model. eapply try_except_ok.
  run_step.
  erewrite bind_ok by (eapply lift_result_ok; eassumption).
  do 3 run_step.
  unfold dget_default at 1 2. rewrite Hid, (truthy_str m Hm).
  cbn [negb]. do 2 run_step. rewrite Hmodel.
  cbv beta iota zeta. rewrite Huid.
  erewrite bind_ok
    by (eapply check_user_instance_limits_at_quota; eassumption).
  apply Z.ltb_ge in Hge. now rewrite Hge.
Qed.

Lemma start_model_quota_reached_witness :
  Models.start_model plain_env (start_event "llama2:7b") alice
    (sample_world (alice_service_instance "running"))
  = (Ok (Models.create_error_response 429 "Instance limit exceeded"),
     sample_world (alice_service_instance "running")).
Proof.
  refine (start_model_quota_reached plain_env
            (start_event "llama2:7b") alice
            (PStr (json_member "model_id" "llama2:7b"))
            [("model_id", PStr "llama2:7b")] llama_model
            "llama2:7b" "models" "instances" "alice"
            {[ "llama2:7b" := llama_model ]}
            {[ "i-1" := alice_service_instance "running" ]}
            1
            (sample_world (alice_service_instance "running"))
            _ _ _ _ _ _ _ _ _ _ _ _ _ _);
    solve [reflexivity | vm_compute; reflexivity | discriminate
          | vm_compute; discriminate].
Defined.

(** C3, the code at the failing input. The sample deployment allows one
    active instance per user and alice owns one that is running. Her
    create request on the task surface ([POST /instances]), which never
    looks at the quota, is answered 201; a task is started and a second
    record of hers is persisted. *)
Lemma create_instance_ignores_quota :
  py_int plain_env
    (os_environ_get_default plain_env "MAX_INSTANCES_PER_USER" "5") = Some 1
  /\ active_instances (PStr "alice") {[ "i-1" := alice_task_instance ]} = 1%nat
  /\ exists (r : response) (p : run_task_params) (w' : World),
       LambdaFunction.create_instance plain_env
         (create_event "modelId" "llama2:7b") alice
         (sample_world alice_task_instance) = (Ok r, w')
       /\ statusCode r = 201
       /\ calls w' = [EcsRunTask p]
       /\ tables w' !! "instances"
          = Some (<[ "0f8fad5b-d9cb-469f-a165-70867728950e" :=
                       created_task_instance ]>
                    {[ "i-1" := alice_task_instance ]})
       /\ active_instances (PStr "alice")
            (<[ "0f8fad5b-d9cb-469f-a165-70867728950e" :=
                  created_task_instance ]>
               {[ "i-1" := alice_task_instance ]}) = 2%nat.
Proof.
  split; [vm_compute; reflexivity |].
  split; [vm_compute; reflexivity |].
  eexists. eexists. eexists. split; [vm_compute; reflexivity |].
  split; [reflexivity |].
  split; [reflexivity |].
  split; vm_compute; reflexivity.
Qed.

(** ** C6: stopping a stopped instance *)

Lemma update_item_ok (E : Env) (tn keyattr k : string)
    (sets : list (string * pyval)) (t : gmap string dict) (w : World) :
  dynamo_fault E tn (UpdateItem (PStr k)) = None ->
  tables w !! tn = Some t ->
  update_item E tn keyattr (PStr k) sets w
  = (Ok tt,
     set_table tn
       (<[k := apply_sets sets (default [(keyattr, PStr k)] (t !! k))]> t) w).
Proof. intros Hf Ht. unfold update_item, write_table. now rewrite Hf, Ht. Qed.

(** The best-effort stop of the ECS service: it never raises and never
    touches a table; when one of its two calls fails, a warning is
    logged. *)
Lemma stop_service_best_effort (E : Env) (instance : dict) (w : World) :
  exists w1 : World,
    try_except
      (let* cluster := os_environ E "ECS_CLUSTER_NAME" in
       let* service := subscript instance "service_name" in
       do update_service E cluster service 0 in
       do time_sleep 5 in
       let* cluster' := os_environ E "ECS_CLUSTER_NAME" in
       let* service' := subscript instance "service_name" in
       delete_service E cluster' service')
      (fun _ => logger WARNING "Failed to stop ECS service") w
    = (Ok tt, w1)
    /\ tables w1 = tables w
    /\ (forall x, In x (logged w) -> In x (logged w1))
    /\ (forall cluster service,
          environ E !! "ECS_CLUSTER_NAME" = Some cluster ->
          dget "service_name" instance = Some service ->
          ecs_update_service E cluster service 0 <> None
          \/ ecs_delete_service E cluster service <> None ->
          In (WARNING, "Failed to stop ECS service") (logged w1)).
Proof.
  unfold try_except, bind, os_environ, subscript, lift_option,
    update_service, delete_service, call_fault, lift_fault, time_sleep,
    bind, issue, logger, ret, raise.
  destruct (environ E !! "ECS_CLUSTER_NAME") as [cluster |] eqn:Hc; simpl.
  2:{ eexists. split; [reflexivity |]. simpl. split; [reflexivity |].
      split; [intros x Hx; apply in_or_app; now left |].
      intros c s Hc' _ _. discriminate. }
  destruct (dget "service_name" instance) as [service |] eqn:Hs; simpl.
  2:{ eexists. split; [reflexivity |]. simpl. split; [reflexivity |].
      split; [intros x Hx; apply in_or_app; now left |].
      intros c s _ Hs' _. discriminate. }
  destruct (ecs_update_service E cluster service 0) as [e1 |] eqn:Hu; simpl.
  { eexists. split; [reflexivity |]. simpl. split; [reflexivity |].
    split; [intros x Hx; apply in_or_app; now left |].
    intros c s _ _ _. apply in_or_app. right. now left. }
  destruct (ecs_delete_service E cluster service) as [e2 |] eqn:Hd; simpl.
  { eexists. split; [reflexivity |]. simpl. split; [reflexivity |].
    split; [intros x Hx; apply in_or_app; now left |].
    intros c s _ _ _. apply in_or_app. right. now left. }
  eexists. split; [reflexivity |]. simpl. split; [reflexivity |].
  split; [intros x Hx; exact Hx |].
  intros c s Hc' Hs' [Hf | Hf]; injection Hc' as <-; injection Hs' as <-;
    congruence.
Qed.

(** The best-effort removal of the target group. *)
Lemma delete_target_group_best_effort (E : Env) (arn : pyval) (w : World) :
  exists w1 : World,
    try_except (delete_target_group E arn)
      (fun _ => logger WARNING "Failed to delete target group") w
    = (Ok tt, w1)
    /\ tables w1 = tables w
    /\ (forall x, In x (logged w) -> In x (logged w1))
    /\ (elb_delete_target_group E arn <> None ->
        In (WARNING, "Failed to delete target group") (logged w1)).
Proof.
  unfold try_except, delete_target_group, call_fault, lift_fault, bind,
    issue, logger, ret, raise.
  destruct (elb_delete_target_group E arn) as [e |] eqn:Hd; simpl.
  - eexists. split; [reflexivity |]. simpl. split; [reflexivity |].
    split; [intros x Hx; apply in_or_app; now left |].
    intros _. apply in_or_app. right. now left.
  - eexists. split; [reflexivity |]. simpl. split; [reflexivity |].
    split; [intros x Hx; exact Hx |]. congruence.
Qed.

Lemma access_granted (instance : dict) (u : user_info) (owner : pyval)
    (w : World) :
  dget "user_id" instance = Some owner ->
  py_eq owner (user_id u) = true \/ is_admin u = true ->
  access_denied instance u w = (Ok false, w).
Proof.
  intros Ho Hok. unfold access_denied. run_step.
  destruct Hok as [-> | ->]; [reflexivity |].
  now rewrite andb_false_r.
Qed.

Lemma access_refused (instance : dict) (u : user_info) (owner : pyval)
    (w : World) :
  dget "user_id" instance = Some owner ->
  py_eq owner (user_id u) = false ->
  is_admin u = false ->
  access_denied instance u w = (Ok true, w).
Proof.
  intros Ho Hne Hadm. unfold access_denied. run_step.
  now rewrite Hne, Hadm.
Qed.

Lemma dget_dset_eq (k : string) (v : pyval) (d : dict) :
  dget k (dset k v d) = Some v.
Proof.
  induction d as [| [k' v'] d IH]; simpl.
  - now rewrite String.eqb_refl.
  - destruct (String.eqb k k') eqn:Hk; simpl; now rewrite Hk.
Qed.

Lemma dget_dset_ne (k k2 : string) (v : pyval) (d : dict) :
  k <> k2 -> dget k (dset k2 v d) = dget k d.
Proof.
  intros Hne. induction d as [| [k' v'] d IH]; simpl.
  - apply String.eqb_neq in Hne. now rewrite Hne.
  - destruct (String.eqb k2 k') eqn:Hk; simpl.
    + apply String.eqb_eq in Hk. subst k'.
      apply String.eqb_neq in Hne. now rewrite Hne.
    + now rewrite IH.
Qed.

(** C6. Stop is idempotent at the record layer. For an instance whose
    persisted status is already "stopped", a stop request by its owner or
    by an administrator is answered 200 with status "stopped", whatever
    ECS and the load balancer answer: the record is marked "stopped" again
    with a stop timestamp, no other record changes, and a failure of the
    service stop or of the target-group removal is logged as a warning
    instead of being raised. *)
Theorem stop_model_idempotent (E : Env) (instance_id tn : string)
    (u : user_info) (t : gmap string dict) (instance : dict)
    (owner : pyval) (w : World) :
  environ E !! "INSTANCES_TABLE_NAME" = Some tn ->
  dynamo_fault E tn (GetItem (PStr instance_id)) = None ->
  dynamo_fault E tn (UpdateItem (PStr instance_id)) = None ->
  tables w !! tn = Some t ->
  t !! instance_id = Some instance ->
  dget "status" instance = Some (PStr "stopped") ->
  dget "user_id" instance = Some owner ->
  py_eq owner (user_id u) = true \/ is_admin u = true ->
  exists w' : World,
    Models.stop_model E instance_id u w
    = (Ok (Models.create_success_response
             (PDict [("instance_id", PStr instance_id);
                     ("status", PStr "stopped")]) 200), w')
    /\ tables w'
       = <[tn := <[instance_id := stopped_record E instance]> t]> (tables w)
    /\ dget "status" (stopped_record E instance) = Some (PStr "stopped")
    /\ dget "stopped_at" (stopped_record E instance) = Some (PStr (now_iso E))
    /\ (forall cluster service,
          environ E !! "ECS_CLUSTER_NAME" = Some cluster ->
          dget "service_name" instance = Some service ->
          ecs_update_service E cluster service 0 <> None
          \/ ecs_delete_service E cluster service <> None ->
          In (WARNING, "Failed to stop ECS service") (logged w'))
    /\ (elb_delete_target_group E
          (dget_default "target_group_arn" PNone instance) <> None ->
        In (WARNING, "Failed to delete target group") (logged w')).
Proof.
  intros Henv Hget Hupd Htab Hinst Hstatus Howner Hok.
  destruct (stop_service_best_effort E instance w)
    as (w1 & Hrun1 & Htab1 & Hlog1 & Hwarn1).
  destruct (delete_target_group_best_effort E
              (dget_default "target_group_arn" PNone instance) w1)
    as (w2 & Hrun2 & Htab2 & Hlog2 & Hwarn2).
  assert (Htab' : tables w2 !! tn = Some t) by now rewrite Htab2, Htab1.
  eexists. split; [| split; [| split; [| split; [| split]]]].
  - unfold Models.stop_model. eapply try_except_ok.
    do 2 run_step. rewrite Hinst. cbv beta iota.
    erewrite bind_ok by (eapply access_granted; eassumption).
    cbv beta iota.
    erewrite bind_ok by exact Hrun1.
    erewrite bind_ok by exact Hrun2.
    erewrite bind_ok by (eapply update_item_ok; eassumption).
    reflexivity.
  - simpl. rewrite Hinst, Htab2, Htab1. reflexivity.
  - unfold stopped_record.
    rewrite dget_dset_ne by discriminate. apply dget_dset_eq.
  - unfold stopped_record. apply dget_dset_eq.
  - intros cluster service Hc Hs Hfail. cbn [logged set_table].
    apply in_or_app. left. apply Hlog2. eapply Hwarn1; eassumption.
  - intros Hfail. cbn [logged set_table].
    apply in_or_app. left. now apply Hwarn2.
Qed.

Lemma stop_model_idempotent_witness :
  exists w' : World,
    Models.stop_model plain_env "i-1" alice
      (sample_world (alice_service_instance "stopped"))
    = (Ok (Models.create_success_response
             (PDict [("instance_id", PStr "i-1");
                     ("status", PStr "stopped")]) 200), w')
    /\ tables w'
       = <["instances" :=
             <["i-1" := stopped_record plain_env
                          (alice_service_instance "stopped")]>
               {[ "i-1" := alice_service_instance "stopped" ]}]>
           (tables (sample_world (alice_service_instance "stopped")))
    /\ In (WARNING, "Failed to stop ECS service") (logged w')
    /\ In (WARNING, "Failed to delete target group") (logged w').
Proof.
  destruct (stop_model_idempotent plain_env "i-1" "instances" alice
              {[ "i-1" := alice_service_instance "stopped" ]}
              (alice_service_instance "stopped") (PStr "alice")
              (sample_world (alice_service_instance "stopped")))
    as (w' & Hrun & Htab & _ & _ & Hecs & Helb);
    try solve [reflexivity | vm_compute; reflexivity | left; reflexivity].
  exists w'. split; [exact Hrun |]. split; [exact Htab |]. split.
  - apply (Hecs "dev-cluster" (PStr "ollama-i-1"));
      solve [vm_compute; reflexivity | left; discriminate].
  - apply Helb. discriminate.
Defined.

(** ** What a computation can answer *)

Lemma answers_ret {A} (Q : A -> Prop) (a : A) : Q a -> answers Q (ret a).
Proof. intros H w w' a' Hrun. injection Hrun as <- _. exact H. Qed.

Lemma answers_raise {A} (Q : A -> Prop) (e : exn) : answers Q (raise e).
Proof. intros w w' a Hrun. discriminate. Qed.

Lemma answers_bind_with {A B} (P : A -> Prop) (Q : B -> Prop) (m : M A)
    (k : A -> M B) :
  answers P m -> (forall a, P a -> answers Q (k a)) -> answers Q (bind m k).
Proof.
  intros Hm Hk w w' b Hrun. unfold bind in Hrun.
  destruct (m w) as [[a | e] w1] eqn:Hmw; [| discriminate].
  eapply Hk; [eapply Hm; exact Hmw | exact Hrun].
Qed.

Lemma answers_bind {A B} (Q : B -> Prop) (m : M A) (k : A -> M B) :
  (forall a, answers Q (k a)) -> answers Q (bind m k).
Proof.
  intros Hk. apply (answers_bind_with (fun _ => True)); [| auto].
  intros w w' a _. exact I.
Qed.

Lemma answers_try_except {A} (Q : A -> Prop) (m : M A) (h : exn -> M A) :
  answers Q m -> (forall e, answers Q (h e)) -> answers Q (try_except m h).
Proof.
  intros Hm Hh w w' a Hrun. unfold try_except in Hrun.
  destruct (m w) as [[a' | e] w1] eqn:Hmw.
  - injection Hrun as <- _. eapply Hm. exact Hmw.
  - eapply Hh. exact Hrun.
Qed.

Lemma answers_try_except_class {A} (Q : A -> Prop) (cls : exn_class)
    (m h : M A) :
  answers Q m -> answers Q h -> answers Q (try_except_class cls m h).
Proof.
  intros Hm Hh w w' a Hrun. unfold try_except_class in Hrun.
  destruct (m w) as [[a' | e] w1] eqn:Hmw.
  - injection Hrun as <- _. eapply Hm. exact Hmw.
  - destruct (decide (exn_cls e = cls)); [| discriminate].
    eapply Hh. exact Hrun.
Qed.

(** Decompose a computation along its binds, handlers and branches. *)
Ltac answers_step :=
  match goal with
  | |- answers _ (ret _) => apply answers_ret
  | |- answers _ (raise _) => apply answers_raise
  | |- answers _ (bind _ _) => apply answers_bind; intros
  | |- answers _ (try_except _ _) => apply answers_try_except; [| intros]
  | |- answers _ (try_except_class _ _ _) => apply answers_try_except_class
  | |- answers _ (if ?b then _ else _) => destruct b
  | |- answers _ (match ?x with _ => _ end) => destruct x
  end.

Ltac answers_all := repeat answers_step.
Lemma py_eq_str (a : string) (v : pyval) :
  py_eq (PStr a) v = true <-> v = PStr a.
Proof.
  destruct v; simpl; try (split; [discriminate | discriminate]).
  rewrite String.eqb_eq. split; [now intros -> | now intros [= ->]].
Qed.

Lemma py_eq_str_false (a : string) (v : pyval) :
  v <> PStr a -> py_eq (PStr a) v = false.
Proof.
  intros H. destruct (py_eq (PStr a) v) eqn:Heq; [| reflexivity].
  apply py_eq_str in Heq. contradiction.
Qed.

Lemma try_except_bind_ok {A B} (m : M A) (k : A -> M B) (h : exn -> M B)
    (w w1 : World) (a : A) :
  m w = (Ok a, w1) -> try_except (bind m k) h w = try_except (k a) h w1.
Proof. intros H. unfold try_except, bind. now rewrite H. Qed.

Lemma try_except_bind_raise {A B} (m : M A) (k : A -> M B) (h : exn -> M B)
    (w w1 : World) (e : exn) :
  m w = (Raise e, w1) -> try_except (bind m k) h w = h e w1.
Proof. intros H. unfold try_except, bind. now rewrite H. Qed.

Lemma get_item_cases (E : Env) (tn k : string) (t : gmap string dict)
    (w : World) :
  tables w !! tn = Some t ->
  get_item E tn (PStr k) w = (Ok (t !! k), w)
  \/ exists e, get_item E tn (PStr k) w = (Raise e, w).
Proof.
  intros Ht. unfold get_item, read_table. rewrite Ht.
  destruct (dynamo_fault E tn (GetItem (PStr k))) as [e |]; eauto.
Qed.

Ltac served_leaf := unfold served; cbn; tauto.

(** Reduce a goal about one run to a property of every run. *)
Ltac by_answers :=
  let H := fresh "Hrun" in
  intros H;
  match type of H with
  | ?m ?w = (Ok ?r, ?w') =>
      pattern r;
      match goal with
      | |- ?Q r =>
          let Ha := fresh "Ha" in
          assert (Ha : answers Q m); [| exact (Ha w w' r H)]
      end
  end.

Ltac guarded_prefix Henv Htab Hinst Howner Hok :=
  erewrite try_except_bind_ok by (eapply os_environ_ok; exact Henv);
  let e := fresh "e" in
  let Hget := fresh "Hget" in
  match goal with
  | |- context [get_item ?E ?tn (PStr ?k)] =>
      destruct (get_item_cases E tn k _ _ Htab) as [Hget | [e Hget]]
  end;
  [ erewrite try_except_bind_ok by exact Hget;
    rewrite Hinst; cbv beta iota;
    erewrite try_except_bind_ok
      by (eapply access_granted; [exact Howner | exact Hok]);
    cbv beta iota
  | erewrite try_except_bind_raise by exact Hget ];
  by_answers; cbv beta; answers_all; served_leaf.

Lemma guarded_serves_owner_and_admin (E : Env) (op : guarded_operation)
    (instance_id tn : string) (u : user_info) (t : gmap string dict)
    (instance : dict) (owner : pyval) (w w' : World) (r : response) :
  environ E !! "INSTANCES_TABLE_NAME" = Some tn ->
  tables w !! tn = Some t ->
  t !! instance_id = Some instance ->
  dget "user_id" instance = Some owner ->
  py_eq owner (user_id u) = true \/ is_admin u = true ->
  run_guarded E op instance_id u w = (Ok r, w') ->
  served r.
Proof.
  intros Henv Htab Hinst Howner Hok.
  destruct op; cbn [run_guarded].
  - unfold LambdaFunction.get_instance.
    guarded_prefix Henv Htab Hinst Howner Hok.
  - unfold LambdaFunction.delete_instance.
    guarded_prefix Henv Htab Hinst Howner Hok.
  - unfold Instances.get_instance.
    guarded_prefix Henv Htab Hinst Howner Hok.
  - unfold Instances.get_instance_logs.
    guarded_prefix Henv Htab Hinst Howner Hok.
  - unfold Instances.get_instance_status.
    guarded_prefix Henv Htab Hinst Howner Hok.
  - unfold Models.stop_model.
    guarded_prefix Henv Htab Hinst Howner Hok.
Qed.

Lemma guarded_refuses_stranger (E : Env) (op : guarded_operation)
    (instance_id tn : string) (u : user_info) (t : gmap string dict)
    (instance : dict) (owner : pyval) (w : World) :
  environ E !! "INSTANCES_TABLE_NAME" = Some tn ->
  dynamo_fault E tn (GetItem (PStr instance_id)) = None ->
  tables w !! tn = Some t ->
  t !! instance_id = Some instance ->
  dget "user_id" instance = Some owner ->
  py_eq owner (user_id u) = false ->
  is_admin u = false ->
  run_guarded E op instance_id u w = (Ok (forbidden op), w).
Proof.
  intros Henv Hfault Htab Hinst Howner Hne Hadm.
  destruct op; cbn [run_guarded forbidden];
    [ unfold LambdaFunction.get_instance
    | unfold LambdaFunction.delete_instance
    | unfold Instances.get_instance
    | unfold Instances.get_instance_logs
    | unfold Instances.get_instance_status
    | unfold Models.stop_model ];
    eapply try_except_ok; do 2 run_step; rewrite Hinst; cbv beta iota;
    (erewrite bind_ok by (eapply access_refused; eassumption));
    reflexivity.
Qed.
(** ** Lists: sorting, loops and table reads *)

Lemma insert_sorted_In {A} (key : A -> pyval) (reverse : bool) (x : A)
    (l s : list A) :
  insert_sorted key reverse x l = Ok s ->
  forall y, In y s -> y = x \/ In y l.
Proof.
  revert s. induction l as [| z l IH]; intros s Hs y Hy; simpl in Hs.
  - injection Hs as <-. destruct Hy as [<- | []]. now left.
  - destruct (if reverse then py_lt (key x) (key z) else py_lt (key z) (key x))
      as [[|] |]; [| | discriminate].
    + destruct (insert_sorted key reverse x l) as [r | e] eqn:Hr;
        [| discriminate].
      injection Hs as <-. destruct Hy as [<- | Hy].
      * right. now left.
      * destruct (IH r eq_refl y Hy) as [-> | Hin]; [now left |].
        right. now right.
    + injection Hs as <-. destruct Hy as [<- | Hy]; [now left | now right].
Qed.

Lemma py_sort_In {A} (key : A -> pyval) (reverse : bool) (l s : list A) :
  py_sort key reverse l = Ok s -> forall y, In y s -> In y l.
Proof.
  revert s. induction l as [| x l IH]; intros s Hs y Hy; simpl in Hs.
  - injection Hs as <-. exact Hy.
  - destruct (py_sort key reverse l) as [s' | e]; [| discriminate].
    destruct (insert_sorted_In key reverse x s' s Hs y Hy) as [-> | Hin].
    + now left.
    + right. now apply (IH s' eq_refl).
Qed.

Lemma for_each_In {A B} (Q : A -> B -> Prop) (f : A -> M B) (l : list A) :
  (forall x, In x l -> answers (Q x) (f x)) ->
  answers (fun ys => forall y, In y ys -> exists x, In x l /\ Q x y)
          (for_each f l).
Proof.
  induction l as [| x l IH]; intros Hf; simpl.
  - apply answers_ret. intros y [].
  - apply (answers_bind_with (Q x)); [apply Hf; now left |].
    intros y Hy.
    apply (answers_bind_with
             (fun ys => forall y, In y ys -> exists x, In x l /\ Q x y)).
    { apply IH. intros x' Hx'. apply Hf. now right. }
    intros ys Hys. apply answers_ret.
    intros y' [<- | Hin].
    + exists x. split; [now left | exact Hy].
    + destruct (Hys y' Hin) as (x' & Hx' & HQ).
      exists x'. split; [now right | exact HQ].
Qed.

Lemma In_table_items (P : dict -> bool) (t : gmap string dict) (item : dict) :
  In item (filter (fun it => P it = true) (snd <$> map_to_list t)) ->
  exists k, t !! k = Some item /\ P item = true.
Proof.
  intros Hin. apply list_elem_of_In in Hin.
  apply list_elem_of_filter in Hin as [HP Hin].
  apply list_elem_of_fmap in Hin as ([k it] & -> & Hin).
  apply elem_of_map_to_list in Hin. exists k. split; assumption.
Qed.

Lemma scan_cases (E : Env) (tn : string) (flt : dict -> bool)
    (t : gmap string dict) (w : World) :
  tables w !! tn = Some t ->
  scan E tn flt w
  = (Ok (filter (fun it => flt it = true) (snd <$> map_to_list t)), w)
  \/ exists e, scan E tn flt w = (Raise e, w).
Proof.
  intros Ht. unfold scan, read_table. rewrite Ht.
  destruct (dynamo_fault E tn Scan); eauto.
Qed.

Lemma query_cases (E : Env) (tn index attr : string) (v : pyval)
    (flt : dict -> bool) (t : gmap string dict) (w : World) :
  tables w !! tn = Some t ->
  query E tn index attr v flt w
  = (Ok (filter (fun it => attr_eq attr v it && flt it = true)
                (snd <$> map_to_list t)), w)
  \/ exists e, query E tn index attr v flt w = (Raise e, w).
Proof.
  intros Ht. unfold query, read_table. rewrite Ht.
  destruct (dynamo_fault E tn (Query index v)); [eauto |].
  destruct v; eauto.
Qed.

Lemma list_view_id (item : dict) :
  answers (fun v => exists d, v = PDict d /\ dget "id" d = dget "id" item)
          (LambdaFunction.list_view item).
Proof.
  unfold LambdaFunction.list_view.
  apply (answers_bind_with (fun i => dget "id" item = Some i)).
  { intros w w' i Hrun. unfold subscript, lift_option in Hrun.
    destruct (dget "id" item); [| discriminate].
    now injection Hrun as <- _. }
  intros i Hi. answers_all. eexists. split; [reflexivity |].
  simpl. now rewrite Hi.
Qed.

Lemma enrich_keeps (E : Env) (item : dict) :
  answers (fun d => exists v, d = dset "real_time_status" v item)
          (Instances.enrich E item).
Proof. unfold Instances.enrich. answers_all; eexists; reflexivity. Qed.

(** ** Isolation: what a caller who is not an administrator sees *)

Lemma task_list_shows_own (E : Env) (u : user_info) (tn : string)
    (t : gmap string dict) (w w' : World) (r : response) :
  environ E !! "INSTANCES_TABLE_NAME" = Some tn ->
  tables w !! tn = Some t ->
  is_admin u = false ->
  LambdaFunction.list_instances E u w = (Ok r, w') ->
  forall v, In v (listed TaskList r) ->
    exists item k d,
      t !! k = Some item /\ attr_eq "user_id" (user_id u) item = true
      /\ v = PDict d /\ dget "id" d = dget "id" item.
Proof.
  intros Henv Htab Hadm. unfold LambdaFunction.list_instances.
  rewrite Hadm.
  erewrite try_except_bind_ok by (eapply os_environ_ok; exact Henv).
  destruct (scan_cases E tn (attr_eq "user_id" (user_id u)) t w Htab)
    as [Hscan | [e Hscan]].
  - erewrite try_except_bind_ok by exact Hscan.
    by_answers.
    apply answers_try_except.
    + eapply answers_bind_with.
      * apply (for_each_In
                 (fun item v => exists d, v = PDict d
                                          /\ dget "id" d = dget "id" item)).
        intros x _. apply list_view_id.
      * intros vs Hvs. apply answers_ret. cbn [listed body LambdaFunction.json_response].
        intros v Hv. destruct (Hvs v Hv) as (item & Hin & d & -> & Hid).
        apply In_table_items in Hin as (k & Hk & Hown).
        exists item, k, d. repeat split; assumption.
    + intros e. answers_all. intros v [].
  - erewrite try_except_bind_raise by exact Hscan.
    by_answers. answers_all. intros v [].
Qed.

Lemma In_PDict_fmap (d : dict) (l : list dict) :
  In (PDict d) (PDict <$> l) -> In d l.
Proof.
  intros H. apply in_map_iff in H as (d' & Heq & Hin).
  now injection Heq as ->.
Qed.

Lemma service_list_shows_own (E : Env) (u : user_info) (tn : string)
    (t : gmap string dict) (w w' : World) (r : response) :
  environ E !! "INSTANCES_TABLE_NAME" = Some tn ->
  tables w !! tn = Some t ->
  is_admin u = false ->
  Instances.list_instances E u w = (Ok r, w') ->
  forall v, In v (listed ServiceList r) ->
    exists item k d st,
      t !! k = Some item /\ attr_eq "user_id" (user_id u) item = true
      /\ v = PDict d /\ d = dset "real_time_status" st item.
Proof.
  intros Henv Htab Hadm. unfold Instances.list_instances.
  rewrite Hadm.
  erewrite try_except_bind_ok by (eapply os_environ_ok; exact Henv).
  destruct (query_cases E tn "UserIdIndex" "user_id" (user_id u)
              (fun _ => true) t w Htab) as [Hq | [e Hq]].
  - erewrite try_except_bind_ok by exact Hq.
    by_answers.
    apply answers_try_except.
    + eapply (answers_bind_with
                (fun s => forall y, In y s ->
                   exists k, t !! k = Some y
                             /\ attr_eq "user_id" (user_id u) y = true)).
      * intros w0 w1 s Hs. unfold lift_result in Hs.
        destruct (py_sort _ _ _) as [s' | e'] eqn:Hsort; [| discriminate].
        injection Hs as <- _. intros y Hy.
        apply (py_sort_In _ _ _ _ Hsort) in Hy.
        apply (In_table_items
                 (fun it => attr_eq "user_id" (user_id u) it && true)) in Hy
          as (k & Hk & Hown).
        exists k. split; [exact Hk |]. now rewrite andb_true_r in Hown.
      * intros s Hs.
        eapply answers_bind_with.
        { apply (for_each_In
                   (fun item d => exists st, d = dset "real_time_status" st item)).
          intros x _. apply enrich_keeps. }
        intros ds Hds. apply answers_ret.
        cbn [listed body Instances.create_success_response dget String.eqb
             Ascii.eqb Bool.eqb].
        intros v Hv. apply in_map_iff in Hv as (d & <- & Hd).
        destruct (Hds d Hd) as (item & Hin & st & ->).
        destruct (Hs item Hin) as (k & Hk & Hown).
        exists item, k, (dset "real_time_status" st item), st.
        repeat split; assumption.
    + intros e. answers_all. intros v [].
  - erewrite try_except_bind_raise by exact Hq.
    by_answers. answers_all. intros v [].
Qed.
Lemma ddb_eq_str (a : string) (v : pyval) :
  ddb_eq (PStr a) v = true -> v = PStr a.
Proof. destruct v; simpl; try discriminate. now intros ->%String.eqb_eq. Qed.

Lemma owned_by (a : string) (v : pyval) (item : dict) :
  dget "user_id" item = Some (PStr a) ->
  attr_eq "user_id" v item = true -> v = PStr a.
Proof.
  intros Hown Hattr. unfold attr_eq in Hattr. rewrite Hown in Hattr.
  now apply ddb_eq_str.
Qed.

(** Isolation. Let an Instance be stored under [instance_id] and owned by
    user [a], in a table keyed as the surface of the operation keys it.
    (1) For a caller [b] who is neither [a] nor an administrator, every
    directly addressed operation (get and delete on the task surface;
    get, logs, status and stop on the service surface) answers 403
    "Access denied" and leaves the world as it was. (2) Whatever the list
    operation answers to such a caller, it does not show the instance.
    (3) The owner and the administrators are never refused: no such
    operation answers them 403 or 404. *)
Theorem instance_isolation (E : Env) (w : World) (tn instance_id a : string)
    (t : gmap string dict) (instance : dict) :
  environ E !! "INSTANCES_TABLE_NAME" = Some tn ->
  tables w !! tn = Some t ->
  t !! instance_id = Some instance ->
  dget "user_id" instance = Some (PStr a) ->
  (forall (b : user_info) (op : guarded_operation),
     user_id b <> PStr a -> is_admin b = false ->
     table_wf (guarded_key_attribute op) t ->
     dynamo_fault E tn (GetItem (PStr instance_id)) = None ->
     run_guarded E op instance_id b w = (Ok (forbidden op), w))
  /\ (forall (b : user_info) (s : list_surface) (r : response) (w' : World),
        user_id b <> PStr a -> is_admin b = false ->
        table_wf (key_attribute s) t ->
        run_list E s b w = (Ok r, w') ->
        ~ lists_instance s instance_id r)
  /\ (forall (c : user_info) (op : guarded_operation) (r : response)
             (w' : World),
        user_id c = PStr a \/ is_admin c = true ->
        table_wf (guarded_key_attribute op) t ->
        run_guarded E op instance_id c w = (Ok r, w') ->
        served r).
Proof.
  intros Henv Htab Hinst Hown. split; [| split].
  - intros b op Hb Hadm _ Hfault.
    eapply guarded_refuses_stranger; try eassumption.
    now apply py_eq_str_false.
  - intros b s r w' Hb Hadm Hwf Hrun (d & Hin & Hkey).
    apply Hb. destruct s; cbn [run_list key_attribute] in *.
    + destruct (task_list_shows_own E b tn t w w' r Henv Htab Hadm Hrun _ Hin)
        as (item & k & d' & Hk & Hmine & Hd & Hid).
      injection Hd as <-. rewrite Hkey in Hid.
      rewrite (Hwf k item Hk) in Hid. injection Hid as <-.
      rewrite Hinst in Hk. injection Hk as <-.
      eapply owned_by; eassumption.
    + destruct (service_list_shows_own E b tn t w w' r Henv Htab Hadm Hrun _ Hin)
        as (item & k & d' & st & Hk & Hmine & Hd & Hst).
      injection Hd as <-. subst d.
      rewrite dget_dset_ne in Hkey by discriminate.
      rewrite (Hwf k item Hk) in Hkey. injection Hkey as <-.
      rewrite Hinst in Hk. injection Hk as <-.
      eapply owned_by; eassumption.
  - intros c op r w' Hc _ Hrun.
    eapply guarded_serves_owner_and_admin; try eassumption.
    destruct Hc as [-> | Hadm]; [left | now right].
    now apply py_eq_str.
Qed.

Lemma instance_isolation_witness :
  run_guarded plain_env TaskGet "i-1" bob (sample_world alice_task_instance)
  = (Ok (forbidden TaskGet), sample_world alice_task_instance)
  /\ run_guarded plain_env ServiceStop "i-1" bob
       (sample_world (alice_service_instance "running"))
     = (Ok (forbidden ServiceStop),
        sample_world (alice_service_instance "running"))
  /\ (forall r w',
        run_list plain_env TaskList bob (sample_world alice_task_instance)
        = (Ok r, w') ->
        ~ lists_instance TaskList "i-1" r)
  /\ (forall r w',
        run_guarded plain_env TaskGet "i-1" root
          (sample_world alice_task_instance) = (Ok r, w') ->
        served r).
Proof.
  destruct (instance_isolation plain_env (sample_world alice_task_instance)
              "instances" "i-1" "alice" {[ "i-1" := alice_task_instance ]}
              alice_task_instance)
    as (Hdirect & Hlist & Hserved);
    try solve [reflexivity | vm_compute; reflexivity].
  destruct (instance_isolation plain_env
              (sample_world (alice_service_instance "running"))
              "instances" "i-1" "alice"
              {[ "i-1" := alice_service_instance "running" ]}
              (alice_service_instance "running"))
    as (Hservice & _ & _);
    try solve [reflexivity | vm_compute; reflexivity].
  assert (Htask : table_wf "id" {[ "i-1" := alice_task_instance ]}).
  { intros k item Hk. apply lookup_singleton_Some in Hk as [<- <-].
    reflexivity. }
  split; [| split; [| split]].
  - apply Hdirect; solve [discriminate | reflexivity | exact Htask].
  - apply Hservice; try solve [discriminate | reflexivity].
    intros k item Hk. apply lookup_singleton_Some in Hk as [<- <-].
    reflexivity.
  - intros r w'. apply Hlist; solve [discriminate | reflexivity | exact Htask].
  - intros r w'. apply Hserved; [right; reflexivity | exact Htask].
Defined.

(** ** C7: no exception leaves a handler *)

Ltac structured_leaf :=
  unfold structured; cbn;
  split; [reflexivity |];
  split; [repeat (first [left; reflexivity | right]) | congruence].

Ltac structured_op := answers_all; structured_leaf.

Create HintDb handlers.

Lemma task_list_structured (E : Env) (u : user_info) :
  answers (structured LambdaFunction.cors_headers)
          (LambdaFunction.list_instances E u).
Proof. unfold LambdaFunction.list_instances. structured_op. Qed.

Lemma task_create_structured (E : Env) (event : dict) (u : user_info) :
  answers (structured LambdaFunction.cors_headers)
          (LambdaFunction.create_instance E event u).
Proof. unfold LambdaFunction.create_instance. structured_op. Qed.

Lemma task_delete_structured (E : Env) (i : string) (u : user_info) :
  answers (structured LambdaFunction.cors_headers)
          (LambdaFunction.delete_instance E i u).
Proof. unfold LambdaFunction.delete_instance. structured_op. Qed.

Lemma task_get_structured (E : Env) (i : string) (u : user_info) :
  answers (structured LambdaFunction.cors_headers)
          (LambdaFunction.get_instance E i u).
Proof. unfold LambdaFunction.get_instance. structured_op. Qed.

Lemma service_list_structured (E : Env) (u : user_info) :
  answers (structured Instances.response_headers)
          (Instances.list_instances E u).
Proof. unfold Instances.list_instances. structured_op. Qed.

Lemma service_get_structured (E : Env) (i : string) (u : user_info) :
  answers (structured Instances.response_headers)
          (Instances.get_instance E i u).
Proof. unfold Instances.get_instance. structured_op. Qed.

Lemma service_logs_structured (E : Env) (i : string) (u : user_info) :
  answers (structured Instances.response_headers)
          (Instances.get_instance_logs E i u).
Proof. unfold Instances.get_instance_logs. structured_op. Qed.

Lemma service_status_structured (E : Env) (i : string) (u : user_info) :
  answers (structured Instances.response_headers)
          (Instances.get_instance_status E i u).
Proof. unfold Instances.get_instance_status. structured_op. Qed.

Lemma models_list_structured (E : Env) :
  answers (structured Models.response_headers) (Models.list_models E).
Proof. unfold Models.list_models. structured_op. Qed.

Lemma models_start_structured (E : Env) (event : dict) (u : user_info) :
  answers (structured Models.response_headers) (Models.start_model E event u).
Proof. unfold Models.start_model. structured_op. Qed.

Lemma models_stop_structured (E : Env) (i : string) (u : user_info) :
  answers (structured Models.response_headers) (Models.stop_model E i u).
Proof. unfold Models.stop_model. structured_op. Qed.

#[local] Hint Resolve task_list_structured task_create_structured
  task_delete_structured task_get_structured service_list_structured
  service_get_structured service_logs_structured service_status_structured
  models_list_structured models_start_structured models_stop_structured
  : handlers.

Ltac structured_dispatch :=
  answers_all; first [ solve [auto with handlers] | structured_leaf ].

Lemma task_dispatch_structured (E : Env) (event : dict) :
  answers (structured LambdaFunction.cors_headers)
          (LambdaFunction.dispatch E event).
Proof. unfold LambdaFunction.dispatch. structured_dispatch. Qed.

Lemma service_dispatch_structured (E : Env) (event : dict) :
  answers (structured Instances.response_headers)
          (Instances.dispatch E event).
Proof. unfold Instances.dispatch. structured_dispatch. Qed.

Lemma models_dispatch_structured (E : Env) (event : dict) :
  answers (structured Models.response_headers) (Models.dispatch E event).
Proof. unfold Models.dispatch. structured_dispatch. Qed.

Ltac malformed_routing :=
  intros [Hm | Hp]; unfold bind, subscript, lift_option;
  [ rewrite Hm; eexists; reflexivity
  | rewrite Hp; destruct (dget "httpMethod" _); eexists; reflexivity ].

Lemma task_dispatch_malformed (E : Env) (event : dict) (w : World) :
  dget "httpMethod" event = None \/ dget "path" event = None ->
  exists e, LambdaFunction.dispatch E event w = (Raise e, w).
Proof. unfold LambdaFunction.dispatch. malformed_routing. Qed.

Lemma service_dispatch_malformed (E : Env) (event : dict) (w : World) :
  dget "httpMethod" event = None \/ dget "path" event = None ->
  exists e, Instances.dispatch E event w = (Raise e, w).
Proof. unfold Instances.dispatch. malformed_routing. Qed.

Lemma models_dispatch_malformed (E : Env) (event : dict) (w : World) :
  dget "httpMethod" event = None \/ dget "path" event = None ->
  exists e, Models.dispatch E event w = (Raise e, w).
Proof. unfold Models.dispatch. malformed_routing. Qed.

(** The outermost [try] of a handler: what the routing returns is
    returned, what it raises becomes the answer of the [except] block. *)
Lemma outermost_layer (hdrs : list (string * string))
    (route : M response) (on_error : exn -> response) (tag : string)
    (w : World) :
  answers (structured hdrs) route ->
  (forall e, structured hdrs (on_error e)) ->
  exists (r : response) (w' : World),
    try_except route
      (fun e => do logger ERROR tag in ret (on_error e)) w = (Ok r, w')
    /\ structured hdrs r
    /\ (forall e w1, route w = (Raise e, w1) -> r = on_error e).
Proof.
  intros Hroute Herr. unfold try_except.
  destruct (route w) as [[r | e] w1] eqn:Hrun.
  - exists r, w1. split; [reflexivity |]. split.
    + eapply Hroute. exact Hrun.
    + intros e w2 Hraise. discriminate.
  - eexists. eexists. split; [reflexivity |]. split.
    + apply Herr.
    + intros e' w2 Hraise. now injection Hraise as <- _.
Qed.

(** C7. Whatever the event and whatever the services answer, each of the
    three handlers returns a response and raises nothing. The response is
    structured: the handler's header set, a status code of the interface,
    and a JSON body (only the 204 of a successful delete has none). When
    the routing raises, which is the case of an event without [httpMethod]
    or without [path], the response is the 500 of the outermost [except]
    with the error envelope. *)
Theorem lambda_handlers_never_raise (E : Env) (event : dict) (w : World) :
  (exists (r : response) (w' : World),
     LambdaFunction.lambda_handler E event w = (Ok r, w')
     /\ structured LambdaFunction.cors_headers r
     /\ (forall e w1,
           LambdaFunction.dispatch E event w = (Raise e, w1) ->
           r = LambdaFunction.json_response 500
                 (LambdaFunction.error_message_doc "Internal server error" e))
     /\ (dget "httpMethod" event = None \/ dget "path" event = None ->
         statusCode r = 500
         /\ exists e,
              body r = Some (LambdaFunction.error_message_doc
                               "Internal server error" e)))
  /\ (exists (r : response) (w' : World),
        Instances.lambda_handler E event w = (Ok r, w')
        /\ structured Instances.response_headers r
        /\ (forall e w1,
              Instances.dispatch E event w = (Raise e, w1) ->
              r = Instances.create_error_response 500 "Internal server error")
        /\ (dget "httpMethod" event = None \/ dget "path" event = None ->
            r = Instances.create_error_response 500 "Internal server error"))
  /\ (exists (r : response) (w' : World),
        Models.lambda_handler E event w = (Ok r, w')
        /\ structured Models.response_headers r
        /\ (forall e w1,
              Models.dispatch E event w = (Raise e, w1) ->
              r = Models.create_error_response 500 "Internal server error")
        /\ (dget "httpMethod" event = None \/ dget "path" event = None ->
            r = Models.create_error_response 500 "Internal server error")).
Proof.
  split; [| split].
  - destruct (outermost_layer LambdaFunction.cors_headers
                (LambdaFunction.dispatch E event)
                (fun e => LambdaFunction.json_response 500
                            (LambdaFunction.error_message_doc
                               "Internal server error" e))
                "Error" w (task_dispatch_structured E event))
      as (r & w' & Hrun & Hstruct & Hraise).
    { intros e. structured_leaf. }
    exists r, w'. split; [exact Hrun |]. split; [exact Hstruct |].
    split; [exact Hraise |].
    intros Hbad. destruct (task_dispatch_malformed E event w Hbad) as [e He].
    rewrite (Hraise e w He). split; [reflexivity | now exists e].
  - destruct (outermost_layer Instances.response_headers
                (Instances.dispatch E event)
                (fun _ => Instances.create_error_response 500
                            "Internal server error")
                "Unexpected error" w (service_dispatch_structured E event))
      as (r & w' & Hrun & Hstruct & Hraise).
    { intros e. structured_leaf. }
    exists r, w'. split; [exact Hrun |]. split; [exact Hstruct |].
    split; [exact Hraise |].
    intros Hbad. destruct (service_dispatch_malformed E event w Hbad) as [e He].
    exact (Hraise e w He).
  - destruct (outermost_layer Models.response_headers
                (Models.dispatch E event)
                (fun _ => Models.create_error_response 500
                            "Internal server error")
                "Unexpected error" w (models_dispatch_structured E event))
      as (r & w' & Hrun & Hstruct & Hraise).
    { intros e. structured_leaf. }
    exists r, w'. split; [exact Hrun |]. split; [exact Hstruct |].
    split; [exact Hraise |].
    intros Hbad. destruct (models_dispatch_malformed E event w Hbad) as [e He].
    exact (Hraise e w He).
Qed.

Lemma lambda_handlers_never_raise_witness :
  exists (r : response) (w' : World),
    Instances.lambda_handler plain_env [("httpMethod", PStr "GET")]
      (sample_world (alice_service_instance "running")) = (Ok r, w')
    /\ r = Instances.create_error_response 500 "Internal server error".
Proof.
  destruct (lambda_handlers_never_raise plain_env [("httpMethod", PStr "GET")]
              (sample_world (alice_service_instance "running")))
    as (_ & (r & w' & Hrun & _ & _ & Hbad) & _).
  exists r, w'. split; [exact Hrun |]. apply Hbad. right. reflexivity.
Defined.

(** ** C8: the log endpoint *)

Lemma ltb_false_trans (a b c : string) :
  String.ltb a b = false -> String.ltb b c = false -> String.ltb a c = false.
Proof.
  unfold String.ltb. intros Hab Hbc.
  destruct (String.compare a c) eqn:Hac; try reflexivity.
  exfalso. apply String_as_OT.cmp_lt in Hac.
  destruct (String.compare a b) eqn:Hab'; [| discriminate |].
  - apply String_as_OT.cmp_eq in Hab'. subst b.
    apply String_as_OT.cmp_lt in Hac. unfold String_as_OT.cmp in Hac.
    now rewrite Hac in Hbc.
  - assert (Hba : String_as_OT.lt b a).
    { apply String_as_OT.cmp_lt. unfold String_as_OT.cmp.
      rewrite String.compare_antisym, Hab'. reflexivity. }
    pose proof (String_as_OT.lt_trans _ _ _ Hba Hac) as Hlt.
    apply String_as_OT.cmp_lt in Hlt. unfold String_as_OT.cmp in Hlt.
    now rewrite Hlt in Hbc.
Qed.

Lemma ltb_true_flip (a b : string) :
  String.ltb a b = true -> String.ltb b a = false.
Proof.
  unfold String.ltb. rewrite (String.compare_antisym a b).
  destruct (String.compare b a); simpl; congruence.
Qed.

Lemma describe_log_streams_run (E : Env) (p : describe_log_streams_params)
    (w : World) :
  describe_log_streams E p w
  = (logs_describe_log_streams E p, with_call (LogsDescribeLogStreams p) w).
Proof.
  unfold describe_log_streams, call_result, bind, issue, lift_result, with_call.
  simpl. now destruct (logs_describe_log_streams E p).
Qed.

(** An authorized log request reaches the listing of the streams: what
    is left of [get_instance_logs] is the listing, the loop and the two
    handlers around them. *)
Lemma get_instance_logs_authorized (E : Env)
    (instance_id tn environment : string) (u : user_info)
    (t : gmap string dict) (instance : dict) (owner : pyval) (w : World) :
  environ E !! "INSTANCES_TABLE_NAME" = Some tn ->
  dynamo_fault E tn (GetItem (PStr instance_id)) = None ->
  tables w !! tn = Some t ->
  t !! instance_id = Some instance ->
  dget "user_id" instance = Some owner ->
  py_eq owner (user_id u) = true \/ is_admin u = true ->
  environ E !! "ENVIRONMENT" = Some environment ->
  Instances.get_instance_logs E instance_id u w
  = try_except
      (try_except_class ResourceNotFoundException
         (let* streams :=
            describe_log_streams E
              (log_streams_request environment instance_id) in
          let* logs :=
            Instances.collect_logs E
              ("/ecs/" +:+ environment +:+ "-ollama") streams in
          let* sorted :=
            lift_result
              (py_sort (fun l => PStr (Instances.le_timestamp l)) true logs) in
          ret (Instances.create_success_response
                 (log_window_doc instance_id
                    ("/ecs/" +:+ environment +:+ "-ollama")
                    ("ollama-" +:+ str_prefix 8 instance_id)
                    (take 100 sorted)) 200))
         (ret (Instances.create_success_response
                 (no_logs_doc instance_id) 200)))
      (fun _ =>
         do logger ERROR "Failed to get logs" in
         ret (Instances.create_error_response 500 "Failed to retrieve logs"))
      w.
Proof.
  intros Henv Hfault Htab Hinst Howner Hok Hname.
  unfold Instances.get_instance_logs.
  erewrite try_except_bind_ok by (eapply os_environ_ok; exact Henv).
  erewrite try_except_bind_ok by (eapply get_item_ok; eassumption).
  rewrite Hinst. cbv beta iota.
  erewrite try_except_bind_ok
    by (eapply access_granted; [exact Howner | exact Hok]).
  cbv beta iota.
  erewrite try_except_bind_ok by (eapply os_environ_ok; exact Hname).
  reflexivity.
Qed.

(** What an authorized log request answers, by what the listing of the
    streams answers. *)
Lemma get_instance_logs_by_listing (E : Env)
    (instance_id tn environment : string) (u : user_info)
    (t : gmap string dict) (instance : dict) (owner : pyval) (w : World) :
  environ E !! "INSTANCES_TABLE_NAME" = Some tn ->
  dynamo_fault E tn (GetItem (PStr instance_id)) = None ->
  tables w !! tn = Some t ->
  t !! instance_id = Some instance ->
  dget "user_id" instance = Some owner ->
  py_eq owner (user_id u) = true \/ is_admin u = true ->
  environ E !! "ENVIRONMENT" = Some environment ->
  match logs_describe_log_streams E
          (log_streams_request environment instance_id) with
  | Ok [] =>
      Instances.get_instance_logs E instance_id u w
      = (Ok (Instances.create_success_response
               (log_window_doc instance_id
                  ("/ecs/" +:+ environment +:+ "-ollama")
                  ("ollama-" +:+ str_prefix 8 instance_id) []) 200),
         with_call
           (LogsDescribeLogStreams
              (log_streams_request environment instance_id)) w)
  | Ok (_ :: _) => True
  | Raise e =>
      Instances.get_instance_logs E instance_id u w
      = if decide (exn_cls e = ResourceNotFoundException)
        then (Ok (Instances.create_success_response
                    (no_logs_doc instance_id) 200),
              with_call
                (LogsDescribeLogStreams
                   (log_streams_request environment instance_id)) w)
        else (Ok (Instances.create_error_response 500
                    "Failed to retrieve logs"),
              with_log ERROR "Failed to get logs"
                (with_call
                   (LogsDescribeLogStreams
                      (log_streams_request environment instance_id)) w))
  end.
Proof.
  intros Henv Hfault Htab Hinst Howner Hok Hname.
  rewrite (get_instance_logs_authorized E instance_id tn environment u t
             instance owner w) by assumption.
  unfold try_except, try_except_class, bind.
  rewrite describe_log_streams_run.
  destruct (logs_describe_log_streams E _) as [[| stream rest] | e];
    [reflexivity | exact I |].
  destruct (decide (exn_cls e = ResourceNotFoundException)); reflexivity.
Qed.

(** C8, the code at the failing input. Alice asks for the logs of her
    instance ["i-1"]. (1) Where the log group exists and lists no stream
    for the instance, the answer is a success with an empty log list and
    no note: the note is written only where the listing raises
    [ResourceNotFoundException]. (2) Where the log service applies its
    rule that a stream-name prefix is not combined with the ordering by
    event time, which is what the handler always sends, the listing
    raises, the exception is not the one caught, and the answer is 500
    "Failed to retrieve logs". *)
Lemma get_instance_logs_note_missing :
  (logs_describe_log_streams plain_env (log_streams_request "dev" "i-1")
   = Ok []
   /\ Instances.get_instance_logs plain_env "i-1" alice
        (sample_world (alice_service_instance "running"))
      = (Ok (Instances.create_success_response
               (log_window_doc "i-1" "/ecs/dev-ollama" "ollama-i-1" []) 200),
         with_call (LogsDescribeLogStreams (log_streams_request "dev" "i-1"))
           (sample_world (alice_service_instance "running")))
   /\ log_window_doc "i-1" "/ecs/dev-ollama" "ollama-i-1" []
      = PDict [("logs", PList []);
               ("instance_id", PStr "i-1");
               ("log_group", PStr "/ecs/dev-ollama");
               ("stream_prefix", PStr "ollama-i-1")])
  /\ (logs_describe_log_streams strict_logs_env
        (log_streams_request "dev" "i-1")
      = Raise (Exn ClientError "InvalidParameterException")
      /\ Instances.get_instance_logs strict_logs_env "i-1" alice
           (sample_world (alice_service_instance "running"))
         = (Ok (Instances.create_error_response 500
                  "Failed to retrieve logs"),
            with_log ERROR "Failed to get logs"
              (with_call
                 (LogsDescribeLogStreams (log_streams_request "dev" "i-1"))
                 (sample_world (alice_service_instance "running"))))).
Proof.
  split; (split; [reflexivity |]).
  - split; [vm_compute; reflexivity | reflexivity].
  - vm_compute. reflexivity.
Qed.

(** ** What a computation does to the world *)

Section Keeps.
Variable R : World -> World -> Prop.
Hypothesis R_refl : forall w, R w w.
Hypothesis R_trans : forall w1 w2 w3, R w1 w2 -> R w2 w3 -> R w1 w3.
Hypothesis R_log : forall w lvl msg, R w (with_log lvl msg w).
Variable call_ok : aws_call -> Prop.
Hypothesis R_call : forall w c, call_ok c -> R w (with_call c w).
Variable table_ok : string -> Prop.
Hypothesis R_write : forall w tn t, table_ok tn -> R w (set_table tn t w).
Variable E : Env.

Lemma keeps_ret {A} (Q : A -> Prop) (a : A) : Q a -> keeps R Q (ret a).
Proof. intros H w. simpl. auto. Qed.

Lemma keeps_raise {A} (Q : A -> Prop) (e : exn) : keeps R Q (raise e).
Proof. intros w. simpl. auto. Qed.

Lemma keeps_bind {A B} (P : A -> Prop) (Q : B -> Prop) (m : M A)
    (k : A -> M B) :
  keeps R P m -> (forall a, P a -> keeps R Q (k a)) -> keeps R Q (bind m k).
Proof.
  intros Hm Hk w. unfold bind. specialize (Hm w).
  destruct (m w) as [[a | e] w1]; [| exact Hm].
  destruct Hm as [HR HP]. specialize (Hk a HP w1).
  destruct (k a w1) as [[b | e] w2].
  - destruct Hk. split; [eapply R_trans; eassumption | assumption].
  - eapply R_trans; eassumption.
Qed.

Lemma keeps_try_except {A} (Q : A -> Prop) (m : M A) (h : exn -> M A) :
  keeps R Q m -> (forall e, keeps R Q (h e)) -> keeps R Q (try_except m h).
Proof.
  intros Hm Hh w. unfold try_except. specialize (Hm w).
  destruct (m w) as [[a | e] w1]; [exact Hm |].
  specialize (Hh e w1).
  destruct (h e w1) as [[b | e'] w2].
  - destruct Hh. split; [eapply R_trans; eassumption | assumption].
  - eapply R_trans; eassumption.
Qed.

Lemma keeps_try_except_class {A} (Q : A -> Prop) (cls : exn_class)
    (m h : M A) :
  keeps R Q m -> keeps R Q h -> keeps R Q (try_except_class cls m h).
Proof.
  intros Hm Hh w. unfold try_except_class. specialize (Hm w).
  destruct (m w) as [[a | e] w1]; [exact Hm |].
  destruct (decide (exn_cls e = cls)); [| exact Hm].
  specialize (Hh w1).
  destruct (h w1) as [[b | e'] w2].
  - destruct Hh. split; [eapply R_trans; eassumption | assumption].
  - eapply R_trans; eassumption.
Qed.

Lemma keeps_weaken {A} (P Q : A -> Prop) (m : M A) :
  keeps R P m -> (forall a, P a -> Q a) -> keeps R Q m.
Proof.
  intros Hm HPQ w. specialize (Hm w).
  destruct (m w) as [[a | e] w1]; [| exact Hm].
  destruct Hm. auto.
Qed.

Lemma keeps_lift_result {A} (r : result A) : keeps R (fun _ => True) (lift_result r).
Proof. intros w. unfold lift_result. destruct r; auto. Qed.

Lemma keeps_lift_option {A} (e : exn) (o : option A) :
  keeps R (fun a => o = Some a) (lift_option e o).
Proof. intros w. destruct o; simpl; auto. Qed.

Lemma keeps_lift_fault (o : option exn) : keeps R (fun _ => True) (lift_fault o).
Proof. intros w. destruct o; simpl; auto. Qed.

Lemma keeps_os_environ (k : string) :
  keeps R (fun v => environ E !! k = Some v) (os_environ E k).
Proof. apply keeps_lift_option. Qed.

Lemma keeps_subscript (d : dict) (k : string) :
  keeps R (fun v => dget k d = Some v) (subscript d k).
Proof. apply keeps_lift_option. Qed.

Lemma keeps_py_get (v : pyval) (k : string) (d : pyval) :
  keeps R (fun _ => True) (py_get v k d).
Proof. intros w. destruct v; simpl; auto. Qed.

Lemma keeps_as_str (meth : string) (v : pyval) :
  keeps R (fun _ => True) (as_str meth v).
Proof. intros w. destruct v; simpl; auto. Qed.

Lemma keeps_py_mul (v : pyval) (n : nat) : keeps R (fun _ => True) (py_mul v n).
Proof. intros w. destruct v; simpl; auto. Qed.

Lemma keeps_literal_get {A} (d : list (string * A)) (k : pyval) :
  keeps R (fun _ => True) (literal_get d k).
Proof. intros w. destruct k; simpl; auto. Qed.

Lemma keeps_logger (lvl : log_level) (msg : string) :
  keeps R (fun _ => True) (logger lvl msg).
Proof. intros w. simpl. split; [apply R_log | exact I]. Qed.

Lemma keeps_issue (c : aws_call) :
  call_ok c -> keeps R (fun _ => True) (issue c).
Proof. intros H w. simpl. split; [now apply R_call | exact I]. Qed.

Lemma keeps_read_table {A} (tn : string) (op : dynamo_op) (key : option pyval)
    (f : gmap string dict -> option string -> A) :
  keeps R (fun _ => True) (read_table E tn op key f).
Proof.
  intros w. unfold read_table.
  destruct (dynamo_fault E tn op); [apply R_refl |].
  destruct (tables w !! tn); [| apply R_refl].
  destruct key as [[] |]; auto.
Qed.

Lemma keeps_write_table (tn : string) (op : dynamo_op) (key : pyval)
    (f : gmap string dict -> string -> gmap string dict) :
  table_ok tn -> keeps R (fun _ => True) (write_table E tn op key f).
Proof.
  intros Hok w. unfold write_table.
  destruct (dynamo_fault E tn op); [apply R_refl |].
  destruct (tables w !! tn); [| apply R_refl].
  destruct key; auto.
Qed.

Lemma keeps_for_each {A B} (f : A -> M B) (l : list A) :
  (forall x, keeps R (fun _ => True) (f x)) ->
  keeps R (fun _ => True) (for_each f l).
Proof.
  intros Hf. induction l as [| x l IH]; simpl.
  - now apply keeps_ret.
  - eapply keeps_bind; [apply Hf |]. intros y _.
    eapply keeps_bind; [apply IH |]. intros ys _. now apply keeps_ret.
Qed.

Lemma keeps_call_result {A} (c : aws_call) (r : result A) :
  call_ok c -> keeps R (fun _ => True) (call_result c r).
Proof.
  intros H. unfold call_result.
  eapply keeps_bind; [now apply keeps_issue |]. intros _ _.
  apply keeps_lift_result.
Qed.

Lemma keeps_call_fault (c : aws_call) (o : option exn) :
  call_ok c -> keeps R (fun _ => True) (call_fault c o).
Proof.
  intros H. unfold call_fault.
  eapply keeps_bind; [now apply keeps_issue |]. intros _ _.
  apply keeps_lift_fault.
Qed.

(** The actions whose effect on the world is known by themselves. *)
Ltac keeps_primitive :=
  first
    [ apply keeps_os_environ
    | apply keeps_subscript
    | apply keeps_lift_option
    | apply keeps_lift_result
    | apply keeps_lift_fault
    | apply keeps_py_get
    | apply keeps_as_str
    | apply keeps_py_mul
    | apply keeps_literal_get
    | apply keeps_logger
    | apply keeps_read_table
    | apply keeps_write_table
    | apply keeps_call_result
    | apply keeps_call_fault
    | apply keeps_issue ].

Ltac keeps_unfold :=
  unfold get_item, put_item, update_item, delete_item, scan, query,
    run_task, stop_task, describe_tasks, register_task_definition,
    create_service, update_service, delete_service, describe_services,
    create_target_group_call, delete_target_group, describe_log_streams,
    get_log_events, time_sleep, claims_of_event, groups_of_claim,
    access_denied.

(** [keeps_true] proves [keeps R (fun _ => True) m] along the structure of
    [m]; [known] closes the calls of functions already dealt with. *)
Ltac keeps_true known :=
  keeps_unfold;
  lazymatch goal with
  | |- keeps _ _ (ret _) => apply keeps_ret; exact I
  | |- keeps _ _ (raise _) => apply keeps_raise
  | |- keeps _ _ (bind _ _) =>
      eapply keeps_bind;
      [ first [ keeps_primitive
              | match goal with
                | |- @keeps ?A _ ?P _ => unify P (fun _ : A => True)
                end; keeps_true known ]
      | intros ? ?; keeps_true known ]
  | |- keeps _ _ (try_except _ _) =>
      apply keeps_try_except; [keeps_true known | intros ?; keeps_true known]
  | |- keeps _ _ (try_except_class _ _ _) =>
      apply keeps_try_except_class; keeps_true known
  | |- keeps _ _ (if ?b then _ else _) => destruct b; keeps_true known
  | |- keeps _ _ (match ?x with _ => _ end) => destruct x; keeps_true known
  | |- keeps _ _ _ =>
      first [ eapply keeps_weaken; [keeps_primitive | intros; exact I]
            | known
            | idtac ]
  | |- _ => idtac
  end.

Section ReadOnly.
Hypothesis read_ok : forall c, is_read_call c = true -> call_ok c.

Ltac read_side := try (apply read_ok; reflexivity).

Lemma keeps_get_ecs_task_status (arn : pyval) :
  keeps R (fun _ => True) (LambdaFunction.get_ecs_task_status E arn).
Proof.
  unfold LambdaFunction.get_ecs_task_status.
  keeps_true ltac:(fail); read_side.
Qed.

Lemma keeps_cluster_name : keeps R (fun _ => True) (Instances.cluster_name E).
Proof. unfold Instances.cluster_name. keeps_true ltac:(fail). Qed.

Lemma keeps_get_ecs_service_status (instance : dict) :
  keeps R (fun _ => True) (Instances.get_ecs_service_status E instance).
Proof.
  unfold Instances.get_ecs_service_status.
  keeps_true ltac:(apply keeps_cluster_name); read_side.
Qed.

Lemma keeps_get_ecs_service_details (instance : dict) :
  keeps R (fun _ => True) (Instances.get_ecs_service_details E instance).
Proof.
  unfold Instances.get_ecs_service_details.
  keeps_true ltac:(apply keeps_cluster_name); read_side.
Qed.

Lemma keeps_enrich (instance : dict) :
  keeps R (fun _ => True) (Instances.enrich E instance).
Proof.
  unfold Instances.enrich.
  keeps_true ltac:(apply keeps_get_ecs_service_status).
Qed.

Lemma keeps_list_view (item : dict) :
  keeps R (fun _ => True) (LambdaFunction.list_view item).
Proof. unfold LambdaFunction.list_view. keeps_true ltac:(fail). Qed.

Lemma keeps_collect_logs (group : string) (streams : list string) :
  keeps R (fun _ => True) (Instances.collect_logs E group streams).
Proof.
  induction streams as [| stream rest IH]; simpl.
  - now apply keeps_ret.
  - keeps_true ltac:(apply IH); read_side.
Qed.

Ltac read_known :=
  first
    [ apply keeps_cluster_name
    | apply keeps_get_ecs_task_status
    | apply keeps_get_ecs_service_status
    | apply keeps_get_ecs_service_details
    | apply keeps_collect_logs
    | apply keeps_for_each; intros; first [apply keeps_enrich | apply keeps_list_view] ].

Lemma keeps_task_list (u : user_info) :
  keeps R (fun _ => True) (LambdaFunction.list_instances E u).
Proof.
  unfold LambdaFunction.list_instances. keeps_true read_known; read_side.
Qed.

Lemma keeps_service_list (u : user_info) :
  keeps R (fun _ => True) (Instances.list_instances E u).
Proof.
  unfold Instances.list_instances. keeps_true read_known; read_side.
Qed.

Lemma keeps_service_get (i : string) (u : user_info) :
  keeps R (fun _ => True) (Instances.get_instance E i u).
Proof.
  unfold Instances.get_instance, Instances.get_instance_usage_stats.
  keeps_true read_known; read_side.
Qed.

Lemma keeps_service_logs (i : string) (u : user_info) :
  keeps R (fun _ => True) (Instances.get_instance_logs E i u).
Proof.
  unfold Instances.get_instance_logs. keeps_true read_known; read_side.
Qed.

Lemma keeps_models_list : keeps R (fun _ => True) (Models.list_models E).
Proof. unfold Models.list_models. keeps_true read_known; read_side. Qed.
End ReadOnly.

Section AnyCall.
Hypothesis any_ok : forall c, call_ok c.
Hypothesis instances_ok :
  forall tn, environ E !! "INSTANCES_TABLE_NAME" = Some tn -> table_ok tn.

Ltac any_side :=
  try solve [apply any_ok | apply instances_ok; assumption].

Ltac any_known :=
  first
    [ apply keeps_cluster_name
    | apply keeps_get_ecs_task_status; intros; apply any_ok
    | apply keeps_get_ecs_service_status; intros; apply any_ok
    | apply keeps_get_ecs_service_details; intros; apply any_ok
    | apply keeps_task_list; intros; apply any_ok
    | apply keeps_service_list; intros; apply any_ok
    | apply keeps_service_get; intros; apply any_ok
    | apply keeps_service_logs; intros; apply any_ok
    | apply keeps_models_list; intros; apply any_ok ].

Lemma keeps_get_estimated_cost (v : pyval) :
  keeps R (fun _ => True) (LambdaFunction.get_estimated_cost v).
Proof. unfold LambdaFunction.get_estimated_cost. keeps_true ltac:(fail). Qed.

Lemma keeps_get_task_configuration (m v : pyval) :
  keeps R (fun _ => True) (LambdaFunction.get_task_configuration E m v).
Proof. unfold LambdaFunction.get_task_configuration. keeps_true ltac:(fail). Qed.

Lemma keeps_start_ecs_task (i : string) (m : pyval) (info : dict) (v : pyval)
    (u : user_info) :
  keeps R (fun _ => True) (LambdaFunction.start_ecs_task E i m info v u).
Proof.
  unfold LambdaFunction.start_ecs_task.
  keeps_true ltac:(apply keeps_get_task_configuration); any_side.
Qed.

Lemma keeps_task_create (event : dict) (u : user_info) :
  keeps R (fun _ => True) (LambdaFunction.create_instance E event u).
Proof.
  unfold LambdaFunction.create_instance.
  keeps_true ltac:(first [ apply keeps_start_ecs_task
                         | apply keeps_get_estimated_cost ]); any_side.
Qed.

Lemma keeps_task_delete (i : string) (u : user_info) :
  keeps R (fun _ => True) (LambdaFunction.delete_instance E i u).
Proof.
  unfold LambdaFunction.delete_instance. keeps_true any_known; any_side.
Qed.

Lemma keeps_task_get (i : string) (u : user_info) :
  keeps R (fun _ => True) (LambdaFunction.get_instance E i u).
Proof.
  unfold LambdaFunction.get_instance. keeps_true any_known; any_side.
Qed.

Lemma keeps_service_status (i : string) (u : user_info) :
  keeps R (fun _ => True) (Instances.get_instance_status E i u).
Proof.
  unfold Instances.get_instance_status. keeps_true any_known; any_side.
Qed.

Lemma keeps_check_limits (uid : pyval) :
  keeps R (fun _ => True) (Models.check_user_instance_limits E uid).
Proof.
  unfold Models.check_user_instance_limits. keeps_true any_known; any_side.
Qed.

Lemma keeps_create_task_definition (model : dict) (v : pyval) (i : string) :
  keeps R (fun _ => True) (Models.create_task_definition E model v i).
Proof.
  unfold Models.create_task_definition. keeps_true any_known; any_side.
Qed.

Lemma keeps_create_target_group (name : string) :
  keeps R (fun _ => True) (Models.create_target_group E name).
Proof.
  unfold Models.create_target_group. keeps_true any_known; any_side.
Qed.

Lemma keeps_models_start (event : dict) (u : user_info) :
  keeps R (fun _ => True) (Models.start_model E event u).
Proof.
  unfold Models.start_model.
  keeps_true ltac:(first [ apply keeps_check_limits
                         | apply keeps_create_task_definition
                         | apply keeps_create_target_group ]); any_side.
Qed.

Lemma keeps_models_stop (i : string) (u : user_info) :
  keeps R (fun _ => True) (Models.stop_model E i u).
Proof. unfold Models.stop_model. keeps_true any_known; any_side. Qed.

Lemma keeps_user_info_task (event : dict) :
  keeps R (fun _ => True) (LambdaFunction.get_user_info_from_context event).
Proof.
  unfold LambdaFunction.get_user_info_from_context. keeps_true ltac:(fail).
Qed.

Lemma keeps_user_info_service (event : dict) :
  keeps R (fun _ => True) (Instances.get_user_info_from_context event).
Proof.
  unfold Instances.get_user_info_from_context. keeps_true ltac:(fail).
Qed.

Lemma keeps_user_info_models (event : dict) :
  keeps R (fun _ => True) (Models.get_user_info_from_context event).
Proof.
  unfold Models.get_user_info_from_context. keeps_true ltac:(fail).
Qed.

Ltac handler_known :=
  first
    [ any_known
    | apply keeps_user_info_task
    | apply keeps_user_info_service
    | apply keeps_user_info_models
    | apply keeps_task_create
    | apply keeps_task_delete
    | apply keeps_task_get
    | apply keeps_service_status
    | apply keeps_models_start
    | apply keeps_models_stop ].

Lemma keeps_task_handler (event : dict) :
  keeps R (fun _ => True) (LambdaFunction.lambda_handler E event).
Proof.
  unfold LambdaFunction.lambda_handler, LambdaFunction.dispatch.
  keeps_true handler_known; any_side.
Qed.

Lemma keeps_service_handler (event : dict) :
  keeps R (fun _ => True) (Instances.lambda_handler E event).
Proof.
  unfold Instances.lambda_handler, Instances.dispatch.
  keeps_true handler_known; any_side.
Qed.

Lemma keeps_models_handler (event : dict) :
  keeps R (fun _ => True) (Models.lambda_handler E event).
Proof.
  unfold Models.lambda_handler, Models.dispatch.
  keeps_true handler_known; any_side.
Qed.
End AnyCall.
Section Clean.

Lemma clean_ret (r : response) : clean R (ret r).
Proof. intros w. simpl. intros _. apply R_refl. Qed.

Lemma clean_raise (e : exn) : clean R (raise e).
Proof. intros w. exact I. Qed.

Lemma clean_bind_pure {A} (P : A -> Prop) (m : M A) (k : A -> M response) :
  keeps R P m -> (forall a, P a -> clean R (k a)) -> clean R (bind m k).
Proof.
  intros Hm Hk w. unfold bind. specialize (Hm w).
  destruct (m w) as [[a | e] w1]; [| exact I].
  destruct Hm as [HR HP]. specialize (Hk a HP w1).
  destruct (k a w1) as [[r | e] w2]; [| exact I].
  intros Hbad. eapply R_trans; [exact HR | now apply Hk].
Qed.

Lemma clean_bind_dirty {A} (m : M A) (k : A -> M response) :
  (forall a, answers (fun r => ~ client_error r) (k a)) -> clean R (bind m k).
Proof.
  intros Hk w. unfold bind.
  destruct (m w) as [[a | e] w1]; [| exact I].
  destruct (k a w1) as [[r | e] w2] eqn:Hrun; [| exact I].
  intros Hbad. now destruct (Hk a w1 w2 r Hrun).
Qed.

Lemma clean_try_except (m : M response) (h : exn -> M response) :
  clean R m ->
  (forall e, answers (fun r => ~ client_error r) (h e)) ->
  clean R (try_except m h).
Proof.
  intros Hm Hh w. unfold try_except. specialize (Hm w).
  destruct (m w) as [[r | e] w1]; [exact Hm |].
  destruct (h e w1) as [[r | e'] w2] eqn:Hrun; [| exact I].
  intros Hbad. now destruct (Hh e w1 w2 r Hrun).
Qed.

Lemma clean_try_except_class (cls : exn_class) (m h : M response) :
  clean R m ->
  answers (fun r => ~ client_error r) h ->
  clean R (try_except_class cls m h).
Proof.
  intros Hm Hh w. unfold try_except_class. specialize (Hm w).
  destruct (m w) as [[r | e] w1]; [exact Hm |].
  destruct (decide (exn_cls e = cls)); [| exact I].
  destruct (h w1) as [[r | e'] w2] eqn:Hrun; [| exact I].
  intros Hbad. now destruct (Hh w1 w2 r Hrun).
Qed.

Ltac not_refusal := unfold client_error; cbn; intuition discriminate.

Ltac pure_known :=
  first
    [ apply keeps_cluster_name
    | apply keeps_check_limits
    | apply keeps_user_info_task
    | apply keeps_user_info_service
    | apply keeps_user_info_models ].

(** [clean_go] follows the structure of an operation: as long as its
    actions leave the world alone a refusal may be returned; after the
    first action that may change it, only other answers are. *)
Ltac clean_go known :=
  keeps_unfold;
  lazymatch goal with
  | |- clean _ (ret _) => apply clean_ret
  | |- clean _ (raise _) => apply clean_raise
  | |- clean _ (bind _ _) =>
      first
        [ eapply clean_bind_pure;
          [ solve [ first [ keeps_primitive
                          | match goal with
                            | |- @keeps ?A _ ?P _ => unify P (fun _ : A => True)
                            end; keeps_true pure_known ] ]
          | intros ? ?; clean_go known ]
        | apply clean_bind_dirty; intros; answers_all; not_refusal ]
  | |- clean _ (try_except _ _) =>
      apply clean_try_except;
      [ clean_go known | intros; answers_all; not_refusal ]
  | |- clean _ (try_except_class _ _ _) =>
      apply clean_try_except_class;
      [ clean_go known | answers_all; not_refusal ]
  | |- clean _ (if ?b then _ else _) => destruct b; clean_go known
  | |- clean _ (match ?x with _ => _ end) => destruct x; clean_go known
  | |- _ => known
  end.

Lemma clean_task_list (u : user_info) : clean R (LambdaFunction.list_instances E u).
Proof. unfold LambdaFunction.list_instances. clean_go ltac:(fail). Qed.

Lemma clean_task_create (event : dict) (u : user_info) :
  clean R (LambdaFunction.create_instance E event u).
Proof. unfold LambdaFunction.create_instance. clean_go ltac:(fail). Qed.

Lemma clean_task_delete (i : string) (u : user_info) :
  clean R (LambdaFunction.delete_instance E i u).
Proof. unfold LambdaFunction.delete_instance. clean_go ltac:(fail). Qed.

Lemma clean_task_get (i : string) (u : user_info) :
  clean R (LambdaFunction.get_instance E i u).
Proof. unfold LambdaFunction.get_instance. clean_go ltac:(fail). Qed.

Lemma clean_service_list (u : user_info) : clean R (Instances.list_instances E u).
Proof. unfold Instances.list_instances. clean_go ltac:(fail). Qed.

Lemma clean_service_get (i : string) (u : user_info) :
  clean R (Instances.get_instance E i u).
Proof. unfold Instances.get_instance. clean_go ltac:(fail). Qed.

Lemma clean_service_logs (i : string) (u : user_info) :
  clean R (Instances.get_instance_logs E i u).
Proof. unfold Instances.get_instance_logs. clean_go ltac:(fail). Qed.

Lemma clean_service_status (i : string) (u : user_info) :
  clean R (Instances.get_instance_status E i u).
Proof. unfold Instances.get_instance_status. clean_go ltac:(fail). Qed.

Lemma clean_models_list : clean R (Models.list_models E).
Proof. unfold Models.list_models. clean_go ltac:(fail). Qed.

Lemma clean_models_start (event : dict) (u : user_info) :
  clean R (Models.start_model E event u).
Proof. unfold Models.start_model. clean_go ltac:(fail). Qed.

Lemma clean_models_stop (i : string) (u : user_info) :
  clean R (Models.stop_model E i u).
Proof. unfold Models.stop_model. clean_go ltac:(fail). Qed.

Ltac clean_known :=
  first
    [ apply clean_task_list | apply clean_task_create
    | apply clean_task_delete | apply clean_task_get
    | apply clean_service_list | apply clean_service_get
    | apply clean_service_logs | apply clean_service_status
    | apply clean_models_list | apply clean_models_start
    | apply clean_models_stop ].

Lemma clean_handler (s : surface) (event : dict) :
  clean R (run_handler E s event).
Proof.
  destruct s; cbn [run_handler];
    [ unfold LambdaFunction.lambda_handler, LambdaFunction.dispatch
    | unfold Instances.lambda_handler, Instances.dispatch
    | unfold Models.lambda_handler, Models.dispatch ];
    clean_go clean_known.
Qed.
End Clean.
End Keeps.
Lemma keeps_snd {A} (R : World -> World -> Prop) (Q : A -> Prop) (m : M A)
    (w : World) :
  keeps R Q m -> R w (snd (m w)).
Proof.
  intros H. specialize (H w). destruct (m w) as [[a | e] w']; simpl; tauto.
Qed.

Lemma only_reads_refl (w : World) : only_reads w w.
Proof.
  split; [reflexivity |]. exists []. split; [now rewrite app_nil_r | constructor].
Qed.

Lemma only_reads_trans (w1 w2 w3 : World) :
  only_reads w1 w2 -> only_reads w2 w3 -> only_reads w1 w3.
Proof.
  intros (Ht1 & n1 & Hc1 & Hr1) (Ht2 & n2 & Hc2 & Hr2). split.
  - congruence.
  - exists (n1 ++ n2)%list. split.
    + rewrite Hc2, Hc1. now rewrite <- app_assoc.
    + apply Forall_app. split; assumption.
Qed.

(** The read operations write to no table and issue no call that changes
    anything: whatever they answer, the world they leave differs from the
    one they found by calls that describe tasks, services or log streams,
    and by log lines. *)
Theorem read_operations_only_read (E : Env) (op : read_operation) (w : World) :
  only_reads w (snd (run_read E op w)).
Proof.
  assert (Hlog : forall w lvl msg, only_reads w (with_log lvl msg w)).
  { intros w0 lvl msg. split; [reflexivity |]. exists [].
    split; [simpl; now rewrite app_nil_r | constructor]. }
  assert (Hcall : forall w c, is_read_call c = true -> only_reads w (with_call c w)).
  { intros w0 c Hc. split; [reflexivity |]. exists [c].
    split; [reflexivity | now repeat constructor]. }
  apply (keeps_snd only_reads (fun _ => True)).
  destruct op; cbn [run_read];
    [ first [ eapply keeps_task_list with (call_ok := fun c => is_read_call c = true)
            | eapply keeps_task_list ]
    | first [ eapply keeps_service_list with (call_ok := fun c => is_read_call c = true)
            | eapply keeps_service_list ]
    | first [ eapply keeps_service_get with (call_ok := fun c => is_read_call c = true)
            | eapply keeps_service_get ]
    | first [ eapply keeps_service_logs with (call_ok := fun c => is_read_call c = true)
            | eapply keeps_service_logs ]
    | first [ eapply keeps_models_list with (call_ok := fun c => is_read_call c = true)
            | eapply keeps_models_list ] ];
    eauto using only_reads_refl, only_reads_trans.
Qed.

(** No handler writes to a table other than the Instances table: after
    any request, every other table, the Model Catalog in particular, is
    what it was. *)
Theorem handlers_write_instances_table_only (E : Env) (event : dict)
    (w : World) :
  only_instances_table E w (snd (LambdaFunction.lambda_handler E event w))
  /\ only_instances_table E w (snd (Instances.lambda_handler E event w))
  /\ only_instances_table E w (snd (Models.lambda_handler E event w)).
Proof.
  assert (Hrefl : forall w, only_instances_table E w w) by (intros ? ? ?; reflexivity).
  assert (Htrans : forall w1 w2 w3,
             only_instances_table E w1 w2 -> only_instances_table E w2 w3 ->
             only_instances_table E w1 w3).
  { intros w1 w2 w3 H12 H23 tn Htn. rewrite (H23 tn Htn). now apply H12. }
  assert (Hlog : forall w lvl msg, only_instances_table E w (with_log lvl msg w))
    by (intros ? ? ? ? ?; reflexivity).
  assert (Hcall : forall w c, True -> only_instances_table E w (with_call c w))
    by (intros ? ? ? ? ?; reflexivity).
  assert (Hwrite : forall w tn t,
             environ E !! "INSTANCES_TABLE_NAME" = Some tn ->
             only_instances_table E w (set_table tn t w)).
  { intros w0 tn t Hname tn' Hother. simpl.
    apply lookup_insert_ne. congruence. }
  repeat split; apply (keeps_snd (only_instances_table E) (fun _ => True));
    [ eapply keeps_task_handler
        with (call_ok := fun _ => True)
             (table_ok := fun tn => environ E !! "INSTANCES_TABLE_NAME" = Some tn)
    | eapply keeps_service_handler
        with (call_ok := fun _ => True)
             (table_ok := fun tn => environ E !! "INSTANCES_TABLE_NAME" = Some tn)
    | eapply keeps_models_handler
        with (call_ok := fun _ => True)
             (table_ok := fun tn => environ E !! "INSTANCES_TABLE_NAME" = Some tn) ];
    eauto.
Qed.

Lemma unchanged_refl (w : World) : unchanged w w.
Proof. split; reflexivity. Qed.

Lemma unchanged_trans (w1 w2 w3 : World) :
  unchanged w1 w2 -> unchanged w2 w3 -> unchanged w1 w3.
Proof. intros [Ht1 Hc1] [Ht2 Hc2]. split; congruence. Qed.

(** A request that a handler refuses (400, 403, 404 or 429) has changed
    nothing: every table is what it was and no call was issued to ECS, the
    load balancer or the log service. *)
Theorem refusals_change_nothing (E : Env) (s : surface) (event : dict)
    (w w' : World) (r : response) :
  run_handler E s event w = (Ok r, w') ->
  client_error r ->
  unchanged w w'.
Proof.
  intros Hrun Hbad.
  assert (Hclean : clean unchanged (run_handler E s event)).
  { apply clean_handler.
    - apply unchanged_refl.
    - apply unchanged_trans.
    - intros w0 lvl msg. split; reflexivity. }
  specialize (Hclean w). rewrite Hrun in Hclean. now apply Hclean.
Qed.

Lemma refusals_change_nothing_witness :
  run_handler plain_env ModelsSurface (start_event "nope")
    (sample_world (alice_service_instance "running"))
  = (Ok (Models.create_error_response 404 "Model not found"),
     with_log INFO "Processing request"
       (sample_world (alice_service_instance "running")))
  /\ unchanged (sample_world (alice_service_instance "running"))
       (with_log INFO "Processing request"
          (sample_world (alice_service_instance "running"))).
Proof.
  assert (Hrun :
    run_handler plain_env ModelsSurface (start_event "nope")
      (sample_world (alice_service_instance "running"))
    = (Ok (Models.create_error_response 404 "Model not found"),
       with_log INFO "Processing request"
         (sample_world (alice_service_instance "running"))))
    by (vm_compute; reflexivity).
  split; [exact Hrun |].
  apply (refusals_change_nothing _ _ _ _ _ _ Hrun).
  unfold client_error. simpl. tauto.
Defined.

(** ** More of the operations *)

(** An operation addressed to an identifier that the Instances table does
    not hold answers 404 "Instance not found", for every caller, before
    anything else is read or done: the world is unchanged. *)
Theorem guarded_not_found (E : Env) (op : guarded_operation)
    (instance_id tn : string) (u : user_info) (t : gmap string dict)
    (w : World) :
  environ E !! "INSTANCES_TABLE_NAME" = Some tn ->
  dynamo_fault E tn (GetItem (PStr instance_id)) = None ->
  tables w !! tn = Some t ->
  t !! instance_id = None ->
  run_guarded E op instance_id u w = (Ok (not_found op), w).
Proof.
  intros Henv Hfault Htab Hnone.
  destruct op; cbn [run_guarded not_found];
    [ unfold LambdaFunction.get_instance
    | unfold LambdaFunction.delete_instance
    | unfold Instances.get_instance
    | unfold Instances.get_instance_logs
    | unfold Instances.get_instance_status
    | unfold Models.stop_model ];
    eapply try_except_ok; do 2 run_step; now rewrite Hnone.
Qed.

Lemma guarded_not_found_witness :
  run_guarded plain_env ServiceStop "i-2" root
    (sample_world (alice_service_instance "running"))
  = (Ok (not_found ServiceStop),
     sample_world (alice_service_instance "running")).
Proof.
  apply (guarded_not_found plain_env ServiceStop "i-2" "instances" root
           {[ "i-1" := alice_service_instance "running" ]});
    solve [reflexivity | vm_compute; reflexivity].
Defined.

Lemma delete_item_ok (E : Env) (tn k : string) (t : gmap string dict)
    (w : World) :
  dynamo_fault E tn (DeleteItem (PStr k)) = None ->
  tables w !! tn = Some t ->
  delete_item E tn (PStr k) w = (Ok tt, set_table tn (delete k t) w).
Proof. intros Hf Ht. unfold delete_item, write_table. now rewrite Hf, Ht. Qed.

(** The best-effort stop of the ECS task: it never raises and never
    touches a table. *)
Lemma stop_task_best_effort (E : Env) (instance : dict) (w : World) :
  exists w1 : World,
    (if truthy (dget_default "task_arn" PNone instance) then
       try_except
         (let* cluster := os_environ E "ECS_CLUSTER_NAME" in
          let* task_arn := subscript instance "task_arn" in
          do stop_task E cluster task_arn in
          logger INFO "Stopped ECS task")
         (fun _ => logger WARNING "Failed to stop ECS task")
     else ret tt) w = (Ok tt, w1)
    /\ tables w1 = tables w.
Proof.
  destruct (truthy (dget_default "task_arn" PNone instance));
    [| exists w; split; reflexivity].
  unfold try_except, bind, os_environ, subscript, lift_option, stop_task,
    call_fault, lift_fault, bind, issue, logger, ret, raise.
  destruct (environ E !! "ECS_CLUSTER_NAME") as [cluster |]; simpl;
    [| eexists; split; reflexivity].
  destruct (dget "task_arn" instance) as [arn |]; simpl;
    [| eexists; split; reflexivity].
  destruct (ecs_stop_task E cluster arn); simpl;
    eexists; split; reflexivity.
Qed.

(** A delete by the owner or an administrator, with the store reachable,
    answers 204 whatever ECS answers to the stop of the task, and removes
    the record and nothing else from the Instances table. From then on a
    get or a second delete of the same identifier, by anyone, answers 404:
    delete is not idempotent in its answer. *)
Theorem delete_instance_removes_record (E : Env) (instance_id tn : string)
    (u : user_info) (t : gmap string dict) (instance : dict) (owner : pyval)
    (w : World) :
  environ E !! "INSTANCES_TABLE_NAME" = Some tn ->
  dynamo_fault E tn (GetItem (PStr instance_id)) = None ->
  dynamo_fault E tn (DeleteItem (PStr instance_id)) = None ->
  tables w !! tn = Some t ->
  t !! instance_id = Some instance ->
  dget "user_id" instance = Some owner ->
  py_eq owner (user_id u) = true \/ is_admin u = true ->
  exists w' : World,
    LambdaFunction.delete_instance E instance_id u w = (Ok no_content, w')
    /\ tables w' = <[tn := delete instance_id t]> (tables w)
    /\ (forall caller,
          LambdaFunction.get_instance E instance_id caller w'
          = (Ok (LambdaFunction.json_response 404
                   (LambdaFunction.error_doc "Instance not found")), w'))
    /\ (forall caller,
          LambdaFunction.delete_instance E instance_id caller w'
          = (Ok (LambdaFunction.json_response 404
                   (LambdaFunction.error_doc "Instance not found")), w')).
Proof.
  intros Henv Hget Hdel Htab Hinst Howner Hok.
  destruct (stop_task_best_effort E instance w) as (w1 & Hstop & Htab1).
  assert (Htab' : tables w1 !! tn = Some t) by now rewrite Htab1.
  assert (Hgone :
    tables (with_log INFO "Deleted instance"
              (set_table tn (delete instance_id t) w1)) !! tn
    = Some (delete instance_id t)).
  { simpl. apply lookup_insert_eq. }
  exists (with_log INFO "Deleted instance"
            (set_table tn (delete instance_id t) w1)).
  split; [| split; [| split]].
  - unfold LambdaFunction.delete_instance. eapply try_except_ok.
    do 2 run_step. rewrite Hinst. cbv beta iota.
    erewrite bind_ok by (eapply access_granted; eassumption).
    cbv beta iota.
    erewrite bind_ok by exact Hstop.
    erewrite bind_ok by (eapply delete_item_ok; eassumption).
    reflexivity.
  - simpl. now rewrite Htab1.
  - intros caller. unfold LambdaFunction.get_instance. eapply try_except_ok.
    do 2 run_step. now rewrite lookup_delete_eq.
  - intros caller. unfold LambdaFunction.delete_instance. eapply try_except_ok.
    do 2 run_step. now rewrite lookup_delete_eq.
Qed.

Lemma delete_instance_removes_record_witness :
  exists w' : World,
    LambdaFunction.delete_instance plain_env "i-1" alice
      (sample_world alice_task_instance) = (Ok no_content, w')
    /\ tables w' !! "instances" = Some ∅
    /\ LambdaFunction.get_instance plain_env "i-1" alice w'
       = (Ok (LambdaFunction.json_response 404
                (LambdaFunction.error_doc "Instance not found")), w').
Proof.
  destruct (delete_instance_removes_record plain_env "i-1" "instances" alice
              {[ "i-1" := alice_task_instance ]} alice_task_instance
              (PStr "alice") (sample_world alice_task_instance))
    as (w' & Hrun & Htab & Hget & _);
    try solve [reflexivity | vm_compute; reflexivity | left; reflexivity].
  exists w'. split; [exact Hrun |]. split; [| apply Hget].
  rewrite Htab. rewrite lookup_insert_eq. reflexivity.
Defined.

Lemma run_task_run (E : Env) (p : run_task_params) (w : World) :
  run_task E p w = (ecs_run_task E p, with_call (EcsRunTask p) w).
Proof.
  unfold run_task, call_result, bind, issue, lift_result. simpl.
  now destruct (ecs_run_task E p).
Qed.

Lemma selector_in_pinned (t : string) :
  In t pinned_sizes ->
  exists t',
    (selector_in (PStr t) LambdaFunction.gpu_instance_types = Some t'
     \/ (selector_in (PStr t) LambdaFunction.gpu_instance_types = None
         /\ selector_in (PStr t) LambdaFunction.large_cpu_types = Some t'))
    /\ t' = t.
Proof.
  intros Hin. exists t. split; [| reflexivity].
  apply in_app_or in Hin as [Hg | Hc].
  - left. now apply selector_in_Some.
  - destruct (selector_in (PStr t) LambdaFunction.gpu_instance_types)
      as [g |] eqn:Hg.
    + left. unfold selector_in in Hg.
      destruct (existsb _ _); now inversion Hg.
    + right. split; [reflexivity | now apply selector_in_Some].
Qed.

Lemma get_task_configuration_gpu (E : Env) (model_id t cpu_arn gpu_arn : string)
    (instance_type : pyval) (w : World) :
  environ E !! "CPU_TASK_DEFINITION_ARN" = Some cpu_arn ->
  environ E !! "GPU_TASK_DEFINITION_ARN" = Some gpu_arn ->
  selector_in instance_type LambdaFunction.gpu_instance_types = Some t ->
  LambdaFunction.get_task_configuration E (PStr model_id) instance_type w
  = (Ok {| LambdaFunction.container_image := image_of E model_id;
           LambdaFunction.launch_type := "EC2";
           LambdaFunction.task_definition := gpu_arn;
           LambdaFunction.placement_constraints :=
             Some (LambdaFunction.pin_instance_type t) |}, w).
Proof.
  intros Hcpu Hgpu Hsel. unfold LambdaFunction.get_task_configuration.
  do 2 run_step. rewrite Hsel. run_step. reflexivity.
Qed.

Lemma get_task_configuration_large (E : Env) (model_id t cpu_arn : string)
    (instance_type : pyval) (w : World) :
  environ E !! "CPU_TASK_DEFINITION_ARN" = Some cpu_arn ->
  selector_in instance_type LambdaFunction.gpu_instance_types = None ->
  selector_in instance_type LambdaFunction.large_cpu_types = Some t ->
  LambdaFunction.get_task_configuration E (PStr model_id) instance_type w
  = (Ok {| LambdaFunction.container_image := image_of E model_id;
           LambdaFunction.launch_type := "EC2";
           LambdaFunction.task_definition := cpu_arn;
           LambdaFunction.placement_constraints :=
             Some (LambdaFunction.pin_instance_type t) |}, w).
Proof.
  intros Hcpu Hg Hc. unfold LambdaFunction.get_task_configuration.
  do 2 run_step. rewrite Hg, Hc. reflexivity.
Qed.

Lemma get_task_configuration_default (E : Env) (model_id cpu_arn : string)
    (instance_type : pyval) (w : World) :
  environ E !! "CPU_TASK_DEFINITION_ARN" = Some cpu_arn ->
  selector_in instance_type LambdaFunction.gpu_instance_types = None ->
  selector_in instance_type LambdaFunction.large_cpu_types = None ->
  LambdaFunction.get_task_configuration E (PStr model_id) instance_type w
  = (Ok {| LambdaFunction.container_image := image_of E model_id;
           LambdaFunction.launch_type := "FARGATE";
           LambdaFunction.task_definition := cpu_arn;
           LambdaFunction.placement_constraints := None |}, w).
Proof.
  intros Hcpu Hg Hc. unfold LambdaFunction.get_task_configuration.
  do 2 run_step. rewrite Hg, Hc. reflexivity.
Qed.

Ltac pick_request :=
  lazymatch goal with
  | |- _ = (match ecs_run_task _ ?pe with _ => _ end, _) =>
      match goal with
      | |- context [EcsRunTask ?q] =>
          tryif is_evar q then fail else unify pe q
      end
  end.

(** How a task is launched. With the deployment configured, starting the
    task of an instance issues exactly one [run_task] call and nothing
    else. For a size that is pinned (GPU or large CPU) the call uses the
    EC2 launch type, carries the placement constraint that pins the exact
    instance type and no network configuration. For every other size it
    uses Fargate, carries the private subnets and the security group with
    no public address, and no placement constraint. The task is handed the
    instance identifier, and the ARN of the first task started is
    returned; when none was started the start fails. *)
Theorem start_ecs_task_request (E : Env) (instance_id model_id : string)
    (model_info : dict) (instance_type : pyval) (u : user_info)
    (cpu_arn gpu_arn cluster environment subnets sg : string) (w : World) :
  environ E !! "CPU_TASK_DEFINITION_ARN" = Some cpu_arn ->
  environ E !! "GPU_TASK_DEFINITION_ARN" = Some gpu_arn ->
  environ E !! "ECS_CLUSTER_NAME" = Some cluster ->
  environ E !! "ENVIRONMENT" = Some environment ->
  environ E !! "PRIVATE_SUBNET_IDS" = Some subnets ->
  environ E !! "ECS_SECURITY_GROUP_ID" = Some sg ->
  exists p : run_task_params,
    LambdaFunction.start_ecs_task E instance_id (PStr model_id) model_info
      instance_type u w
    = (match ecs_run_task E p with
       | Ok (task_arn :: _) => Ok task_arn
       | Ok [] => Raise (Exn PlainException "Failed to start ECS task")
       | Raise e => Raise e
       end,
       match ecs_run_task E p with
       | Ok (_ :: _) =>
           with_log INFO "Started ECS task" (with_call (EcsRunTask p) w)
       | _ => with_call (EcsRunTask p) w
       end)
    /\ rt_cluster p = cluster
    /\ In ("INSTANCE_ID", PStr instance_id) (rt_container_environment p)
    /\ (forall t, instance_type = PStr t -> In t pinned_sizes ->
        rt_launchType p = "EC2"
        /\ rt_networkConfiguration p = None
        /\ rt_placementConstraints p
           = Some (LambdaFunction.pin_instance_type t))
    /\ ((forall t, instance_type = PStr t -> ~ In t pinned_sizes) ->
        rt_launchType p = "FARGATE"
        /\ rt_taskDefinition p = cpu_arn
        /\ rt_networkConfiguration p
           = Some {| vpc_subnets := split_on "," subnets;
                     vpc_securityGroups := [Some sg];
                     vpc_assignPublicIp := "DISABLED" |}
        /\ rt_placementConstraints p = None).
Proof.
  intros Hcpu Hgpu Hcluster Henv Hsubnets Hsg.
  unfold LambdaFunction.start_ecs_task.
  destruct (selector_in instance_type LambdaFunction.gpu_instance_types)
    as [g |] eqn:Hg;
    [| destruct (selector_in instance_type LambdaFunction.large_cpu_types)
         as [c |] eqn:Hc ].
  - erewrite bind_ok by (eapply get_task_configuration_gpu; eassumption).
    do 2 run_step.
    cbn [LambdaFunction.launch_type String.eqb Ascii.eqb Bool.eqb].
    run_step. eexists. split.
    { unfold bind. rewrite run_task_run. pick_request.
      destruct (ecs_run_task E _) as [[| arn rest] | e]; reflexivity. }
    split; [reflexivity |]. split; [simpl; tauto |]. split.
    + intros t -> Hin. unfold selector_in in Hg.
      destruct (existsb _ _); [| discriminate]. injection Hg as <-.
      repeat split; reflexivity.
    + intros Hother. exfalso.
      unfold selector_in in Hg. destruct instance_type; try discriminate.
      destruct (existsb (String.eqb s) LambdaFunction.gpu_instance_types)
        eqn:Hex; [| discriminate].
      apply (Hother s eq_refl). apply in_or_app. left.
      now apply existsb_eqb_In.
  - erewrite bind_ok by (eapply get_task_configuration_large; eassumption).
    do 2 run_step.
    cbn [LambdaFunction.launch_type String.eqb Ascii.eqb Bool.eqb].
    run_step. eexists. split.
    { unfold bind. rewrite run_task_run. pick_request.
      destruct (ecs_run_task E _) as [[| arn rest] | e]; reflexivity. }
    split; [reflexivity |]. split; [simpl; tauto |]. split.
    + intros t -> Hin. unfold selector_in in Hc.
      destruct (existsb _ _); [| discriminate]. injection Hc as <-.
      repeat split; reflexivity.
    + intros Hother. exfalso.
      unfold selector_in in Hc. destruct instance_type; try discriminate.
      destruct (existsb (String.eqb s) LambdaFunction.large_cpu_types)
        eqn:Hex; [| discriminate].
      apply (Hother s eq_refl). apply in_or_app. right.
      now apply existsb_eqb_In.
  - erewrite bind_ok by (eapply get_task_configuration_default; eassumption).
    do 2 run_step.
    cbn [LambdaFunction.launch_type String.eqb Ascii.eqb Bool.eqb].
    erewrite bind_ok.
    2:{ do 2 run_step. reflexivity. }
    eexists. split.
    { unfold bind. rewrite run_task_run. pick_request.
      destruct (ecs_run_task E _) as [[| arn rest] | e]; reflexivity. }
    split; [reflexivity |]. split; [simpl; tauto |]. split.
    + intros t -> Hin. exfalso.
      destruct (selector_in_pinned t Hin) as (t' & [H | [_ H]] & _);
        congruence.
    + intros _. repeat split; reflexivity.
Qed.

Lemma start_ecs_task_request_witness :
  exists p : run_task_params,
    LambdaFunction.start_ecs_task plain_env "i-9" (PStr "llama2:7b")
      llama_model (PStr "ml.g4dn.xlarge") alice
      (sample_world alice_task_instance)
    = (Ok "arn:task/1",
       with_log INFO "Started ECS task"
         (with_call (EcsRunTask p) (sample_world alice_task_instance)))
    /\ rt_launchType p = "EC2"
    /\ rt_networkConfiguration p = None
    /\ rt_placementConstraints p
       = Some (LambdaFunction.pin_instance_type "ml.g4dn.xlarge").
Proof.
  destruct (start_ecs_task_request plain_env "i-9" "llama2:7b" llama_model
              (PStr "ml.g4dn.xlarge") alice "arn:task/cpu" "arn:task/gpu"
              "dev-cluster" "dev" "subnet-1,subnet-2" "sg-1"
              (sample_world alice_task_instance))
    as (p & Hrun & _ & _ & Hpinned & _);
    try solve [vm_compute; reflexivity].
  exists p. split; [exact Hrun |].
  apply (Hpinned "ml.g4dn.xlarge" eq_refl).
  unfold pinned_sizes. simpl. tauto.
Defined.

(** The status of a task is always answered. Whatever ECS answers and
    whatever the configuration, [get_ecs_task_status] returns one of
    starting, running, stopping, stopped and unknown, raises nothing and
    writes to no table. No task under the ARN reads as stopped; a missing
    cluster name or a failing describe call reads as unknown. *)
Theorem get_ecs_task_status_range (E : Env) (task_arn : pyval) (w : World) :
  exists (s : string) (w' : World),
    LambdaFunction.get_ecs_task_status E task_arn w = (Ok s, w')
    /\ In s task_statuses
    /\ tables w' = tables w
    /\ (forall cluster,
          environ E !! "ECS_CLUSTER_NAME" = Some cluster ->
          ecs_describe_tasks E cluster task_arn = Ok [] -> s = "stopped")
    /\ (environ E !! "ECS_CLUSTER_NAME" = None -> s = "unknown")
    /\ (forall cluster e,
          environ E !! "ECS_CLUSTER_NAME" = Some cluster ->
          ecs_describe_tasks E cluster task_arn = Raise e -> s = "unknown").
Proof.
  unfold LambdaFunction.get_ecs_task_status, try_except, bind, os_environ,
    lift_option, describe_tasks, call_result, bind, issue, lift_result, ret,
    raise, logger, task_statuses.
  destruct (environ E !! "ECS_CLUSTER_NAME") as [cluster |] eqn:Hc; cbn.
  - destruct (ecs_describe_tasks E cluster task_arn) as [[| t ts] | e] eqn:Hd;
      cbn.
    + eexists _, _. split; [reflexivity |]. cbn.
      repeat split; try tauto; intros; simplify_eq; congruence.
    + eexists _, _. split; [reflexivity |]. cbn [tables].
      split.
      { cbn [find fst snd].
        repeat match goal with
               | |- context [String.eqb ?a ?b] => destruct (String.eqb a b)
               end; cbn; tauto. }
      repeat split; intros; simplify_eq; congruence.
    + eexists _, _. split; [reflexivity |]. cbn.
      repeat split; try tauto; intros; simplify_eq; congruence.
  - eexists _, _. split; [reflexivity |]. cbn.
    repeat split; try tauto; intros; simplify_eq; congruence.
Qed.

Ltac status_done :=
  repeat split;
  try reflexivity; try (left; reflexivity); try (right; simpl; tauto);
  try (intros [? | ?]; congruence);
  try match goal with H : _ \/ _ |- _ => destruct H; congruence end;
  try (intros; cbn in *; simplify_eq; congruence).

(** The status of a service is always answered. Whatever ECS answers,
    [get_ecs_service_status] raises nothing and writes to no table; it
    answers one of the six derived statuses or the status stored in the
    record (unknown when the record has none). A record without a service
    name or without a service ARN is answered from the record alone: no
    call is issued and nothing is logged. A failing describe call, like a
    missing ENVIRONMENT variable, is answered with the stored status. *)
Theorem get_ecs_service_status_fallback (E : Env) (instance : dict)
    (w : World) :
  exists (v : pyval) (w' : World),
    Instances.get_ecs_service_status E instance w = (Ok v, w')
    /\ tables w' = tables w
    /\ (v = Instances.stored_status instance \/ In v service_statuses)
    /\ (dmem "service_name" instance = false
        \/ dmem "ecs_service_arn" instance = false ->
        v = Instances.stored_status instance /\ w' = w)
    /\ (environ E !! "ENVIRONMENT" = None ->
        v = Instances.stored_status instance)
    /\ (forall cluster service e,
          Instances.cluster_name E w = (Ok cluster, w) ->
          dget "service_name" instance = Some service ->
          ecs_describe_services E cluster service = Raise e ->
          v = Instances.stored_status instance).
Proof.
  unfold Instances.get_ecs_service_status, service_statuses.
  destruct (dmem "service_name" instance) eqn:Hn;
    [destruct (dmem "ecs_service_arn" instance) eqn:Ha |];
    cbn [negb orb].
  2,3: unfold try_except, ret; eexists _, _; split; [reflexivity |];
       status_done.
  unfold try_except, bind, Instances.cluster_name, bind, os_environ,
    lift_option, subscript, describe_services, call_result, bind, issue,
    lift_result, ret, raise, logger.
  destruct (environ E !! "ENVIRONMENT") as [environment |] eqn:He; cbn.
  2:{ eexists _, _. split; [reflexivity |]. cbn. status_done. }
  destruct (dget "service_name" instance) as [service |] eqn:Hs; cbn.
  2:{ eexists _, _. split; [reflexivity |]. cbn. status_done. }
  destruct (ecs_describe_services E _ service) as [[| svc rest] | e] eqn:Hd;
    cbn.
  - eexists _, _. split; [reflexivity |]. cbn. status_done.
  - repeat match goal with
           | |- context [if ?b then _ else _] => destruct b
           end;
      (eexists _, _; split; [reflexivity |]; cbn; status_done).
  - eexists _, _. split; [reflexivity |]. cbn. status_done.
Qed.

(** ** Creating an instance *)

Lemma put_item_ok (E : Env) (tn keyattr k : string) (item : dict)
    (t : gmap string dict) (w : World) :
  dynamo_fault E tn (PutItem item) = None ->
  tables w !! tn = Some t ->
  dget keyattr item = Some (PStr k) ->
  put_item E tn keyattr item w = (Ok tt, set_table tn (<[k := item]> t) w).
Proof.
  intros Hf Ht Hk. unfold put_item, write_table, dget_default.
  now rewrite Hf, Ht, Hk.
Qed.

Lemma put_item_fault (E : Env) (tn keyattr : string) (item : dict) (e : exn)
    (w : World) :
  dynamo_fault E tn (PutItem item) = Some e ->
  put_item E tn keyattr item w = (Raise e, w).
Proof. intros Hf. unfold put_item, write_table. now rewrite Hf. Qed.

(** Starting the task of an instance touches no table. *)
Lemma start_ecs_task_tables (E : Env) (i : string) (m : pyval) (info : dict)
    (v : pyval) (u : user_info) (w : World) :
  tables (snd (LambdaFunction.start_ecs_task E i m info v u w)) = tables w.
Proof.
  apply (keeps_snd (fun w0 w1 => tables w1 = tables w0) (fun _ => True)).
  first [ eapply keeps_start_ecs_task with (call_ok := fun _ => True)
        | eapply keeps_start_ecs_task ];
    try solve [ intros; cbn; congruence | intros; exact I | eauto ].
Qed.

(** The body of a create request, read as the handler reads it. *)
Lemma create_request_read (body : dict) (model_id : string) :
  dget "modelId" body = Some (PStr model_id) ->
  dget_default "modelId" PNone body = PStr model_id.
Proof. intros H. unfold dget_default. now rewrite H. Qed.

(** A create that succeeds. For a model of the catalog whose name is a
    string, a string instance type and a task that started, [create_instance]
    answers 201 and puts one record under the fresh identifier in the
    Instances table, replacing what was there under that key and leaving
    every other record; nothing is called after the task was started. The
    record names the caller as owner, the model, the task, and has status
    starting. From then on the record is guarded: a caller who is neither
    the owner nor an administrator is refused its deletion with 403. *)
Theorem create_instance_persists (E : Env) (event : dict) (u : user_info)
    (raw : pyval) (name : string) (body model_info : dict)
    (model_id ity mt tn task_arn : string) (models t : gmap string dict)
    (w w1 : World) :
  dget "body" event = Some raw ->
  json_loads E raw = Ok (PDict body) ->
  dget "modelId" body = Some (PStr model_id) ->
  model_id <> EmptyString ->
  dget_default "instanceType" (PStr "ml.m5.large") body = PStr ity ->
  environ E !! "MODELS_TABLE_NAME" = Some mt ->
  environ E !! "INSTANCES_TABLE_NAME" = Some tn ->
  dynamo_fault E mt (GetItem (PStr model_id)) = None ->
  dynamo_fault E tn (GetItem (PStr (uuid4 E))) = None ->
  (forall item, dynamo_fault E tn (PutItem item) = None) ->
  tables w !! mt = Some models ->
  models !! model_id = Some model_info ->
  dget "name" model_info = Some (PStr name) ->
  tables w !! tn = Some t ->
  LambdaFunction.start_ecs_task E (uuid4 E) (PStr model_id) model_info
    (PStr ity) u w = (Ok task_arn, w1) ->
  exists (r : response) (record : dict) (w' : World),
    LambdaFunction.create_instance E event u w = (Ok r, w')
    /\ statusCode r = 201
    /\ tables w' = <[tn := <[uuid4 E := record]> t]> (tables w)
    /\ calls w' = calls w1
    /\ dget "id" record = Some (PStr (uuid4 E))
    /\ dget "user_id" record = Some (user_id u)
    /\ dget "model_id" record = Some (PStr model_id)
    /\ dget "status" record = Some (PStr "starting")
    /\ dget "task_arn" record = Some (PStr task_arn)
    /\ (forall stranger,
          py_eq (user_id u) (user_id stranger) = false ->
          is_admin stranger = false ->
          LambdaFunction.delete_instance E (uuid4 E) stranger w'
          = (Ok (forbidden TaskDelete), w')).
Proof.
  intros Hbody Hjson Hid Hne Hity Hmt Htn Hget Hget' Hput Hmodels Hinfo Hname
    Htab Hstart.
  pose proof (start_ecs_task_tables E (uuid4 E) (PStr model_id) model_info
                (PStr ity) u w) as Hsame.
  rewrite Hstart in Hsame. cbn [snd] in Hsame.
  assert (Htab1 : tables w1 !! tn = Some t) by now rewrite Hsame.
  pose proof (create_request_read body model_id Hid) as Hmid.
  eexists _, _, _. split; [| split; [| split; [| split]]].
  - unfold LambdaFunction.create_instance. eapply try_except_ok.
    run_step.
    erewrite bind_ok by (eapply lift_result_ok; eassumption).
    do 2 run_step. rewrite Hmid, Hity, (truthy_str model_id Hne).
    cbn [negb]. do 2 run_step. rewrite Hinfo. cbv beta iota.
    erewrite bind_ok by exact Hstart.
    do 3 run_step.
    erewrite bind_ok
      by (eapply put_item_ok; [apply Hput | exact Htab1 | reflexivity]).
    do 2 run_step. reflexivity.
  - reflexivity.
  - cbn [tables with_log set_table]. rewrite Hsame. reflexivity.
  - reflexivity.
  - repeat split; try reflexivity.
    intros stranger Hother Hadm.
    eapply (guarded_refuses_stranger E TaskDelete);
      [ exact Htn | exact Hget' | cbn; apply lookup_insert_eq
      | apply lookup_insert_eq | reflexivity | exact Hother | exact Hadm ].
Qed.

Lemma create_instance_persists_witness :
  exists (r : response) (w' : World),
    LambdaFunction.create_instance plain_env
      (create_event "modelId" "llama2:7b") alice
      (sample_world alice_task_instance) = (Ok r, w')
    /\ statusCode r = 201
    /\ tables w' !! "instances"
       = Some (<[ "0f8fad5b-d9cb-469f-a165-70867728950e"
                  := created_task_instance ]>
                 {[ "i-1" := alice_task_instance ]})
    /\ LambdaFunction.delete_instance plain_env
         "0f8fad5b-d9cb-469f-a165-70867728950e" bob w'
       = (Ok (forbidden TaskDelete), w').
Proof.
  destruct (create_instance_persists plain_env
              (create_event "modelId" "llama2:7b") alice
              (PStr (json_member "modelId" "llama2:7b")) "Llama 2 7B"
              [("modelId", PStr "llama2:7b")] llama_model
              "llama2:7b" "ml.m5.large" "models" "instances" "arn:task/1"
              {[ "llama2:7b" := llama_model ]}
              {[ "i-1" := alice_task_instance ]}
              (sample_world alice_task_instance)
              (snd (LambdaFunction.start_ecs_task plain_env
                      "0f8fad5b-d9cb-469f-a165-70867728950e"
                      (PStr "llama2:7b") llama_model (PStr "ml.m5.large")
                      alice (sample_world alice_task_instance))))
    as (r & record & w' & Hrun & Hcode & Htab & _ & Hr1 & Hr2 & Hr3 & Hr4
        & Hr5 & Hguard);
    try solve [reflexivity | vm_compute; reflexivity | discriminate].
  exists r, w'. split; [exact Hrun |]. split; [exact Hcode |]. split.
  - assert (Hw : w' = snd (LambdaFunction.create_instance plain_env
                             (create_event "modelId" "llama2:7b") alice
                             (sample_world alice_task_instance)))
      by now rewrite Hrun.
    rewrite Hw. vm_compute. reflexivity.
  - apply Hguard; reflexivity.
Defined.

(** A create whose task does not start. When [start_ecs_task] raises
    (the cluster refused, or started nothing) the answer is 500 with the
    text of the exception, and no record is written: the tables are what
    they were. *)
Theorem create_instance_task_failure (E : Env) (event : dict) (u : user_info)
    (raw : pyval) (body model_info : dict) (instance_type : pyval)
    (model_id mt : string) (models : gmap string dict) (e : exn)
    (w w1 : World) :
  dget "body" event = Some raw ->
  json_loads E raw = Ok (PDict body) ->
  dget "modelId" body = Some (PStr model_id) ->
  model_id <> EmptyString ->
  dget_default "instanceType" (PStr "ml.m5.large") body = instance_type ->
  environ E !! "MODELS_TABLE_NAME" = Some mt ->
  dynamo_fault E mt (GetItem (PStr model_id)) = None ->
  tables w !! mt = Some models ->
  models !! model_id = Some model_info ->
  LambdaFunction.start_ecs_task E (uuid4 E) (PStr model_id) model_info
    instance_type u w = (Raise e, w1) ->
  LambdaFunction.create_instance E event u w
  = (Ok (create_failed e), with_log ERROR "Error creating instance" w1)
  /\ tables w1 = tables w.
Proof.
  intros Hbody Hjson Hid Hne Hity Hmt Hget Hmodels Hinfo Hstart.
  pose proof (start_ecs_task_tables E (uuid4 E) (PStr model_id) model_info
                instance_type u w) as Hsame.
  rewrite Hstart in Hsame. cbn [snd] in Hsame.
  pose proof (create_request_read body model_id Hid) as Hmid.
  split; [| exact Hsame].
  unfold LambdaFunction.create_instance.
  erewrite try_except_raise; [reflexivity |].
  run_step.
  erewrite bind_ok by (eapply lift_result_ok; eassumption).
  do 2 run_step. rewrite Hmid, Hity, (truthy_str model_id Hne).
  cbn [negb]. do 2 run_step. rewrite Hinfo. cbv beta iota.
  erewrite bind_raise by exact Hstart. reflexivity.
Qed.

Lemma create_instance_task_failure_witness :
  LambdaFunction.create_instance no_capacity_env
    (create_event "modelId" "llama2:7b") alice
    (sample_world alice_task_instance)
  = (Ok (create_failed (Exn PlainException "Failed to start ECS task")),
     with_log ERROR "Error creating instance"
       (snd (LambdaFunction.start_ecs_task no_capacity_env
               "0f8fad5b-d9cb-469f-a165-70867728950e"
               (PStr "llama2:7b") llama_model (PStr "ml.m5.large")
               alice (sample_world alice_task_instance)))).
Proof.
  refine (proj1 (create_instance_task_failure no_capacity_env
            (create_event "modelId" "llama2:7b") alice
            (PStr (json_member "modelId" "llama2:7b"))
            [("modelId", PStr "llama2:7b")] llama_model (PStr "ml.m5.large")
            "llama2:7b" "models" {[ "llama2:7b" := llama_model ]}
            (Exn PlainException "Failed to start ECS task")
            (sample_world alice_task_instance) _
            _ _ _ _ _ _ _ _ _ _));
    solve [reflexivity | vm_compute; reflexivity | discriminate].
Defined.

(** A create whose record cannot be written. When the task started but
    the store refuses the write, the answer is 500 with the text of the
    store's exception and no record exists; nothing is done about the task
    that was started: no call follows [run_task], so the task keeps running
    without a record. *)
Theorem create_instance_no_rollback (E : Env) (event : dict) (u : user_info)
    (raw name : pyval) (body model_info : dict)
    (model_id ity mt tn task_arn : string) (models : gmap string dict)
    (e : exn) (w w1 : World) :
  dget "body" event = Some raw ->
  json_loads E raw = Ok (PDict body) ->
  dget "modelId" body = Some (PStr model_id) ->
  model_id <> EmptyString ->
  dget_default "instanceType" (PStr "ml.m5.large") body = PStr ity ->
  environ E !! "MODELS_TABLE_NAME" = Some mt ->
  environ E !! "INSTANCES_TABLE_NAME" = Some tn ->
  dynamo_fault E mt (GetItem (PStr model_id)) = None ->
  (forall item, dynamo_fault E tn (PutItem item) = Some e) ->
  tables w !! mt = Some models ->
  models !! model_id = Some model_info ->
  dget "name" model_info = Some name ->
  LambdaFunction.start_ecs_task E (uuid4 E) (PStr model_id) model_info
    (PStr ity) u w = (Ok task_arn, w1) ->
  LambdaFunction.create_instance E event u w
  = (Ok (create_failed e), with_log ERROR "Error creating instance" w1)
  /\ tables w1 = tables w.
Proof.
  intros Hbody Hjson Hid Hne Hity Hmt Htn Hget Hput Hmodels Hinfo Hname
    Hstart.
  pose proof (start_ecs_task_tables E (uuid4 E) (PStr model_id) model_info
                (PStr ity) u w) as Hsame.
  rewrite Hstart in Hsame. cbn [snd] in Hsame.
  pose proof (create_request_read body model_id Hid) as Hmid.
  split; [| exact Hsame].
  unfold LambdaFunction.create_instance.
  erewrite try_except_raise; [reflexivity |].
  run_step.
  erewrite bind_ok by (eapply lift_result_ok; eassumption).
  do 2 run_step. rewrite Hmid, Hity, (truthy_str model_id Hne).
  cbn [negb]. do 2 run_step. rewrite Hinfo. cbv beta iota.
  erewrite bind_ok by exact Hstart.
  do 3 run_step.
  erewrite bind_raise by (eapply put_item_fault; apply Hput).
  reflexivity.
Qed.

Lemma create_instance_no_rollback_witness :
  LambdaFunction.create_instance read_only_env
    (create_event "modelId" "llama2:7b") alice
    (sample_world alice_task_instance)
  = (Ok (create_failed
           (Exn ClientError "ProvisionedThroughputExceededException")),
     with_log ERROR "Error creating instance"
       (snd (LambdaFunction.start_ecs_task read_only_env
               "0f8fad5b-d9cb-469f-a165-70867728950e"
               (PStr "llama2:7b") llama_model (PStr "ml.m5.large")
               alice (sample_world alice_task_instance)))).
Proof.
  refine (proj1 (create_instance_no_rollback read_only_env
            (create_event "modelId" "llama2:7b") alice
            (PStr (json_member "modelId" "llama2:7b")) (PStr "Llama 2 7B")
            [("modelId", PStr "llama2:7b")] llama_model
            "llama2:7b" "ml.m5.large" "models" "instances" "arn:task/1"
            {[ "llama2:7b" := llama_model ]}
            (Exn ClientError "ProvisionedThroughputExceededException")
            (sample_world alice_task_instance) _
            _ _ _ _ _ _ _ _ _ _ _ _ _));
    solve [reflexivity | vm_compute; reflexivity | discriminate].
Defined.

(** ** Reconciling the stored status *)

Lemma update_item_fault (E : Env) (tn keyattr : string) (key : pyval)
    (sets : list (string * pyval)) (e : exn) (w : World) :
  dynamo_fault E tn (UpdateItem key) = Some e ->
  update_item E tn keyattr key sets w = (Raise e, w).
Proof. intros Hf. unfold update_item, write_table. now rewrite Hf. Qed.


Lemma get_ecs_service_status_total (E : Env) (instance : dict) (w : World) :
  exists (v : pyval) (w' : World),
    Instances.get_ecs_service_status E instance w = (Ok v, w')
    /\ tables w' = tables w.
Proof.
  unfold Instances.get_ecs_service_status.
  destruct (negb (dmem "service_name" instance)
            || negb (dmem "ecs_service_arn" instance));
    [unfold try_except, ret; eexists _, _; split; reflexivity |].
  unfold try_except, bind, Instances.cluster_name, bind, os_environ,
    lift_option, subscript, describe_services, call_result, bind, issue,
    lift_result, ret, raise, logger.
  destruct (environ E !! "ENVIRONMENT") as [environment |]; cbn;
    [| eexists _, _; split; reflexivity].
  destruct (dget "service_name" instance) as [service |]; cbn;
    [| eexists _, _; split; reflexivity].
  destruct (ecs_describe_services E _ service) as [[| svc rest] | e]; cbn;
    [eexists _, _; split; reflexivity | | eexists _, _; split; reflexivity].
  repeat match goal with
         | |- context [if ?b then _ else _] => destruct b
         end; eexists _, _; split; reflexivity.
Qed.

Lemma get_ecs_service_details_total (E : Env) (instance : dict) (w : World) :
  exists (v : pyval) (w' : World),
    Instances.get_ecs_service_details E instance w = (Ok v, w')
    /\ tables w' = tables w.
Proof.
  unfold Instances.get_ecs_service_details.
  destruct (negb (dmem "service_name" instance));
    [unfold try_except, ret; eexists _, _; split; reflexivity |].
  unfold try_except, bind, Instances.cluster_name, bind, os_environ,
    lift_option, subscript, describe_services, call_result, bind, issue,
    lift_result, ret, raise, logger.
  destruct (environ E !! "ENVIRONMENT") as [environment |]; cbn;
    [| eexists _, _; split; reflexivity].
  destruct (dget "service_name" instance) as [service |]; cbn;
    [| eexists _, _; split; reflexivity].
  destruct (ecs_describe_services E _ service) as [[| svc rest] | e]; cbn;
    eexists _, _; split; reflexivity.
Qed.

(** A status request reconciles the record. For the owner or an
    administrator, with the record readable and its stored status a
    string, [get_instance_status] always answers 200 with the stored and
    the real-time status. When the two
    are equal no table changes. When they differ the record's status is
    set to the real-time one and [last_status_update] to now; if the store
    refuses that write the answer is the same 200 and the tables are
    unchanged. *)
Theorem get_instance_status_reconciles (E : Env) (instance_id tn : string)
    (u : user_info) (t : gmap string dict) (instance : dict) (owner : pyval)
    (w : World) :
  environ E !! "INSTANCES_TABLE_NAME" = Some tn ->
  dynamo_fault E tn (GetItem (PStr instance_id)) = None ->
  tables w !! tn = Some t ->
  t !! instance_id = Some instance ->
  dget "user_id" instance = Some owner ->
  py_eq owner (user_id u) = true \/ is_admin u = true ->
  no_number (Instances.stored_status instance) = true ->
  exists (real details : pyval) (w' : World),
    Instances.get_instance_status E instance_id u w
    = (Ok (Instances.create_success_response
             (status_doc E instance_id instance real details) 200), w')
    /\ fst (Instances.get_ecs_service_status E instance w) = Ok real
    /\ tables w'
       = if py_eq real (Instances.stored_status instance) then tables w
         else
           match dynamo_fault E tn (UpdateItem (PStr instance_id)) with
           | Some _ => tables w
           | None =>
               <[tn := <[instance_id :=
                           dset "last_status_update" (PStr (now_iso E))
                             (dset "status" real instance)]> t]> (tables w)
           end.
Proof.
  intros Henv Hget Htab Hinst Howner Hok _.
  destruct (get_ecs_service_status_total E instance w)
    as (real & w1 & Hst & Ht1).
  destruct (get_ecs_service_details_total E instance w1)
    as (details & w2 & Hd & Ht2).
  assert (Htab2 : tables w2 !! tn = Some t) by now rewrite Ht2, Ht1.
  exists real, details.
  destruct (py_eq real (Instances.stored_status instance)) eqn:Heq;
    [| destruct (dynamo_fault E tn (UpdateItem (PStr instance_id)))
         as [e |] eqn:Hup ];
    eexists; (split; [| split; [now rewrite Hst |]]).
  - unfold Instances.get_instance_status. eapply try_except_ok.
    do 2 run_step. rewrite Hinst. cbv beta iota.
    erewrite bind_ok by (eapply access_granted; eassumption).
    cbv beta iota.
    erewrite bind_ok by exact Hst.
    erewrite bind_ok by exact Hd.
    rewrite Heq. cbn [negb]. run_step. reflexivity.
  - now rewrite Ht2, Ht1.
  - unfold Instances.get_instance_status. eapply try_except_ok.
    do 2 run_step. rewrite Hinst. cbv beta iota.
    erewrite bind_ok by (eapply access_granted; eassumption).
    cbv beta iota.
    erewrite bind_ok by exact Hst.
    erewrite bind_ok by exact Hd.
    rewrite Heq. cbn [negb].
    erewrite bind_ok.
    2:{ erewrite try_except_raise; [reflexivity |].
        erewrite bind_raise by (eapply update_item_fault; exact Hup).
        reflexivity. }
    reflexivity.
  - cbn [tables with_log]. now rewrite Ht2, Ht1.
  - unfold Instances.get_instance_status. eapply try_except_ok.
    do 2 run_step. rewrite Hinst. cbv beta iota.
    erewrite bind_ok by (eapply access_granted; eassumption).
    cbv beta iota.
    erewrite bind_ok by exact Hst.
    erewrite bind_ok by exact Hd.
    rewrite Heq. cbn [negb].
    erewrite bind_ok.
    2:{ eapply try_except_ok.
        erewrite bind_ok by (eapply update_item_ok; eassumption).
        reflexivity. }
    reflexivity.
  - cbn [tables with_log set_table]. rewrite Hinst, Ht2, Ht1. reflexivity.
Qed.

Lemma get_instance_status_reconciles_witness :
  exists (real details : pyval) (w' : World),
    Instances.get_instance_status plain_env "i-1" alice
      (sample_world (alice_service_instance "running"))
    = (Ok (Instances.create_success_response
             (status_doc plain_env "i-1" (alice_service_instance "running")
                real details) 200), w')
    /\ real = PStr "starting"
    /\ tables w' !! "instances"
       = Some {[ "i-1" :=
                   dset "last_status_update" (PStr "2024-05-01T12:00:00+00:00")
                     (alice_service_instance "starting") ]}.
Proof.
  destruct (get_instance_status_reconciles plain_env "i-1" "instances" alice
              {[ "i-1" := alice_service_instance "running" ]}
              (alice_service_instance "running") (PStr "alice")
              (sample_world (alice_service_instance "running")))
    as (real & details & w' & Hrun & Hreal & Htab);
    try solve [reflexivity | vm_compute; reflexivity | left; reflexivity].
  assert (Hr : real = PStr "starting").
  { vm_compute in Hreal. now injection Hreal as <-. }
  exists real, details, w'. split; [exact Hrun |]. split; [exact Hr |].
  rewrite Htab, Hr. vm_compute. reflexivity.
Defined.

Lemma complete_record_field (keys : list string) (instance : dict)
    (k : string) :
  Forall (fun k => dget k instance <> None) keys ->
  In k keys ->
  exists v, dget k instance = Some v.
Proof.
  intros Hall Hin. rewrite Forall_forall in Hall.
  specialize (Hall k). rewrite list_elem_of_In in Hall.
  specialize (Hall Hin).
  destruct (dget k instance) as [v |]; [now exists v | contradiction].
Qed.



(** ** Routing *)

Lemma split_on_no_sep (c : ascii) (s : string) :
  count_char c s = 0%nat -> split_on c s = [s].
Proof.
  induction s as [| a s IH]; simpl; [reflexivity |].
  destruct (Ascii.eqb c a); [discriminate |].
  intros H. now rewrite IH.
Qed.

Lemma split_on_app_sep (c : ascii) (a b : string) :
  count_char c a = 0%nat ->
  split_on c (a +:+ String c b) = a :: split_on c b.
Proof.
  induction a as [| x a IH]; simpl.
  - now rewrite Ascii.eqb_refl.
  - destruct (Ascii.eqb c x); [discriminate |].
    intros H. now rewrite IH.
Qed.

Lemma count_char_app (c : ascii) (a b : string) :
  count_char c (a +:+ b) = (count_char c a + count_char c b)%nat.
Proof.
  induction a as [| x a IH]; simpl; [reflexivity |].
  rewrite IH. now rewrite Nat.add_assoc.
Qed.

Lemma string_length_app (a b : string) :
  String.length (a +:+ b) = (String.length a + String.length b)%nat.
Proof. induction a as [| x a IH]; simpl; [reflexivity | now rewrite IH]. Qed.

Lemma substring_app_skip (a b : string) (k m : nat) :
  String.substring (String.length a + k) m (a +:+ b) = String.substring k m b.
Proof. induction a as [| x a IH]; simpl; [reflexivity | exact IH]. Qed.

Lemma substring_whole (b : string) :
  String.substring 0 (String.length b) b = b.
Proof. induction b as [| x b IH]; simpl; [reflexivity | now rewrite IH]. Qed.

Lemma endswith_app (a b : string) : endswith (a +:+ b) b = true.
Proof.
  unfold endswith. rewrite string_length_app.
  replace (String.length a + String.length b - String.length b)%nat
    with (String.length a + 0)%nat by lia.
  rewrite substring_app_skip, substring_whole, String.eqb_refl.
  rewrite andb_true_r. apply Nat.leb_le. lia.
Qed.

Lemma status_is_not_logs (a : string) :
  endswith (a +:+ "/status") "/logs" = false.
Proof.
  unfold endswith. rewrite string_length_app.
  replace (String.length a + String.length "/status" - String.length "/logs")%nat
    with (String.length a + 2)%nat by (simpl; lia).
  rewrite substring_app_skip. simpl. apply andb_false_r.
Qed.

Lemma prefix_empty (s : string) : String.prefix EmptyString s = true.
Proof. now destruct s. Qed.

Lemma startswith_app (p s : string) : startswith (p +:+ s) p = true.
Proof.
  unfold startswith. induction p as [| a p IH]; simpl.
  - apply prefix_empty.
  - destruct (ascii_dec a a); [exact IH | contradiction].
Qed.

Lemma startswith_app_app (p s t : string) :
  startswith ((p +:+ s) +:+ t) p = true.
Proof.
  unfold startswith. induction p as [| a p IH]; simpl.
  - apply prefix_empty.
  - destruct (ascii_dec a a); [exact IH | contradiction].
Qed.

Lemma split_instance_path (i : string) :
  count_char "/" i = 0%nat ->
  split_on "/" ("/instances/" +:+ i) = [EmptyString; "instances"; i].
Proof.
  intros Hi.
  change ("/instances/" +:+ i)
    with (EmptyString +:+ String "/" ("instances" +:+ String "/" i)).
  rewrite split_on_app_sep by reflexivity.
  rewrite split_on_app_sep by reflexivity.
  now rewrite split_on_no_sep.
Qed.

Lemma split_instance_subpath (i sub : string) :
  count_char "/" i = 0%nat ->
  count_char "/" sub = 0%nat ->
  split_on "/" (("/instances/" +:+ i) +:+ String "/" sub)
  = [EmptyString; "instances"; i; sub].
Proof.
  intros Hi Hsub.
  change (("/instances/" +:+ i) +:+ String "/" sub)
    with (EmptyString
          +:+ String "/" ("instances" +:+ String "/" (i +:+ String "/" sub))).
  rewrite split_on_app_sep by reflexivity.
  rewrite split_on_app_sep by reflexivity.
  rewrite split_on_app_sep by assumption.
  now rewrite split_on_no_sep.
Qed.

Lemma split_model_subpath (i sub : string) :
  count_char "/" i = 0%nat ->
  count_char "/" sub = 0%nat ->
  split_on "/" (("/models/" +:+ i) +:+ String "/" sub)
  = [EmptyString; "models"; i; sub].
Proof.
  intros Hi Hsub.
  change (("/models/" +:+ i) +:+ String "/" sub)
    with (EmptyString
          +:+ String "/" ("models" +:+ String "/" (i +:+ String "/" sub))).
  rewrite split_on_app_sep by reflexivity.
  rewrite split_on_app_sep by reflexivity.
  rewrite split_on_app_sep by assumption.
  now rewrite split_on_no_sep.
Qed.

Lemma count_instance_path (i : string) :
  count_char "/" i = 0%nat ->
  count_char "/" ("/instances/" +:+ i) = 2%nat.
Proof. intros Hi. rewrite count_char_app, Hi. reflexivity. Qed.

Lemma count_instance_subpath (i sub : string) :
  count_char "/" i = 0%nat ->
  count_char "/" sub = 0%nat ->
  count_char "/" (("/instances/" +:+ i) +:+ String "/" sub) = 3%nat.
Proof.
  intros Hi Hsub. rewrite count_char_app, count_instance_path by assumption.
  simpl. now rewrite Hsub.
Qed.

(** Decide the comparisons of a route that do not depend on the
    identifier. *)
Ltac route_bools :=
  repeat match goal with
         | |- context [is_str ?a (PStr ?b)] =>
             let v := eval vm_compute in (is_str a (PStr b)) in
             match v with
             | true => change (is_str a (PStr b)) with true
             | false => change (is_str a (PStr b)) with false
             end
         end;
  rewrite ?startswith_app, ?startswith_app_app, ?andb_false_r;
  cbn [andb negb orb].

(** Every route reaches its operation. A request with the method and the
    path of a guarded operation, for an identifier that has no slash, is
    dispatched, after the caller was read and the request logged, to that
    operation, with that identifier and that caller. *)
Theorem routes_reach_operations (E : Env) (op : guarded_operation)
    (event : dict) (instance_id : string) (u : user_info) (w : World) :
  count_char "/" instance_id = 0%nat ->
  dget "httpMethod" event = Some (PStr (route_method op)) ->
  dget "path" event = Some (PStr (route_path op instance_id)) ->
  route_user op event w = (Ok u, w) ->
  route_dispatch E op event w
  = run_guarded E op instance_id u (with_log INFO "Processing request" w).
Proof.
  intros Hid Hmethod Hpath Huser.
  destruct op; cbn [route_method route_path route_user route_dispatch
                      run_guarded] in *.
  - unfold LambdaFunction.dispatch. do 2 run_step.
    erewrite bind_ok by exact Huser. run_step.
    route_bools. run_step. route_bools.
    rewrite split_instance_path by assumption. reflexivity.
  - unfold LambdaFunction.dispatch. do 2 run_step.
    erewrite bind_ok by exact Huser. run_step.
    route_bools. run_step. route_bools.
    rewrite split_instance_path by assumption. reflexivity.
  - unfold Instances.dispatch. do 2 run_step.
    erewrite bind_ok by exact Huser. run_step.
    route_bools. run_step. route_bools.
    rewrite count_instance_path by assumption. cbn [Nat.ltb Nat.leb negb].
    rewrite split_instance_path by assumption. reflexivity.
  - unfold Instances.dispatch. do 2 run_step.
    erewrite bind_ok by exact Huser. run_step.
    route_bools. run_step. route_bools.
    rewrite count_instance_subpath by (assumption || reflexivity).
    cbn [Nat.ltb Nat.leb negb andb].
    rewrite endswith_app. cbn [andb].
    rewrite split_instance_subpath by (assumption || reflexivity).
    cbn [second_last_item rev app]. run_step. reflexivity.
  - unfold Instances.dispatch. do 2 run_step.
    erewrite bind_ok by exact Huser. run_step.
    route_bools. run_step. route_bools.
    rewrite count_instance_subpath by (assumption || reflexivity).
    cbn [Nat.ltb Nat.leb negb andb].
    rewrite status_is_not_logs, endswith_app. cbn [andb].
    rewrite split_instance_subpath by (assumption || reflexivity).
    cbn [second_last_item rev app]. run_step. reflexivity.
  - unfold Models.dispatch. do 2 run_step.
    erewrite bind_ok by exact Huser. run_step.
    route_bools. run_step. route_bools.
    rewrite endswith_app. cbn [andb].
    rewrite split_model_subpath by (assumption || reflexivity).
    cbn [second_last_item rev app]. run_step. reflexivity.
Qed.

Lemma routes_reach_operations_witness :
  Instances.dispatch plain_env
    (request "GET" "/instances/i-1/logs" alice_claims)
    (sample_world (alice_service_instance "running"))
  = Instances.get_instance_logs plain_env "i-1" alice
      (with_log INFO "Processing request"
         (sample_world (alice_service_instance "running"))).
Proof.
  apply (routes_reach_operations plain_env ServiceLogs
           (request "GET" "/instances/i-1/logs" alice_claims) "i-1" alice
           (sample_world (alice_service_instance "running")));
    reflexivity.
Defined.

(** ** The caller *)

(** The three handlers identify the caller alike. On every event the
    handlers of instances.py and models.py read the same caller, and the
    handler of lambda_function.py reads the same identifier, e-mail
    address and groups, or fails with the same exception; none of them
    changes anything. *)
Theorem callers_identified_alike (event : dict) (w : World) :
  Models.get_user_info_from_context event w
  = Instances.get_user_info_from_context event w
  /\ match LambdaFunction.get_user_info_from_context event w,
           Instances.get_user_info_from_context event w with
     | (Ok a, wa), (Ok b, wb) =>
         user_id a = user_id b /\ email a = email b /\ groups a = groups b
         /\ wa = w /\ wb = w
     | (Raise ea, wa), (Raise eb, wb) => ea = eb /\ wa = w /\ wb = w
     | _, _ => False
     end.
Proof.
  split; [reflexivity |].
  unfold LambdaFunction.get_user_info_from_context,
    Instances.get_user_info_from_context, claims_of_event, groups_of_claim,
    py_get, as_str, bind, ret, raise.
  destruct (dget_default "requestContext" (PDict []) event) as [| | | | |ctx];
    try (repeat split; reflexivity).
  destruct (dget_default "authorizer" (PDict []) ctx) as [| | | | |auth];
    try (repeat split; reflexivity).
  destruct (dget_default "claims" (PDict []) auth) as [| | | | |claims];
    try (repeat split; reflexivity).
  unfold dget_default.
  destruct (dget "cognito:groups" claims) as [g |];
    [| repeat split; reflexivity].
  destruct g as [| b | z | s | l | d]; cbn [truthy];
    try (repeat split; reflexivity).
  - destruct b; repeat split; reflexivity.
  - destruct (z =? 0); repeat split; reflexivity.
  - destruct (String.eqb s EmptyString); repeat split; reflexivity.
  - destruct l; repeat split; reflexivity.
  - destruct d; repeat split; reflexivity.
Qed.

(** ** Listing *)

(** A descending sort by string keys always succeeds, permutes the list
    and leaves no element before one with a greater key. *)
Lemma insert_sorted_desc {A} (key : A -> pyval) (f : A -> string) (x : A)
    (l : list A) :
  key x = PStr (f x) ->
  Forall (fun a => key a = PStr (f a)) l ->
  StronglySorted (fun a b => String.ltb (f a) (f b) = false) l ->
  exists r,
    insert_sorted key true x l = Ok r
    /\ Permutation (x :: l) r
    /\ StronglySorted (fun a b => String.ltb (f a) (f b) = false) r.
Proof.
  intros Hx. induction l as [| y l IH]; intros Hkeys Hsorted; simpl.
  - exists [x]. repeat split; [reflexivity |].
    constructor; constructor.
  - apply Forall_cons in Hkeys as [Hy Hkeys].
    apply StronglySorted_inv in Hsorted as [Hl Hyl].
    rewrite Hx, Hy. cbn [py_lt].
    destruct (String.ltb (f x) (f y)) eqn:Hxy.
    + destruct (IH Hkeys Hl) as (r & -> & Hperm & Hr).
      exists (y :: r). split; [reflexivity |]. split.
      * rewrite <- Hperm. apply perm_swap.
      * constructor; [exact Hr |].
        rewrite Forall_forall. intros z Hz.
        rewrite <- Hperm in Hz. apply elem_of_cons in Hz as [-> | Hz].
        -- now apply ltb_true_flip.
        -- rewrite Forall_forall in Hyl. now apply Hyl.
    + exists (x :: y :: l). split; [reflexivity |]. split; [reflexivity |].
      constructor; [now constructor |].
      constructor; [exact Hxy |].
      rewrite Forall_forall in Hyl |- *. intros z Hz.
      eapply ltb_false_trans; [exact Hxy |].
      now apply Hyl.
Qed.

Lemma py_sort_desc {A} (key : A -> pyval) (f : A -> string) (l : list A) :
  Forall (fun a => key a = PStr (f a)) l ->
  exists s,
    py_sort key true l = Ok s
    /\ Permutation l s
    /\ StronglySorted (fun a b => String.ltb (f a) (f b) = false) s.
Proof.
  induction l as [| x l IH]; intros Hkeys; simpl.
  - exists []. repeat split; [reflexivity | constructor].
  - apply Forall_cons in Hkeys as [Hx Hkeys].
    destruct (IH Hkeys) as (s & Hs & Hperm & Hsorted). rewrite Hs.
    assert (Hkeys' : Forall (fun a => key a = PStr (f a)) s).
    { rewrite Forall_forall in Hkeys |- *. intros z Hz. apply Hkeys.
      now rewrite Hperm. }
    destruct (insert_sorted_desc key f x s Hx Hkeys' Hsorted)
      as (r & Hr & Hp & Hn).
    exists r. split; [exact Hr |]. split; [| exact Hn].
    rewrite <- Hp. now constructor.
Qed.

Lemma enrich_returns (E : Env) (item : dict) (w : World) :
  exists (d : dict) (w' : World),
    Instances.enrich E item w = (Ok d, w')
    /\ enriched item d
    /\ tables w' = tables w.
Proof.
  destruct (get_ecs_service_status_total E item w) as (v & w1 & Hs & Ht).
  exists (dset "real_time_status" v item), w1.
  split; [| split; [now exists v | exact Ht]].
  unfold Instances.enrich. eapply try_except_ok.
  erewrite bind_ok by exact Hs. reflexivity.
Qed.

Lemma for_each_enrich (E : Env) (l : list dict) (w : World) :
  exists (ys : list dict) (w' : World),
    for_each (Instances.enrich E) l w = (Ok ys, w')
    /\ Forall2 enriched l ys
    /\ tables w' = tables w.
Proof.
  revert w. induction l as [| x l IH]; intros w; simpl.
  - exists [], w. repeat split. constructor.
  - destruct (enrich_returns E x w) as (d & w1 & Hd & Hen & Ht1).
    destruct (IH w1) as (ys & w2 & Hys & Hall & Ht2).
    exists (d :: ys), w2. split; [| split].
    + erewrite bind_ok by exact Hd. erewrite bind_ok by exact Hys.
      reflexivity.
    + now constructor.
    + congruence.
Qed.

Lemma visible_item_stored (u : user_info) (t : gmap string dict)
    (item : dict) :
  item ∈ visible_items u t -> exists k, t !! k = Some item.
Proof.
  intros Hin. unfold visible_items in Hin.
  apply list_elem_of_filter in Hin as [_ Hin].
  apply list_elem_of_fmap in Hin as ([k it] & -> & Hin).
  apply elem_of_map_to_list in Hin. now exists k.
Qed.

Lemma stored_item_visible (u : user_info) (t : gmap string dict) (k : string)
    (item : dict) :
  t !! k = Some item -> visible_to u item = true -> item ∈ visible_items u t.
Proof.
  intros Hk Hvis. unfold visible_items.
  apply list_elem_of_filter. split; [exact Hvis |].
  apply list_elem_of_fmap. exists (k, item). split; [reflexivity |].
  now apply elem_of_map_to_list.
Qed.

Lemma service_list_read (E : Env) (u : user_info) (tn : string)
    (t : gmap string dict) (w : World) :
  tables w !! tn = Some t ->
  (forall op, dynamo_fault E tn op = None) ->
  is_admin u = true \/ (exists a, user_id u = PStr a) ->
  (if is_admin u then scan E tn (fun _ => true)
   else query E tn "UserIdIndex" "user_id" (user_id u) (fun _ => true)) w
  = (Ok (visible_items u t), w).
Proof.
  intros Htab Hfault Hu. unfold visible_items, visible_to.
  destruct (is_admin u) eqn:Hadm.
  - unfold scan, read_table. rewrite Hfault, Htab. reflexivity.
  - destruct Hu as [Hu | [a Ha]]; [discriminate |]. rewrite Ha.
    unfold query, read_table. rewrite Hfault, Htab. do 2 f_equal.
    apply list_filter_iff. intros it. cbn [orb]. now rewrite andb_true_r.
Qed.

(** The list of instances.py. With the store reachable, every stored
    creation date a string and no number in a stored item, [list_instances] answers 200 for an
    administrator and for every caller whose identifier is a string. The
    instances it shows are exactly the stored items the caller may see
    (all of them for an administrator, the caller's own otherwise), each
    once and with its real-time status added, newest first; [count] is
    their number. No table is written. *)
Theorem service_list_newest_first (E : Env) (u : user_info) (tn : string)
    (t : gmap string dict) (w : World) :
  environ E !! "INSTANCES_TABLE_NAME" = Some tn ->
  tables w !! tn = Some t ->
  (forall op, dynamo_fault E tn op = None) ->
  is_admin u = true \/ (exists a, user_id u = PStr a) ->
  (forall k item, t !! k = Some item -> dated item) ->
  (forall k item, t !! k = Some item -> no_number (PDict item) = true) ->
  exists (sorted instances : list dict) (w' : World),
    Instances.list_instances E u w
    = (Ok (Instances.create_success_response (service_list_doc u instances)
             200), w')
    /\ Permutation sorted (visible_items u t)
    /\ StronglySorted not_older sorted
    /\ Forall2 enriched sorted instances
    /\ tables w' = tables w.
Proof.
  intros Henv Htab Hfault Hu Hdated _.
  assert (Hkeys : Forall (fun it => dget_default "created_at" (PStr EmptyString) it
                                    = PStr (created_at it))
                         (visible_items u t)).
  { rewrite Forall_forall. intros it Hit.
    destruct (visible_item_stored u t it Hit) as [k Hk].
    exact (Hdated k it Hk). }
  destruct (py_sort_desc _ created_at _ Hkeys) as (sorted & Hsort & Hperm & Hs).
  destruct (for_each_enrich E sorted w) as (instances & w' & Hfor & Hen & Ht).
  exists sorted, instances, w'.
  split; [| split; [now symmetry | split; [exact Hs | split; assumption]]].
  unfold Instances.list_instances. eapply try_except_ok.
  run_step.
  erewrite bind_ok by (eapply service_list_read; eassumption).
  erewrite bind_ok by (eapply lift_result_ok; exact Hsort).
  erewrite bind_ok by exact Hfor.
  reflexivity.
Qed.

Lemma service_list_newest_first_witness :
  exists (sorted instances : list dict) (w' : World),
    Instances.list_instances plain_env alice two_instances_world
    = (Ok (Instances.create_success_response
             (service_list_doc alice instances) 200), w')
    /\ Permutation sorted
         (visible_items alice
            {[ "i-1" := alice_service_instance "running";
               "i-2" := alice_newer_instance ]})
    /\ StronglySorted not_older sorted
    /\ Forall2 enriched sorted instances.
Proof.
  destruct (service_list_newest_first plain_env alice "instances"
              {[ "i-1" := alice_service_instance "running";
                 "i-2" := alice_newer_instance ]}
              two_instances_world)
    as (sorted & instances & w' & Hrun & Hperm & Hsorted & Hen & _).
  - reflexivity.
  - reflexivity.
  - intros op. reflexivity.
  - right. now exists "alice".
  - intros k item Hk.
    apply lookup_insert_Some in Hk as [[_ <-] | [_ Hk]]; [reflexivity |].
    apply lookup_singleton_Some in Hk as [_ <-]. reflexivity.
  - intros k item Hk.
    apply lookup_insert_Some in Hk as [[_ <-] | [_ Hk]]; [reflexivity |].
    apply lookup_singleton_Some in Hk as [_ <-]. reflexivity.
  - exists sorted, instances, w'. repeat split; assumption.
Defined.

(** [list_view] changes nothing; it fails on the first key it misses. *)
Lemma list_view_pure (item : dict) (w : World) :
  (exists v, LambdaFunction.list_view item w = (Ok v, w))
  \/ (exists key, LambdaFunction.list_view item w = (Raise (key_error key), w)).
Proof.
  unfold LambdaFunction.list_view, bind, subscript, lift_option, ret, raise.
  repeat match goal with
         | |- context [dget ?k item] =>
             destruct (dget k item); [| right; eexists; reflexivity]
         end.
  left. eexists. reflexivity.
Qed.

Lemma list_view_incomplete (item : dict) (key : string) (w : World) :
  In key task_record_keys ->
  dget key item = None ->
  exists key', LambdaFunction.list_view item w = (Raise (key_error key'), w).
Proof.
  intros Hin Hnone.
  destruct (list_view_pure item w) as [[v Hv] | Hraise]; [| exact Hraise].
  exfalso. revert Hv.
  unfold LambdaFunction.list_view, bind, subscript, lift_option, ret, raise.
  destruct (dget "id" item) eqn:H1; [| discriminate].
  destruct (dget "model_id" item) eqn:H2; [| discriminate].
  destruct (dget "model_name" item) eqn:H3; [| discriminate].
  destruct (dget "status" item) eqn:H4; [| discriminate].
  destruct (dget "instance_type" item) eqn:H5; [| discriminate].
  destruct (dget "estimated_cost" item) eqn:H6; [| discriminate].
  destruct (dget "endpoint" item) eqn:H7; [| discriminate].
  destruct (dget "created_at" item) eqn:H8; [| discriminate].
  intros _. simpl in Hin.
  repeat (destruct Hin as [<- | Hin]; [congruence |]). contradiction.
Qed.

Lemma for_each_list_view_raises (l : list dict) (item : dict) (key : string)
    (w : World) :
  In item l ->
  In key task_record_keys ->
  dget key item = None ->
  exists key',
    for_each LambdaFunction.list_view l w = (Raise (key_error key'), w).
Proof.
  intros Hin Hkey Hnone. induction l as [| x l IH]; [contradiction |].
  simpl.
  destruct (list_view_pure x w) as [[v Hv] | [k' Hk']].
  - erewrite bind_ok by exact Hv.
    destruct Hin as [-> | Hin].
    + destruct (list_view_incomplete item key w Hkey Hnone) as [k' Hk'].
      congruence.
    + destruct (IH Hin) as [k' Hk'].
      erewrite bind_raise by exact Hk'. now exists k'.
  - erewrite bind_raise by exact Hk'. now exists k'.
Qed.

Lemma task_list_read (E : Env) (u : user_info) (tn : string)
    (t : gmap string dict) (w : World) :
  tables w !! tn = Some t ->
  dynamo_fault E tn Scan = None ->
  (if is_admin u then scan E tn (fun _ => true)
   else scan E tn (attr_eq "user_id" (user_id u))) w
  = (Ok (visible_items u t), w).
Proof.
  intros Htab Hfault. unfold visible_items, visible_to.
  destruct (is_admin u) eqn:Hadm;
    unfold scan, read_table; rewrite Hfault, Htab; reflexivity.
Qed.

(** One incomplete record breaks the list of lambda_function.py. If an
    item the caller may see lacks one of the eight fields the list shows,
    [list_instances] answers 500 with the [KeyError] as message, for that
    caller and for every administrator, and shows no instance at all. *)
Theorem task_list_fails_on_incomplete_record (E : Env) (u : user_info)
    (tn k key : string) (t : gmap string dict) (item : dict) (w : World) :
  environ E !! "INSTANCES_TABLE_NAME" = Some tn ->
  tables w !! tn = Some t ->
  dynamo_fault E tn Scan = None ->
  t !! k = Some item ->
  visible_to u item = true ->
  In key task_record_keys ->
  dget key item = None ->
  exists key',
    LambdaFunction.list_instances E u w
    = (Ok (LambdaFunction.json_response 500
             (LambdaFunction.error_message_doc "Failed to list instances"
                (key_error key'))),
       with_log ERROR "Error listing instances" w).
Proof.
  intros Henv Htab Hfault Hk Hvis Hkey Hnone.
  assert (Hin : In item (visible_items u t)).
  { apply list_elem_of_In. eapply stored_item_visible; eassumption. }
  destruct (for_each_list_view_raises _ item key w Hin Hkey Hnone)
    as [key' Hraise].
  exists key'. unfold LambdaFunction.list_instances.
  erewrite try_except_raise; [reflexivity |].
  run_step.
  erewrite bind_ok by (eapply task_list_read; eassumption).
  erewrite bind_raise by exact Hraise. reflexivity.
Qed.

Lemma task_list_fails_on_incomplete_record_witness :
  exists key',
    LambdaFunction.list_instances plain_env root
      (sample_world broken_task_instance)
    = (Ok (LambdaFunction.json_response 500
             (LambdaFunction.error_message_doc "Failed to list instances"
                (key_error key'))),
       with_log ERROR "Error listing instances"
         (sample_world broken_task_instance)).
Proof.
  apply (task_list_fails_on_incomplete_record plain_env root "instances"
           "i-1" "endpoint" {[ "i-1" := broken_task_instance ]}
           broken_task_instance (sample_world broken_task_instance));
    try solve [reflexivity | vm_compute; reflexivity].
  simpl. tauto.
Defined.

(** ** The quota: what counts, what frees a slot *)

Lemma count_insert_new (P : dict -> bool) (t : gmap string dict) (k : string)
    (new : dict) :
  t !! k = None ->
  length (filter (fun it => P it = true) (snd <$> map_to_list (<[k := new]> t)))
  = (length (filter (fun it => P it = true) (snd <$> map_to_list t))
     + slot (P new))%nat.
Proof.
  intros Hk.
  assert (Hp : filter (fun it => P it = true)
                      (snd <$> map_to_list (<[k := new]> t))
               ≡ₚ filter (fun it => P it = true)
                         (snd <$> ((k, new) :: map_to_list t))).
  { now rewrite (map_to_list_insert t k new Hk). }
  rewrite (Permutation_length Hp). rewrite fmap_cons. cbn [snd].
  rewrite filter_cons.
  destruct (decide (P new = true)) as [Hd | Hd].
  - rewrite Hd. simpl. lia.
  - apply not_true_is_false in Hd. rewrite Hd. simpl. lia.
Qed.


Lemma active_instances_insert_new (uid : pyval) (t : gmap string dict)
    (k : string) (new : dict) :
  t !! k = None ->
  active_instances uid (<[k := new]> t)
  = (active_instances uid t + slot (counts_for uid new))%nat.
Proof. apply (count_insert_new (counts_for uid)). Qed.






(** ** The errors of the log endpoint *)

(** For an authorized log request, what the listing of the streams
    raises decides the answer: [ResourceNotFoundException] is answered
    with a success, an empty log list and the note "No logs available
    yet"; every other exception is answered 500 "Failed to retrieve
    logs". Either way the listing was the only call, and no table
    changed. *)
Theorem get_instance_logs_listing_errors (E : Env)
    (instance_id tn environment : string) (u : user_info)
    (t : gmap string dict) (instance : dict) (owner : pyval) (e : exn)
    (w : World) :
  environ E !! "INSTANCES_TABLE_NAME" = Some tn ->
  dynamo_fault E tn (GetItem (PStr instance_id)) = None ->
  tables w !! tn = Some t ->
  t !! instance_id = Some instance ->
  dget "user_id" instance = Some owner ->
  py_eq owner (user_id u) = true \/ is_admin u = true ->
  environ E !! "ENVIRONMENT" = Some environment ->
  logs_describe_log_streams E (log_streams_request environment instance_id)
  = Raise e ->
  exists w' : World,
    Instances.get_instance_logs E instance_id u w
    = (Ok (if decide (exn_cls e = ResourceNotFoundException)
           then Instances.create_success_response (no_logs_doc instance_id) 200
           else Instances.create_error_response 500 "Failed to retrieve logs"),
       w')
    /\ tables w' = tables w
    /\ calls w'
       = (calls w
          ++ [LogsDescribeLogStreams
                (log_streams_request environment instance_id)])%list.
Proof.
  intros Henv Hfault Htab Hinst Howner Hok Hname Hlist.
  pose proof (get_instance_logs_by_listing E instance_id tn environment u t
                instance owner w Henv Hfault Htab Hinst Howner Hok Hname)
    as Hrun.
  rewrite Hlist in Hrun. rewrite Hrun.
  destruct (decide (exn_cls e = ResourceNotFoundException));
    eexists; (split; [reflexivity | split; reflexivity]).
Qed.

Lemma get_instance_logs_listing_errors_witness :
  exists w' : World,
    Instances.get_instance_logs strict_logs_env "i-1" alice
      (sample_world (alice_service_instance "running"))
    = (Ok (Instances.create_error_response 500 "Failed to retrieve logs"), w')
    /\ tables w' = tables (sample_world (alice_service_instance "running")).
Proof.
  destruct (get_instance_logs_listing_errors strict_logs_env "i-1" "instances"
              "dev" alice {[ "i-1" := alice_service_instance "running" ]}
              (alice_service_instance "running") (PStr "alice")
              (Exn ClientError "InvalidParameterException")
              (sample_world (alice_service_instance "running")))
    as (w' & Hrun & Htab & _);
    try solve [reflexivity | vm_compute; reflexivity | left; reflexivity].
  exists w'. split; [exact Hrun | exact Htab].
Defined.

(** ** The list of the task surface *)

Lemma list_view_complete (item : dict) (w : World) :
  Forall (fun k => dget k item <> None) task_record_keys ->
  LambdaFunction.list_view item w = (Ok (task_view item), w).
Proof.
  intros Hall.
  unfold LambdaFunction.list_view, task_view, bind, subscript, lift_option,
    ret, raise, dget_default.
  repeat match goal with
         | |- context [dget ?k item] =>
             let H := fresh "H" in
             destruct (complete_record_field _ _ k Hall) as [? H];
             [simpl; tauto | rewrite H; clear H]
         end.
  reflexivity.
Qed.

Lemma for_each_pure {A B} (f : A -> M B) (g : A -> B) (l : list A) (w : World) :
  (forall x, In x l -> f x w = (Ok (g x), w)) ->
  for_each f l w = (Ok (g <$> l), w).
Proof.
  induction l as [| x l IH]; intros Hf; simpl; [reflexivity |].
  erewrite bind_ok by (apply Hf; now left).
  erewrite bind_ok by (apply IH; intros y Hy; apply Hf; now right).
  reflexivity.
Qed.

(** The list of lambda_function.py. With the table readable and every
    record the caller may see listable, [list_instances] answers 200 with
    the view of each such record, all records for an administrator and
    the caller's own otherwise, and changes nothing. So a stored instance
    is shown to its owner and to every administrator. *)
Theorem task_list_shows_visible (E : Env) (u : user_info) (tn : string)
    (t : gmap string dict) (w : World) :
  environ E !! "INSTANCES_TABLE_NAME" = Some tn ->
  tables w !! tn = Some t ->
  dynamo_fault E tn Scan = None ->
  (forall k item, t !! k = Some item -> visible_to u item = true ->
                  listable item) ->
  LambdaFunction.list_instances E u w
  = (Ok (LambdaFunction.json_response 200
           (PList (task_view <$> visible_items u t))), w)
  /\ (forall k item,
        t !! k = Some item ->
        is_admin u = true \/ attr_eq "user_id" (user_id u) item = true ->
        In (task_view item) (task_view <$> visible_items u t)).
Proof.
  intros Henv Htab Hfault Hall. split.
  - unfold LambdaFunction.list_instances. eapply try_except_ok.
    run_step.
    erewrite bind_ok by (eapply task_list_read; eassumption).
    erewrite bind_ok; [reflexivity |].
    apply for_each_pure. intros item Hin.
    apply list_view_complete.
    apply list_elem_of_In in Hin.
    destruct (visible_item_stored u t item Hin) as [k Hk].
    apply (Hall k item Hk).
    unfold visible_items in Hin.
    now apply list_elem_of_filter in Hin as [Hv _].
  - intros k item Hk Hsee. apply in_map.
    apply list_elem_of_In. eapply stored_item_visible; [exact Hk |].
    unfold visible_to. destruct Hsee as [-> | ->]; [reflexivity |].
    apply orb_true_r.
Qed.

Lemma task_list_shows_visible_witness :
  LambdaFunction.list_instances plain_env alice
    (sample_world alice_task_instance)
  = (Ok (LambdaFunction.json_response 200
           (PList [task_view alice_task_instance])),
     sample_world alice_task_instance).
Proof.
  assert (Hall : forall k item,
             ({[ "i-1" := alice_task_instance ]} : gmap string dict) !! k
             = Some item ->
             visible_to alice item = true -> listable item).
  { intros k item Hk _. apply lookup_singleton_Some in Hk as [_ <-].
    split; [repeat constructor; discriminate | reflexivity]. }
  destruct (task_list_shows_visible plain_env alice "instances"
              {[ "i-1" := alice_task_instance ]}
              (sample_world alice_task_instance)
              eq_refl eq_refl eq_refl Hall) as [Hrun _].
  rewrite Hrun. vm_compute. reflexivity.
Defined.
